(** * Statistics and progress aggregation of the fitness / nutrition backend

    A shallow embedding of the two read paths of the backend:

    - [GET /api/progress]    (src/api/progress.mjs), the aligned day series;
    - [GET /api/user/stats]  (src/api/user.mjs, [calculateUserStats]).

    The JavaScript of the handlers is embedded as functions of the answers
    that [client.query] gives (an error monad stands for [await] that may
    throw).  The SQL text of the statements is embedded as functions over
    the tables that src/config/database.mjs declares, each column
    reference being resolved against the columns of its table.

    Conventions of the embedding:
    - a PostgreSQL [DATE] is the number of days since 1970-01-01, a
      [TIMESTAMP] and a JavaScript time value the number of milliseconds
      since the epoch; the process and the session run in UTC;
    - [int8] and [numeric] columns arrive in JavaScript as decimal strings
      or [null]; the embedding carries the number the string denotes
      ([option Z], [option Q]), [None] being [null]; JavaScript doubles are
      carried as the rationals they approximate. *)

From Stdlib Require Import ZArith QArith List String Ascii Bool Lia.
From Stdlib Require Import Numbers.DecimalString.
Import ListNotations.

Open Scope Z_scope.

(** ** Errors and the error monad *)

(** What an awaited call may throw. *)
Inductive Exn : Type :=
| ConnectionError                  (* pool.connect() rejects *)
| QueryError (msg : string)        (* client.query() rejects *)
| UndefinedColumn (col : string)   (* PostgreSQL 42703 *)
| TypeError.                       (* property read on undefined *)

Inductive Result (A : Type) : Type :=
| Ok (a : A)
| Err (e : Exn).

Arguments Ok {A} a.
Arguments Err {A} e.

Definition bind {A B : Type} (c : Result A) (k : A -> Result B) : Result B :=
  match c with
  | Ok a => k a
  | Err e => Err e
  end.

Notation "x <- c ;; k" := (bind c (fun x => k))
  (at level 61, c at next level, right associativity).

(** ** Stable sorting and grouping

    Both JavaScript's [sort] and the [ORDER BY] of the queries are embedded
    as one stable insertion sort: [insert_sorted] puts [x] in front of the
    first element it does not exceed, so folding from the right keeps
    elements that compare equal in their original order. *)

Section Sorting.

Context {A : Type} (le : A -> A -> bool).

Fixpoint insert_sorted (x : A) (sorted : list A) : list A :=
  match sorted with
  | [] => [x]
  | y :: ys => if le x y then x :: sorted else y :: insert_sorted x ys
  end.

Definition stable_sort (xs : list A) : list A :=
  fold_right insert_sorted [] xs.

End Sorting.

(** [GROUP BY key]: the groups in the order in which their keys first
    occur, each with its rows in their original order. *)
Section Grouping.

Context {A K : Type} (eqb : K -> K -> bool) (key : A -> K).

Fixpoint add_to_group (groups : list (K * list A)) (x : A) : list (K * list A) :=
  match groups with
  | [] => [(key x, [x])]
  | (k, xs) :: rest =>
      if eqb k (key x) then (k, xs ++ [x]) :: rest
      else (k, xs) :: add_to_group rest x
  end.

Definition group_by (rows : list A) : list (K * list A) :=
  fold_left add_to_group rows [].

End Grouping.

(** ** Calendar arithmetic

    Days since 1970-01-01 in the proleptic Gregorian calendar, as both
    PostgreSQL and ECMAScript count them. *)

Module Calendar.

Definition msPerDay : Z := 86400000.

Definition days_from_civil (y m d : Z) : Z :=
  let y' := if m <=? 2 then y - 1 else y in
  let era := y' / 400 in
  let yoe := y' - era * 400 in
  let mp := (m + 9) mod 12 in
  let doy := (153 * mp + 2) / 5 + d - 1 in
  let doe := yoe * 365 + yoe / 4 - yoe / 100 + doy in
  era * 146097 + doe - 719468.

Definition civil_from_days (z : Z) : Z * Z * Z :=
  let z' := z + 719468 in
  let era := z' / 146097 in
  let doe := z' - era * 146097 in
  let yoe := (doe - doe / 1460 + doe / 36524 - doe / 146096) / 365 in
  let doy := doe - (365 * yoe + yoe / 4 - yoe / 100) in
  let mp := (5 * doy + 2) / 153 in
  let d := doy - (153 * mp + 2) / 5 + 1 in
  let m := if mp <? 10 then mp + 3 else mp - 9 in
  let y := yoe + era * 400 in
  (if m <=? 2 then y + 1 else y, m, d).

Definition year_of (z : Z) : Z := fst (fst (civil_from_days z)).
Definition month_of (z : Z) : Z := snd (fst (civil_from_days z)).
Definition day_of (z : Z) : Z := snd (civil_from_days z).

(** 0 is Sunday; 1970-01-01 was a Thursday. *)
Definition weekday (z : Z) : Z := (z + 4) mod 7.

Definition days_in_month (y m : Z) : Z :=
  let first := days_from_civil y m 1 in
  let next := if m =? 12 then days_from_civil (y + 1) 1 1
              else days_from_civil y (m + 1) 1 in
  next - first.

End Calendar.

(** ** The JavaScript values the handlers manipulate *)

Module Js.

Import Calendar.

Local Open Scope string_scope.
Local Open Scope Z_scope.

(** A [Date] object: its identity on the heap and its time value.  Two
    [Date] objects are the same [Set] member only when they are the same
    object. *)
Record Date : Type := mkDate { ref : nat * nat; time : Z }.

Definition decimal (n : Z) : string :=
  NilZero.string_of_uint (N.to_uint (Z.to_N n)).

Fixpoint zeros (k : nat) : string :=
  match k with
  | O => ""
  | S k' => "0" ++ zeros k'
  end.

(** [String(n).padStart(width, "0")] for [0 <= n]. *)
Definition pad (width : nat) (n : Z) : string :=
  let s := decimal n in
  zeros (width - String.length s) ++ s.

Definition hours (t : Z) : Z := (t mod msPerDay) / 3600000.
Definition minutes (t : Z) : Z := ((t mod msPerDay) / 60000) mod 60.
Definition seconds (t : Z) : Z := ((t mod msPerDay) / 1000) mod 60.
Definition millis (t : Z) : Z := t mod 1000.

(** [Date.prototype.toISOString]: always UTC. *)
Definition toISOString (d : Date) : string :=
  let day := time d / msPerDay in
  let y := year_of day in
  let year :=
    if (0 <=? y) && (y <=? 9999) then pad 4 y
    else if 0 <=? y then "+" ++ pad 6 y
    else "-" ++ pad 6 (- y) in
  year ++ "-" ++ pad 2 (month_of day) ++ "-" ++ pad 2 (day_of day)
       ++ "T" ++ pad 2 (hours (time d)) ++ ":" ++ pad 2 (minutes (time d))
       ++ ":" ++ pad 2 (seconds (time d)) ++ "." ++ pad 3 (millis (time d))
       ++ "Z".

(** [s.split("T")[0]]: the part of [s] before its first ["T"]. *)
Fixpoint split_T_0 (s : string) : string :=
  match s with
  | EmptyString => EmptyString
  | String c rest =>
      if Ascii.eqb c "T"%char then EmptyString else String c (split_T_0 rest)
  end.

Definition weekday_name (w : Z) : string :=
  nth (Z.to_nat w) ["Sun"; "Mon"; "Tue"; "Wed"; "Thu"; "Fri"; "Sat"] "".

Definition month_name (m : Z) : string :=
  nth (Z.to_nat (m - 1))
      ["Jan"; "Feb"; "Mar"; "Apr"; "May"; "Jun";
       "Jul"; "Aug"; "Sep"; "Oct"; "Nov"; "Dec"] "".

(** [Date.prototype.toString] in a process whose time zone is UTC, e.g.
    [Tue Jan 02 2024 00:00:00 GMT+0000 (Coordinated Universal Time)]. *)
Definition toString (d : Date) : string :=
  let day := time d / msPerDay in
  let y := year_of day in
  weekday_name (weekday day) ++ " " ++ month_name (month_of day) ++ " "
    ++ pad 2 (day_of day) ++ " "
    ++ (if 0 <=? y then pad 4 y else "-" ++ pad 4 (- y)) ++ " "
    ++ pad 2 (hours (time d)) ++ ":" ++ pad 2 (minutes (time d)) ++ ":"
    ++ pad 2 (seconds (time d))
    ++ " GMT+0000 (Coordinated Universal Time)".

(** SameValueZero on objects is identity of reference. *)
Definition sameValueZero (a b : Date) : bool :=
  (fst (ref a) =? fst (ref b))%nat && (snd (ref a) =? snd (ref b))%nat.

(** [new Set(xs)] followed by spreading: the members in insertion order,
    each kept at its first occurrence. *)
Fixpoint Set_add (seen : list Date) (x : Date) : list Date :=
  match seen with
  | [] => [x]
  | y :: ys => if sameValueZero y x then seen else y :: Set_add ys x
  end.

Definition Set_of (xs : list Date) : list Date := fold_left Set_add xs [].

(** [Array.prototype.sort()] without a comparator: the elements are ordered
    by their [toString()] images compared code unit by code unit, and the
    sort is stable, which fixes the result. *)
Definition sortCompare_le (x y : Date) : bool :=
  negb (String.ltb (toString y) (toString x)).

Definition sort (xs : list Date) : list Date := stable_sort sortCompare_le xs.

(** [parseInt(v || 0)]: [null] is replaced by 0 before parsing. *)
Definition parseInt_or0 (v : option Z) : Z :=
  match v with
  | Some z => z
  | None => 0
  end.

(** [parseInt(v) || 0]: [parseInt(null)] is [NaN], and [NaN || 0] is 0. *)
Definition parseInt_then_or0 (v : option Z) : Z :=
  match v with
  | Some z => z
  | None => 0
  end.

(** [parseFloat(v) || 0] and [parseFloat(v || 0)]. *)
Definition parseFloat_or0 (v : option Q) : Q :=
  match v with
  | Some q => q
  | None => 0%Q
  end.

End Js.

(** The date that node-postgres builds for the value [day] of a [DATE]
    column: a new object, local midnight of that day. *)
Definition pg_date (ref : nat * nat) (day : Z) : Js.Date :=
  Js.mkDate ref (day * Calendar.msPerDay).

(** ** What the driver hands back

    One record per select list.  The fields carry the names of the
    properties the handlers read on a row. *)

Module WorkoutDay.
(** [SELECT date::date, COUNT( * ) as workout_count, SUM(duration) as
    total_duration] of progress.mjs. *)
Record row : Type := mk {
  date : Js.Date;
  workout_count : option Z;
  total_duration : option Z
}.
End WorkoutDay.

Module NutritionDay.
(** [SELECT date::date, SUM(calories) as total_calories, SUM(protein) as
    total_protein, SUM(carbs) as total_carbs, SUM(fats) as total_fats] of
    progress.mjs. *)
Record row : Type := mk {
  date : Js.Date;
  total_calories : option Z;
  total_protein : option Q;
  total_carbs : option Q;
  total_fats : option Q
}.
End NutritionDay.

(** [EXISTS (...) as workout_exists, EXISTS (...) as food_exists]. *)
Record TablesExist : Type := {
  workout_exists : bool;
  food_exists : bool
}.

(** [SELECT COUNT( * )] of calculateUserStats; a count is never [NULL]. *)
Record CountRow : Type := { count : Z }.

(** [SELECT COUNT( * ) + 1 AS streak]. *)
Record StreakRow : Type := { streak : option Z }.

(** [SELECT AVG(daily_calories) as avg_calories]. *)
Record CaloriesRow : Type := { avg_calories : option Q }.

(** A row of the monthly query; it reaches the caller as it is. *)
Record MonthRow : Type := {
  month : option Z;
  active_days : Z;
  total_workouts : Z;
  total_duration : option Z
}.

(** A row of the top exercises query; it reaches the caller as it is. *)
Record ExerciseRow : Type := {
  exercise_name : option string;
  times_performed : Z;
  avg_weight : option Q
}.

(** A connected client: what each [client.query] call of the two handlers
    answers, as a function of what the handler interpolates or binds
    ([$1] is the user id, [timeFilter] is spliced into the text). *)
Record Client : Type := {
  q_tablesExist : Result (list TablesExist);
  q_workouts : Z -> string -> Result (list WorkoutDay.row);
  q_nutrition : Z -> string -> Result (list NutritionDay.row);
  q_workoutResult : Z -> Result (list CountRow);
  q_streakResult : Z -> Result (list StreakRow);
  q_caloriesResult : Z -> Result (list CaloriesRow);
  q_monthlyStats : Z -> Result (list MonthRow);
  q_topExercises : Z -> Result (list ExerciseRow)
}.

(** [pool.connect()]. *)
Record Pool : Type := { connect : Result Client }.

(** [rows[0]] followed by a property read: a [TypeError] when there is no
    first row. *)
Definition rows0 {A : Type} (rows : list A) : Result A :=
  match rows with
  | r :: _ => Ok r
  | [] => Err TypeError
  end.

(** ** GET /api/progress (src/api/progress.mjs) *)

Module Progress.

Local Open Scope string_scope.
Local Open Scope Z_scope.

(** The two halves of the body both have a property [dates]; the fields
    are [w_dates] and [n_dates] here. *)
Record Workouts : Type := {
  w_dates : list string;
  durations : list Z;
  counts : list Z
}.

Record Nutrition : Type := {
  n_dates : list string;
  calories : list Z;
  protein : list Q;
  carbs : list Q;
  fats : list Q
}.

Record Metrics : Type := {
  totalWorkouts : Z;
  avgDuration : Q;
  totalCalories : Z;
  avgCalories : Q
}.

(** The body handed to [res.json]. *)
Record Response : Type := {
  workouts : Workouts;
  nutrition : Nutrition;
  metrics : Metrics
}.

(** What becomes of a request: a JSON body is sent, or the promise of the
    [async] handler rejects and the handler sends nothing. *)
Inductive Outcome : Type :=
| Sent (body : Response)
| Rejected (e : Exn).

(** The literal that the handler sends in three places. *)
Definition emptyResponse : Response :=
  {| workouts := {| w_dates := []; durations := []; counts := [] |};
     nutrition := {| n_dates := []; calories := []; protein := [];
                     carbs := []; fats := [] |};
     metrics := {| totalWorkouts := 0; avgDuration := 0%Q;
                   totalCalories := 0; avgCalories := 0%Q |} |}.

(** The [switch (range)] of lines 13-26. *)
Definition timeFilter (range : string) : string :=
  if String.eqb range "week" then "AND date >= NOW() - INTERVAL '7 days'"
  else if String.eqb range "month" then "AND date >= NOW() - INTERVAL '30 days'"
  else if String.eqb range "year" then "AND date >= NOW() - INTERVAL '365 days'"
  else "AND date >= NOW() - INTERVAL '30 days'".

(** [d.toISOString().split("T")[0]]. *)
Definition isoDay (d : Js.Date) : string := Js.split_T_0 (Js.toISOString d).

(** [sum / rows.length] guarded by [rows.length ? ... : 0]. *)
Definition average {A : Type} (rows : list A) (sum : Z) : Q :=
  match rows with
  | [] => 0%Q
  | _ :: _ => Qmake sum (Pos.of_nat (List.length rows))
  end.

(** Lines 120-141. *)
Definition calc_metrics (workouts : list WorkoutDay.row)
    (nutrition : list NutritionDay.row) : Metrics :=
  {| totalWorkouts :=
       fold_left (fun sum row => sum + Js.parseInt_or0 (WorkoutDay.workout_count row))
                 workouts 0;
     avgDuration :=
       average workouts
         (fold_left (fun sum row => sum + Js.parseInt_or0 (WorkoutDay.total_duration row))
                    workouts 0);
     totalCalories :=
       fold_left (fun sum row => sum + Js.parseInt_or0 (NutritionDay.total_calories row))
                 nutrition 0;
     avgCalories :=
       average nutrition
         (fold_left (fun sum row => sum + Js.parseInt_or0 (NutritionDay.total_calories row))
                    nutrition 0) |}.

(** Lines 144-149: [[...new Set([...w.map(row => row.date),
    ...n.map(row => row.date)])].sort()]. *)
Definition dates (workouts : list WorkoutDay.row)
    (nutrition : list NutritionDay.row) : list Js.Date :=
  Js.sort (Js.Set_of (map WorkoutDay.date workouts ++ map NutritionDay.date nutrition)).

(** [workouts.rows.find(w => isoDay(w.date) === isoDay(date))]. *)
Definition find_workout (workouts : list WorkoutDay.row) (date : Js.Date)
  : option WorkoutDay.row :=
  find (fun w => String.eqb (isoDay (WorkoutDay.date w)) (isoDay date)) workouts.

Definition find_log (nutrition : list NutritionDay.row) (date : Js.Date)
  : option NutritionDay.row :=
  find (fun n => String.eqb (isoDay (NutritionDay.date n)) (isoDay date)) nutrition.

(** Lines 151-207. *)
Definition response (workouts : list WorkoutDay.row)
    (nutrition : list NutritionDay.row) : Response :=
  let dates := dates workouts nutrition in
  {| workouts :=
       {| w_dates := map isoDay dates;
          durations := map (fun date =>
            match find_workout workouts date with
            | Some workout => Js.parseInt_then_or0 (WorkoutDay.total_duration workout)
            | None => 0
            end) dates;
          counts := map (fun date =>
            match find_workout workouts date with
            | Some workout => Js.parseInt_then_or0 (WorkoutDay.workout_count workout)
            | None => 0
            end) dates |};
     nutrition :=
       {| n_dates := map isoDay dates;
          calories := map (fun date =>
            match find_log nutrition date with
            | Some log => Js.parseInt_then_or0 (NutritionDay.total_calories log)
            | None => 0
            end) dates;
          protein := map (fun date =>
            match find_log nutrition date with
            | Some log => Js.parseFloat_or0 (NutritionDay.total_protein log)
            | None => 0%Q
            end) dates;
          carbs := map (fun date =>
            match find_log nutrition date with
            | Some log => Js.parseFloat_or0 (NutritionDay.total_carbs log)
            | None => 0%Q
            end) dates;
          fats := map (fun date =>
            match find_log nutrition date with
            | Some log => Js.parseFloat_or0 (NutritionDay.total_fats log)
            | None => 0%Q
            end) dates |};
     metrics := calc_metrics workouts nutrition |}.

(** The body of the [try] block, lines 10-209.  [req_range] is
    [req.query.range], absent when the query string has none. *)
Definition try_block (client : Client) (userId : Z) (req_range : option string)
  : Result Response :=
  let range := match req_range with Some r => r | None => "month" end in
  let timeFilter := timeFilter range in
  tablesExist <- q_tablesExist client ;;
  tables <- rows0 tablesExist ;;
  if negb (workout_exists tables) || negb (food_exists tables) then
    Ok emptyResponse
  else
    workouts <- q_workouts client userId timeFilter ;;
    nutrition <- q_nutrition client userId timeFilter ;;
    match workouts, nutrition with
    | [], [] => Ok emptyResponse
    | _, _ => Ok (response workouts nutrition)
    end.

(** The handler.  [pool.connect()] is awaited on line 8, before the [try]
    of line 9 opens; the [catch] of lines 210-232 answers every exception
    of the block with the empty literal.  [client.release()] in [finally]
    does not touch the response. *)
Definition getProgress (pool : Pool) (userId : Z) (req_range : option string)
  : Outcome :=
  match connect pool with
  | Err e => Rejected e
  | Ok client =>
      match try_block client userId req_range with
      | Ok body => Sent body
      | Err _ => Sent emptyResponse
      end
  end.

End Progress.

(** ** The tables (src/config/database.mjs, [initDatabase]) *)

Module Db.

Inductive SqlValue : Type :=
| VInt (z : Z)
| VNumeric (q : Q)
| VDate (day : Z)
| VTimestamp (ms : Z)
| VText (s : string)
| VNull.

(** [workout_logs]. *)
Record WorkoutLog : Type := {
  wl_id : Z;                      (* id SERIAL PRIMARY KEY *)
  wl_user_id : option Z;          (* user_id INTEGER REFERENCES users(id) *)
  wl_name : string;               (* name VARCHAR(255) NOT NULL *)
  wl_date : Z;                    (* date DATE NOT NULL *)
  wl_duration : Z;                (* duration INTEGER NOT NULL *)
  wl_notes : option string;       (* notes TEXT *)
  wl_created_at : option Z;       (* created_at TIMESTAMP *)
  wl_updated_at : option Z        (* updated_at TIMESTAMP *)
}.

(** [workout_exercises]. *)
Record WorkoutExercise : Type := {
  we_id : Z;                      (* id SERIAL PRIMARY KEY *)
  we_workout_id : option Z;       (* workout_id INTEGER REFERENCES workout_logs(id) *)
  we_exercise_name : string;      (* exercise_name VARCHAR(255) NOT NULL *)
  we_sets : Z;                    (* sets INTEGER NOT NULL *)
  we_reps : Z;                    (* reps INTEGER NOT NULL *)
  we_weight : option Q;           (* weight DECIMAL(5,2) *)
  we_created_at : option Z        (* created_at TIMESTAMP *)
}.

(** [food_logs]. *)
Record FoodLog : Type := {
  fl_id : Z;                      (* id SERIAL PRIMARY KEY *)
  fl_user_id : option Z;          (* user_id INTEGER REFERENCES users(id) *)
  fl_food_name : string;          (* food_name VARCHAR(255) NOT NULL *)
  fl_serving_size : string;       (* serving_size VARCHAR(100) NOT NULL *)
  fl_calories : option Z;         (* calories INTEGER *)
  fl_protein : option Q;          (* protein DECIMAL(5,2) *)
  fl_carbs : option Q;            (* carbs DECIMAL(5,2) *)
  fl_fats : option Q;             (* fats DECIMAL(5,2) *)
  fl_logged_at : option Z;        (* logged_at TIMESTAMP WITH TIME ZONE *)
  fl_created_at : option Z        (* created_at TIMESTAMP WITH TIME ZONE *)
}.

Record Database : Type := {
  workout_logs : list WorkoutLog;
  workout_exercises : list WorkoutExercise;
  food_logs : list FoodLog
}.

Definition of_int (v : option Z) : SqlValue :=
  match v with Some z => VInt z | None => VNull end.

Definition of_numeric (v : option Q) : SqlValue :=
  match v with Some q => VNumeric q | None => VNull end.

Definition of_timestamp (v : option Z) : SqlValue :=
  match v with Some t => VTimestamp t | None => VNull end.

Definition of_text (v : option string) : SqlValue :=
  match v with Some s => VText s | None => VNull end.

Local Open Scope string_scope.

(** The columns of each relation, by name, as the [CREATE TABLE] statements
    list them. *)
Definition workout_logs_columns : list (string * (WorkoutLog -> SqlValue)) :=
  [ ("id", fun r => VInt (wl_id r));
    ("user_id", fun r => of_int (wl_user_id r));
    ("name", fun r => VText (wl_name r));
    ("date", fun r => VDate (wl_date r));
    ("duration", fun r => VInt (wl_duration r));
    ("notes", fun r => of_text (wl_notes r));
    ("created_at", fun r => of_timestamp (wl_created_at r));
    ("updated_at", fun r => of_timestamp (wl_updated_at r)) ].

Definition workout_exercises_columns
  : list (string * (WorkoutExercise -> SqlValue)) :=
  [ ("id", fun r => VInt (we_id r));
    ("workout_id", fun r => of_int (we_workout_id r));
    ("exercise_name", fun r => VText (we_exercise_name r));
    ("sets", fun r => VInt (we_sets r));
    ("reps", fun r => VInt (we_reps r));
    ("weight", fun r => of_numeric (we_weight r));
    ("created_at", fun r => of_timestamp (we_created_at r)) ].

Definition food_logs_columns : list (string * (FoodLog -> SqlValue)) :=
  [ ("id", fun r => VInt (fl_id r));
    ("user_id", fun r => of_int (fl_user_id r));
    ("food_name", fun r => VText (fl_food_name r));
    ("serving_size", fun r => VText (fl_serving_size r));
    ("calories", fun r => of_int (fl_calories r));
    ("protein", fun r => of_numeric (fl_protein r));
    ("carbs", fun r => of_numeric (fl_carbs r));
    ("fats", fun r => of_numeric (fl_fats r));
    ("logged_at", fun r => of_timestamp (fl_logged_at r));
    ("created_at", fun r => of_timestamp (fl_created_at r)) ].

(** Resolution of a column reference against a relation: PostgreSQL
    rejects the statement when the relation has no column of that name. *)
Fixpoint column {R : Type} (columns : list (string * (R -> SqlValue)))
    (name : string) : Result (R -> SqlValue) :=
  match columns with
  | [] => Err (UndefinedColumn name)
  | (c, get) :: rest =>
      if String.eqb c name then Ok get else column rest name
  end.

End Db.

(** ** The queries of the two handlers, over the tables

    [None] is SQL's [NULL].  Where PostgreSQL leaves the order of rows
    open (groups before an [ORDER BY], ties of an [ORDER BY]) the embedding
    keeps the order of first occurrence. *)

Module Sql.

Import Db Calendar.

Local Open Scope string_scope.
Local Open Scope Z_scope.

(** [v::date]; a timestamp is truncated to its day. *)
Definition cast_date (v : SqlValue) : option Z :=
  match v with
  | VDate d => Some d
  | VTimestamp t => Some (t / msPerDay)
  | _ => None
  end.

Definition as_int (v : SqlValue) : option Z :=
  match v with
  | VInt z => Some z
  | _ => None
  end.

Definition as_numeric (v : SqlValue) : option Q :=
  match v with
  | VInt z => Some (inject_Z z)
  | VNumeric q => Some q
  | _ => None
  end.

Definition as_text (v : SqlValue) : option string :=
  match v with
  | VText s => Some s
  | _ => None
  end.

(** [v = $1] in a [WHERE] clause: unknown counts as false. *)
Definition eq_param (v : SqlValue) (p : Z) : bool :=
  match v with
  | VInt z => z =? p
  | _ => false
  end.

Definition opt_eqb (a b : option Z) : bool :=
  match a, b with
  | Some x, Some y => x =? y
  | None, None => true
  | _, _ => false
  end.

(** Ascending order, [NULL]s last. *)
Definition opt_le (a b : option Z) : bool :=
  match a, b with
  | Some x, Some y => x <=? y
  | None, Some _ => false
  | _, None => true
  end.

(** The values that are not [NULL]. *)
Fixpoint non_null {A : Type} (vs : list (option A)) : list A :=
  match vs with
  | [] => []
  | Some v :: rest => v :: non_null rest
  | None :: rest => non_null rest
  end.

(** [SELECT DISTINCT]. *)
Definition distinct (vs : list (option Z)) : list (option Z) :=
  map fst (group_by opt_eqb (fun v => v) vs).

(** [SUM] over integers: [NULL] when no input is non-null. *)
Definition sum_int (vs : list (option Z)) : option Z :=
  match non_null vs with
  | [] => None
  | xs => Some (fold_left Z.add xs 0)
  end.

(** [AVG]: [NULL] when no input is non-null. *)
Definition avg (vs : list (option Q)) : option Q :=
  match non_null vs with
  | [] => None
  | xs => Some (Qred (fold_left Qplus xs 0%Q / inject_Z (Z.of_nat (List.length xs))))
  end.

(** [ROW_NUMBER() OVER (...)] on rows already in window order. *)
Fixpoint row_number {A : Type} (from : Z) (rows : list A) : list (Z * A) :=
  match rows with
  | [] => []
  | r :: rest => (from, r) :: row_number (from + 1) rest
  end.

(** [ts - INTERVAL 'k months']: the month moves back, the day of the month
    is capped at the length of the month reached, the time of day stays. *)
Definition sub_months (ts k : Z) : Z :=
  let day := ts / msPerDay in
  let total := year_of day * 12 + (month_of day - 1) - k in
  let y := total / 12 in
  let m := total mod 12 + 1 in
  let d := Z.min (day_of day) (days_in_month y m) in
  days_from_civil y m d * msPerDay + ts mod msPerDay.

(** [date >= ts]: the date is compared as the midnight that opens it. *)
Definition date_ge (v : SqlValue) (ts : Z) : bool :=
  match cast_date v with
  | Some d => ts <=? d * msPerDay
  | None => false
  end.

(** [SELECT COUNT( * ) FROM workout_logs WHERE user_id = $1]. *)
Definition workoutResult (db : Database) (userId : Z) : Result (list CountRow) :=
  user_id <- column workout_logs_columns "user_id" ;;
  let rows := filter (fun r => eq_param (user_id r) userId) (workout_logs db) in
  Ok [ {| count := Z.of_nat (List.length rows) |} ].

(** The inner part of the streak query (user.mjs, lines 216-227):
    [consecutive_days] pairs each distinct day with the day minus its row
    number, and the subquery [s] keeps the largest group, at most one row
    [(grp, days)]. *)
Definition consecutive_days (d : list (option Z)) : list (option Z * option Z) :=
  map (fun r => (snd r, option_map (fun date => date - fst r) (snd r)))
      (row_number 1 (stable_sort opt_le d)).

Definition subquery_s (cd : list (option Z * option Z)) : list (option Z * Z) :=
  firstn 1
    (stable_sort (fun g h => snd h <=? snd g)
       (map (fun g => (fst g, Z.of_nat (List.length (snd g))))
            (group_by opt_eqb snd cd))).

(** The streak query, lines 216-228: [SELECT COUNT( * ) + 1 AS streak FROM
    (...) s]. *)
Definition streakResult (db : Database) (userId : Z) : Result (list StreakRow) :=
  user_id <- column workout_logs_columns "user_id" ;;
  date <- column workout_logs_columns "date" ;;
  let d := distinct
             (map (fun r => cast_date (date r))
                  (filter (fun r => eq_param (user_id r) userId) (workout_logs db))) in
  let s := subquery_s (consecutive_days d) in
  Ok [ {| streak := Some (Z.of_nat (List.length s) + 1) |} ].

(** The calories query, lines 235-241, read against a relation with the
    given columns. *)
Definition daily_average (columns : list (string * (FoodLog -> SqlValue)))
    (table : list FoodLog) (userId : Z) : Result (list CaloriesRow) :=
  user_id <- column columns "user_id" ;;
  date <- column columns "date" ;;
  calories <- column columns "calories" ;;
  let rows := filter (fun r => eq_param (user_id r) userId) table in
  let daily :=
    map (fun g => sum_int (map (fun r => as_int (calories r)) (snd g)))
        (group_by opt_eqb (fun r => cast_date (date r)) rows) in
  Ok [ {| avg_calories := avg (map (option_map inject_Z) daily) |} ].

(** The statement is sent [FROM food_logs]. *)
Definition caloriesResult (db : Database) (userId : Z)
  : Result (list CaloriesRow) :=
  daily_average food_logs_columns (food_logs db) userId.

(** The monthly query, lines 248-257, at the instant [now]. *)
Definition monthlyStats (db : Database) (now : Z) (userId : Z)
  : Result (list MonthRow) :=
  user_id <- column workout_logs_columns "user_id" ;;
  date <- column workout_logs_columns "date" ;;
  duration <- column workout_logs_columns "duration" ;;
  let rows :=
    filter (fun r => eq_param (user_id r) userId
                     && date_ge (date r) (sub_months now 6))
           (workout_logs db) in
  let groups :=
    group_by opt_eqb (fun r => option_map month_of (cast_date (date r))) rows in
  Ok (stable_sort (fun a b => opt_le (month b) (month a))
        (map (fun g =>
                {| month := fst g;
                   active_days :=
                     Z.of_nat (List.length
                       (non_null (distinct (map (fun r => cast_date (date r)) (snd g)))));
                   total_workouts := Z.of_nat (List.length (snd g));
                   total_duration :=
                     sum_int (map (fun r => as_int (duration r)) (snd g)) |})
             groups)).

Definition sql_eq (a b : SqlValue) : bool :=
  match a, b with
  | VInt x, VInt y => x =? y
  | _, _ => false
  end.

Definition opt_string_eqb (a b : option string) : bool :=
  match a, b with
  | Some x, Some y => String.eqb x y
  | None, None => true
  | _, _ => false
  end.

(** [COALESCE(v, 0)] on a numeric. *)
Definition coalesce0 (v : option Q) : option Q :=
  match v with
  | Some q => Some q
  | None => Some 0%Q
  end.

(** The top exercises query, lines 263-272. *)
Definition topExercises (db : Database) (userId : Z)
  : Result (list ExerciseRow) :=
  exercise_name <- column workout_exercises_columns "exercise_name" ;;
  weight <- column workout_exercises_columns "weight" ;;
  workout_id <- column workout_exercises_columns "workout_id" ;;
  id <- column workout_logs_columns "id" ;;
  user_id <- column workout_logs_columns "user_id" ;;
  let joined :=
    flat_map (fun we =>
                map (fun wl => (we, wl))
                    (filter (fun wl => sql_eq (workout_id we) (id wl))
                            (workout_logs db)))
             (workout_exercises db) in
  let rows := filter (fun p => eq_param (user_id (snd p)) userId) joined in
  let groups :=
    group_by opt_string_eqb (fun p => as_text (exercise_name (fst p))) rows in
  Ok (firstn 5
        (stable_sort (fun a b => times_performed b <=? times_performed a)
           (map (fun g =>
                   {| exercise_name := fst g;
                      times_performed := Z.of_nat (List.length (snd g));
                      avg_weight :=
                        avg (map (fun p => coalesce0 (as_numeric (weight (fst p))))
                                 (snd g)) |})
                groups))).

(** The length in days of the interval that [timeFilter] names; any other
    text spliced into the statement is taken to be a syntax error. *)
Definition interval_days (timeFilter : string) : Result Z :=
  if String.eqb timeFilter "AND date >= NOW() - INTERVAL '7 days'" then Ok 7
  else if String.eqb timeFilter "AND date >= NOW() - INTERVAL '30 days'" then Ok 30
  else if String.eqb timeFilter "AND date >= NOW() - INTERVAL '365 days'" then Ok 365
  else Err (QueryError "syntax error").

(** The driver parses a [DATE] into a new [Date] object per row; [site]
    tells the query answers apart, the row number the rows of one answer.
    A [NULL] day would reach the handler as [null], on which
    [toISOString] throws inside the [try]. *)
Definition parse_day (site : nat) (i : Z) (day : option Z) : Result Js.Date :=
  match day with
  | Some d => Ok (pg_date (site, Z.to_nat i) d)
  | None => Err TypeError
  end.

Fixpoint collect {A : Type} (rs : list (Result A)) : Result (list A) :=
  match rs with
  | [] => Ok []
  | r :: rest => x <- r ;; xs <- collect rest ;; Ok (x :: xs)
  end.

(** The workout query of progress.mjs, lines 69-76. *)
Definition workouts (db : Database) (now : Z) (userId : Z) (timeFilter : string)
  : Result (list WorkoutDay.row) :=
  user_id <- column workout_logs_columns "user_id" ;;
  date <- column workout_logs_columns "date" ;;
  duration <- column workout_logs_columns "duration" ;;
  days <- interval_days timeFilter ;;
  let rows :=
    filter (fun r => eq_param (user_id r) userId
                     && date_ge (date r) (now - days * msPerDay))
           (workout_logs db) in
  let groups :=
    stable_sort (fun g h => opt_le (fst g) (fst h))
      (group_by opt_eqb (fun r => cast_date (date r)) rows) in
  collect
    (map (fun ig =>
            d <- parse_day 0 (fst ig) (fst (snd ig)) ;;
            Ok (WorkoutDay.mk d
                  (Some (Z.of_nat (List.length (snd (snd ig)))))
                  (sum_int (map (fun r => as_int (duration r)) (snd (snd ig))))))
         (row_number 0 groups)).

Definition sum_numeric (vs : list (option Q)) : option Q :=
  match non_null vs with
  | [] => None
  | xs => Some (Qred (fold_left Qplus xs 0%Q))
  end.

(** The nutrition query of progress.mjs, lines 82-91. *)
Definition nutrition (db : Database) (now : Z) (userId : Z) (timeFilter : string)
  : Result (list NutritionDay.row) :=
  user_id <- column food_logs_columns "user_id" ;;
  date <- column food_logs_columns "date" ;;
  calories <- column food_logs_columns "calories" ;;
  protein <- column food_logs_columns "protein" ;;
  carbs <- column food_logs_columns "carbs" ;;
  fats <- column food_logs_columns "fats" ;;
  days <- interval_days timeFilter ;;
  let rows :=
    filter (fun r => eq_param (user_id r) userId
                     && date_ge (date r) (now - days * msPerDay))
           (food_logs db) in
  let groups :=
    stable_sort (fun g h => opt_le (fst g) (fst h))
      (group_by opt_eqb (fun r => cast_date (date r)) rows) in
  collect
    (map (fun ig =>
            d <- parse_day 1 (fst ig) (fst (snd ig)) ;;
            Ok (NutritionDay.mk d
                  (sum_int (map (fun r => as_int (calories r)) (snd (snd ig))))
                  (sum_numeric (map (fun r => as_numeric (protein r)) (snd (snd ig))))
                  (sum_numeric (map (fun r => as_numeric (carbs r)) (snd (snd ig))))
                  (sum_numeric (map (fun r => as_numeric (fats r)) (snd (snd ig))))))
         (row_number 0 groups)).

End Sql.

(** The pool of the running service at the instant [now]: connecting
    succeeds, both tables exist, and every statement is answered from the
    tables. *)
Definition pgClient (db : Db.Database) (now : Z) : Client :=
  {| q_tablesExist := Ok [ {| workout_exists := true; food_exists := true |} ];
     q_workouts := Sql.workouts db now;
     q_nutrition := Sql.nutrition db now;
     q_workoutResult := Sql.workoutResult db;
     q_streakResult := Sql.streakResult db;
     q_caloriesResult := Sql.caloriesResult db;
     q_monthlyStats := Sql.monthlyStats db now;
     q_topExercises := Sql.topExercises db |}.

Definition pgPool (db : Db.Database) (now : Z) : Pool :=
  {| connect := Ok (pgClient db now) |}.

(** ** GET /api/user/stats (src/api/user.mjs) *)

Module User.

Local Open Scope string_scope.
Local Open Scope Z_scope.

(** [rows[0]?.field]: [undefined] when there is no first row. *)
Definition rows0_opt {A B : Type} (rows : list A) (field : A -> option B)
  : option B :=
  match rows with
  | r :: _ => field r
  | [] => None
  end.

(** Line 231: [parseInt(streakResult.rows[0]?.streak || 0)]. *)
Definition streak_of (streakResult : list StreakRow) : Z :=
  Js.parseInt_or0 (rows0_opt streakResult streak).

(** Line 244: [parseFloat(caloriesResult.rows[0]?.avg_calories || 0)]. *)
Definition avgCalories_of (caloriesResult : list CaloriesRow) : Q :=
  Js.parseFloat_or0 (rows0_opt caloriesResult avg_calories).

(** The object that [calculateUserStats] returns; [lastUpdated] is the time
    value of [new Date()]. *)
Record Stats : Type := {
  totalWorkouts : Z;
  streak : Z;
  avgCalories : Q;
  monthlyStats : list MonthRow;
  topExercises : list ExerciseRow;
  lastUpdated : Z
}.

(** Lines 204-287.  [clock] is what [new Date()] reads.  Everything sits
    inside the caller's [try]; [finally] only releases the client. *)
Definition calculateUserStats (pool : Pool) (clock : Z) (userId : Z)
  : Result Stats :=
  client <- connect pool ;;
  workoutResult <- q_workoutResult client userId ;;
  first <- rows0 workoutResult ;;
  let totalWorkouts := count first in
  streakResult <- q_streakResult client userId ;;
  let streak := streak_of streakResult in
  caloriesResult <- q_caloriesResult client userId ;;
  let avgCalories := avgCalories_of caloriesResult in
  monthlyStats <- q_monthlyStats client userId ;;
  topExercises <- q_topExercises client userId ;;
  Ok {| totalWorkouts := totalWorkouts;
        streak := streak;
        avgCalories := avgCalories;
        monthlyStats := monthlyStats;
        topExercises := topExercises;
        lastUpdated := clock |}.

Inductive Body : Type :=
| StatsJson (stats : Stats)
| MessageJson (message : string).

(** [res.status(status).json(body)]; [res.json] alone sends 200. *)
Record Reply : Type := { status : Z; body : Body }.

(** The route, lines 192-201. *)
Definition getStats (pool : Pool) (clock : Z) (userId : Z) : Reply :=
  match calculateUserStats pool clock userId with
  | Ok stats => {| status := 200; body := StatsJson stats |}
  | Err _ => {| status := 500; body := MessageJson "Error fetching user stats" |}
  end.

End User.

(** ** Sample data for the evaluations below *)

Module Samples.

Import Db.

Local Open Scope string_scope.
Local Open Scope Z_scope.

Definition day (y m d : Z) : Z := Calendar.days_from_civil y m d.

(** A workout of user 7. *)
Definition workout (id date duration : Z) : WorkoutLog :=
  {| wl_id := id; wl_user_id := Some 7; wl_name := "session";
     wl_date := date; wl_duration := duration; wl_notes := None;
     wl_created_at := None; wl_updated_at := None |}.

(** A food log of user 7. *)
Definition food (id calories logged_at : Z) : FoodLog :=
  {| fl_id := id; fl_user_id := Some 7; fl_food_name := "oats";
     fl_serving_size := "1 bowl"; fl_calories := Some calories;
     fl_protein := None; fl_carbs := None; fl_fats := None;
     fl_logged_at := Some logged_at; fl_created_at := Some logged_at |}.

Definition no_data : Database :=
  {| workout_logs := []; workout_exercises := []; food_logs := [] |}.

(** Workouts on 2024-01-01, 2024-01-02, 2024-01-03 and 2024-01-10. *)
Definition four_days : Database :=
  {| workout_logs := [ workout 1 (day 2024 1 1) 30; workout 2 (day 2024 1 2) 30;
                       workout 3 (day 2024 1 3) 30; workout 4 (day 2024 1 10) 30 ];
     workout_exercises := [];
     food_logs := [] |}.

(** 2000 kcal logged once, at 08:00 on 2024-01-03. *)
Definition one_meal : Database :=
  {| workout_logs := []; workout_exercises := [];
     food_logs := [ food 1 2000 (day 2024 1 3 * Calendar.msPerDay + 8 * 3600000) ] |}.

(** One workout on 2023-12-10 and one on 2024-01-10. *)
Definition new_year : Database :=
  {| workout_logs := [ workout 1 (day 2023 12 10) 30; workout 2 (day 2024 1 10) 45 ];
     workout_exercises := [];
     food_logs := [] |}.

(** Noon of 2024-02-15. *)
Definition mid_february : Z := day 2024 2 15 * Calendar.msPerDay + 12 * 3600000.

(** A row of the workout answer of progress.mjs, the [i]-th of its answer. *)
Definition workout_day (i : nat) (date count duration : Z) : WorkoutDay.row :=
  WorkoutDay.mk (pg_date (0%nat, i) date) (Some count) (Some duration).

(** A row of the nutrition answer of progress.mjs, the [i]-th of its
    answer. *)
Definition nutrition_day (i : nat) (date calories : Z) : NutritionDay.row :=
  NutritionDay.mk (pg_date (1%nat, i) date) (Some calories)
                  (Some (80 # 1)) (Some (250 # 1)) (Some (60 # 1)).

(** A pool whose client answers the two day queries with the given rows
    and the statistics queries with no rows. *)
Definition answering (w : list WorkoutDay.row) (n : list NutritionDay.row) : Pool :=
  {| connect := Ok
       {| q_tablesExist := Ok [ {| workout_exists := true; food_exists := true |} ];
          q_workouts := fun _ _ => Ok w;
          q_nutrition := fun _ _ => Ok n;
          q_workoutResult := fun _ => Ok [];
          q_streakResult := fun _ => Ok [];
          q_caloriesResult := fun _ => Ok [];
          q_monthlyStats := fun _ => Ok [];
          q_topExercises := fun _ => Ok [] |} |}.

(** The database cannot be reached. *)
Definition unreachable : Pool := {| connect := Err ConnectionError |}.

(** The client connects and then every statement fails. *)
Definition failing : Pool :=
  {| connect := Ok
       {| q_tablesExist := Err (QueryError "connection terminated");
          q_workouts := fun _ _ => Err (QueryError "connection terminated");
          q_nutrition := fun _ _ => Err (QueryError "connection terminated");
          q_workoutResult := fun _ => Err (QueryError "connection terminated");
          q_streakResult := fun _ => Err (QueryError "connection terminated");
          q_caloriesResult := fun _ => Err (QueryError "connection terminated");
          q_monthlyStats := fun _ => Err (QueryError "connection terminated");
          q_topExercises := fun _ => Err (QueryError "connection terminated") |} |}.

(** [food_logs] with one more column, [date], holding [logged_at]. *)
Definition food_logs_with_date : list (string * (FoodLog -> SqlValue)) :=
  ("date", fun r => of_timestamp (fl_logged_at r)) :: food_logs_columns.

End Samples.

(** ** The vocabulary of the specification *)

(** The days on which the user has a workout, one entry per log. *)
Definition workout_days (db : Db.Database) (userId : Z) : list Z :=
  map Db.wl_date
      (filter (fun r => Sql.eq_param (Db.of_int (Db.wl_user_id r)) userId)
              (Db.workout_logs db)).

Module Spec.

(** The streak in the words of the specification (section 4.2): sort the
    distinct days, cut them into runs of consecutive days, report the
    length of the longest run, 0 when there is no day.  [runs] walks the
    sorted days with the previous day, the length of the run it is in and
    the best length seen before that run. *)
Fixpoint runs (prev len best : Z) (sorted : list Z) : Z :=
  match sorted with
  | [] => Z.max best len
  | d :: rest =>
      if d =? prev + 1 then runs d (len + 1) best rest
      else runs d 1 (Z.max best len) rest
  end.

Definition streak (D : list Z) : Z :=
  match stable_sort Z.leb (nodup Z.eq_dec D) with
  | [] => 0
  | d :: rest => runs d 1 0 rest
  end.

(** The date axis in the words of the specification (section 3): the
    distinct days of either source, ascending. *)
Definition date_axis (workout_days nutrition_days : list Z) : list Z :=
  stable_sort Z.leb (nodup Z.eq_dec (workout_days ++ nutrition_days)).

End Spec.

Definition failed {A : Type} (r : Result A) : bool :=
  match r with
  | Err _ => true
  | Ok _ => false
  end.

(** Retrieval fails during the statistics computation: the pool gives no
    client, or one of the five statements is rejected. *)
Definition retrieval_fails (pool : Pool) (userId : Z) : bool :=
  match connect pool with
  | Err _ => true
  | Ok client =>
      failed (q_workoutResult client userId)
      || failed (q_streakResult client userId)
      || failed (q_caloriesResult client userId)
      || failed (q_monthlyStats client userId)
      || failed (q_topExercises client userId)
  end.

(** The eight arrays of a body have one length, and the two date arrays
    are equal. *)
Definition shape_consistent (body : Progress.Response) : Prop :=
  let n := List.length (Progress.w_dates (Progress.workouts body)) in
  List.length (Progress.durations (Progress.workouts body)) = n
  /\ List.length (Progress.counts (Progress.workouts body)) = n
  /\ List.length (Progress.n_dates (Progress.nutrition body)) = n
  /\ List.length (Progress.calories (Progress.nutrition body)) = n
  /\ List.length (Progress.protein (Progress.nutrition body)) = n
  /\ List.length (Progress.carbs (Progress.nutrition body)) = n
  /\ List.length (Progress.fats (Progress.nutrition body)) = n
  /\ Progress.w_dates (Progress.workouts body)
     = Progress.n_dates (Progress.nutrition body).

(** The reply of the statistics route to a failed computation. *)
Definition error_reply : User.Reply :=
  {| User.status := 500;
     User.body := User.MessageJson "Error fetching user stats" |}.

(** ** Further vocabulary: order, groups, rollups *)

From Stdlib Require Import Sorting.Sorted Sorting.Permutation.

Definition sumZ (l : list Z) : Z := fold_right Z.add 0 l.

(** The relation that a boolean comparison decides. *)
Definition leR {A : Type} (le : A -> A -> bool) (x y : A) : Prop := le x y = true.

Section GroupingVocabulary.

Context {A K : Type} (eqb : K -> K -> bool) (key : A -> K).

Definition same_key (k : K) (x : A) : bool := eqb k (key x).

(** No key twice, no empty group, every row under its own key. *)
Definition well_grouped (groups : list (K * list A)) : Prop :=
  NoDup (map fst groups)
  /\ Forall (fun g => snd g <> [] /\ Forall (fun x => key x = fst g) (snd g)) groups.

(** Every group holds exactly the rows seen so far that carry its key, in
    their order, and every row seen has a group. *)
Definition groups_of (seen : list A) (groups : list (K * list A)) : Prop :=
  NoDup (map fst groups)
  /\ (forall k xs, In (k, xs) groups -> xs = filter (same_key k) seen)
  /\ (forall x, In x seen -> In (key x) (map fst groups)).

End GroupingVocabulary.

(** The exercise entries of the user's workouts: the rows that the join
    of the top exercises statement keeps. *)
Definition exercise_entries (db : Db.Database) (userId : Z)
  : list (Db.WorkoutExercise * Db.WorkoutLog) :=
  filter (fun p => Sql.eq_param (Db.of_int (Db.wl_user_id (snd p))) userId)
    (flat_map (fun we =>
                 map (fun wl => (we, wl))
                     (filter (fun wl => Sql.sql_eq (Db.of_int (Db.we_workout_id we))
                                                   (Db.VInt (Db.wl_id wl)))
                             (Db.workout_logs db)))
              (Db.workout_exercises db)).

(** How often the user has performed the exercise of that name. *)
Definition performed (db : Db.Database) (userId : Z) (name : string) : Z :=
  Z.of_nat (List.length
    (filter (fun p => String.eqb name (Db.we_exercise_name (fst p)))
            (exercise_entries db userId))).

Definition more_often (a b : ExerciseRow) : Prop :=
  times_performed b <= times_performed a.

(** The user's workouts that pass the [WHERE] clause of the monthly
    statement at the instant [now]. *)
Definition window_logs (db : Db.Database) (now userId : Z) : list Db.WorkoutLog :=
  filter (fun r => Sql.eq_param (Db.of_int (Db.wl_user_id r)) userId
                   && Sql.date_ge (Db.VDate (Db.wl_date r)) (Sql.sub_months now 6))
         (Db.workout_logs db).

(** Those of them whose date lies in a month of number [m], of any year. *)
Definition of_month (m : Z) (logs : list Db.WorkoutLog) : list Db.WorkoutLog :=
  filter (fun r => m =? Calendar.month_of (Db.wl_date r)) logs.

Definition month_after (a b : MonthRow) : Prop :=
  Sql.opt_le (month b) (month a) = true.

(** ** Further vocabulary: the aligned series *)

(** The [Date] objects that the two answers carry. *)
Definition row_dates (w : list WorkoutDay.row) (n : list NutritionDay.row)
  : list Js.Date :=
  map WorkoutDay.date w ++ map NutritionDay.date n.

(** One reference, one object. *)
Definition one_object_per_ref (ds : list Js.Date) : Prop :=
  forall a b, In a ds -> In b ds -> Js.ref a = Js.ref b -> a = b.

(** The ISO days of the rows of an answer, as the handler compares them. *)
Definition workout_iso_days (w : list WorkoutDay.row) : list string :=
  map (fun r => Progress.isoDay (WorkoutDay.date r)) w.

Definition nutrition_iso_days (n : list NutritionDay.row) : list string :=
  map (fun r => Progress.isoDay (NutritionDay.date r)) n.

(** The length in days of the window that a range keyword selects. *)
Definition range_days (range : string) : Z :=
  if String.eqb range "week" then 7
  else if String.eqb range "month" then 30
  else if String.eqb range "year" then 365
  else 30.

(** The user's workouts that pass the [WHERE] clause of the workout
    statement of progress.mjs, [k] days wide, at the instant [now]. *)
Definition recent_logs (db : Db.Database) (now userId k : Z) : list Db.WorkoutLog :=
  filter (fun r => Sql.eq_param (Db.of_int (Db.wl_user_id r)) userId
                   && Sql.date_ge (Db.VDate (Db.wl_date r)) (now - k * Calendar.msPerDay))
         (Db.workout_logs db).

(** Those of them dated [d]. *)
Definition on_day (d : Z) (logs : list Db.WorkoutLog) : list Db.WorkoutLog :=
  filter (fun r => d =? Db.wl_date r) logs.

(** The user's workouts dated after the day [d0]. *)
Definition logs_after (db : Db.Database) (userId d0 : Z) : list Db.WorkoutLog :=
  filter (fun r => Sql.eq_param (Db.of_int (Db.wl_user_id r)) userId
                   && (d0 <? Db.wl_date r))
         (Db.workout_logs db).

(** The row that the driver builds for the [i]-th group of the workout
    statement. *)
Definition workout_row (ig : Z * (option Z * list Db.WorkoutLog)) : WorkoutDay.row :=
  WorkoutDay.mk
    (pg_date (0%nat, Z.to_nat (fst ig))
             (match fst (snd ig) with Some d => d | None => 0 end))
    (Some (Z.of_nat (List.length (snd (snd ig)))))
    (Sql.sum_int (map (fun r => Some (Db.wl_duration r)) (snd (snd ig)))).

Definition earlier_day (a b : WorkoutDay.row) : Prop :=
  Js.time (WorkoutDay.date a) < Js.time (WorkoutDay.date b).

(** ** Regular expressions of the validators

    [regex.test(s)] for an expression anchored at both ends by [^] and [$]
    decides whether the whole of [s] belongs to the language of the
    expression; the decision is embedded with derivatives.  The
    characters of a string stand for UTF-16 code units below 256. *)

Module Regex.

Inductive t : Type :=
| Void
| Eps
| Class (p : ascii -> bool)
| Seq (r s : t)
| Alt (r s : t)
| Star (r : t).

(** [r+]. *)
Definition Plus (r : t) : t := Seq r (Star r).

Fixpoint nullable (r : t) : bool :=
  match r with
  | Void => false
  | Eps => true
  | Class _ => false
  | Seq r s => nullable r && nullable s
  | Alt r s => nullable r || nullable s
  | Star _ => true
  end.

Fixpoint deriv (c : ascii) (r : t) : t :=
  match r with
  | Void => Void
  | Eps => Void
  | Class p => if p c then Eps else Void
  | Seq r s =>
      if nullable r then Alt (Seq (deriv c r) s) (deriv c s)
      else Seq (deriv c r) s
  | Alt r s => Alt (deriv c r) (deriv c s)
  | Star r => Seq (deriv c r) (Star r)
  end.

Fixpoint test (r : t) (s : string) : bool :=
  match s with
  | EmptyString => nullable r
  | String c rest => test (deriv c r) rest
  end.

(** The language of an expression. *)
Inductive matches : t -> string -> Prop :=
| m_eps : matches Eps EmptyString
| m_class p c : p c = true -> matches (Class p) (String c EmptyString)
| m_seq r s u v : matches r u -> matches s v -> matches (Seq r s) (u ++ v)
| m_alt_l r s u : matches r u -> matches (Alt r s) u
| m_alt_r r s u : matches s u -> matches (Alt r s) u
| m_star_nil r : matches (Star r) EmptyString
| m_star_cons r u v :
    matches r u -> matches (Star r) v -> matches (Star r) (u ++ v).

(** [\s] on code units below 256: tab, line feed, vertical tab, form feed,
    carriage return, space and no-break space. *)
Definition is_space (c : ascii) : bool :=
  let n := nat_of_ascii c in
  ((9 <=? n) && (n <=? 13) || (n =? 32) || (n =? 160))%nat.

Definition is_char (d c : ascii) : bool := Ascii.eqb c d.

(** [[^\s@]]. *)
Definition not_space_at (c : ascii) : bool :=
  negb (is_space c) && negb (is_char "@" c).

(** [/^[^\s@]+@[^\s@]+\.[^\s@]+$/] of user.mjs, line 404. *)
Definition emailRegex : t :=
  Seq (Plus (Class not_space_at))
      (Seq (Class (is_char "@"))
           (Seq (Plus (Class not_space_at))
                (Seq (Class (is_char "."))
                     (Plus (Class not_space_at))))).

(** Every character of the string is in the class. *)
Fixpoint all_in (p : ascii -> bool) (s : string) : bool :=
  match s with
  | EmptyString => true
  | String c rest => p c && all_in p rest
  end.

(** How often the character occurs in the string. *)
Fixpoint occurrences (d : ascii) (s : string) : nat :=
  match s with
  | EmptyString => 0%nat
  | String c rest => ((if Ascii.eqb c d then 1 else 0) + occurrences d rest)%nat
  end.

End Regex.

(** ** The account routes of src/api/user.mjs

    The routes other than [/stats], over the tables [users],
    [user_preferences], [daily_goals], [meal_templates] and the three log
    tables.  The pool connects, and a statement fails only where
    PostgreSQL rejects it over a key or over a value that its column
    cannot hold.  A [TIME] is a time of day in whole seconds since
    midnight; a body field is a value of the kind of its column, or
    [None] when it is absent or [null], and PostgreSQL decides whether
    the column takes it. *)

Module Accounts.

Local Open Scope string_scope.
Local Open Scope Z_scope.

(** [users]. *)
Record UserRow : Type := {
  u_id : Z;                      (* id SERIAL PRIMARY KEY *)
  u_username : string;           (* username VARCHAR(50) UNIQUE NOT NULL *)
  u_email : string;              (* email VARCHAR(255) UNIQUE NOT NULL *)
  u_password : string;           (* password VARCHAR(255) NOT NULL *)
  u_name : option string;        (* name VARCHAR(100) *)
  u_created_at : option Z;       (* created_at TIMESTAMP WITH TIME ZONE *)
  u_updated_at : option Z        (* updated_at TIMESTAMP WITH TIME ZONE *)
}.

(** [user_preferences]. *)
Record PreferencesRow : Type := {
  p_user_id : Z;                 (* user_id INTEGER PRIMARY KEY REFERENCES users(id) ON DELETE CASCADE *)
  p_theme : option string;       (* theme VARCHAR(20) DEFAULT 'light' *)
  p_units : option string;       (* units VARCHAR(20) DEFAULT 'metric' *)
  p_notifications : option bool; (* notifications BOOLEAN DEFAULT false *)
  p_workout_reminder : option Z; (* workout_reminder TIME *)
  p_nutrition_reminder : option Z; (* nutrition_reminder TIME *)
  p_created_at : option Z;       (* created_at TIMESTAMP WITH TIME ZONE *)
  p_updated_at : option Z        (* updated_at TIMESTAMP WITH TIME ZONE *)
}.

(** [daily_goals]. *)
Record DailyGoalsRow : Type := {
  g_user_id : Z;                 (* user_id INTEGER PRIMARY KEY REFERENCES users(id) ON DELETE CASCADE *)
  g_calorie_goal : Z;
  g_protein_goal : Z;
  g_carbs_goal : Z;
  g_fats_goal : Z;
  g_created_at : option Z;
  g_updated_at : option Z
}.

(** [meal_templates]. *)
Record MealTemplateRow : Type := {
  m_id : Z;                      (* id SERIAL PRIMARY KEY *)
  m_user_id : option Z;          (* user_id INTEGER REFERENCES users(id) ON DELETE CASCADE *)
  m_name : string;
  m_foods : string;              (* foods JSONB NOT NULL *)
  m_created_at : option Z;
  m_updated_at : option Z
}.

Record Store : Type := {
  users : list UserRow;
  user_preferences : list PreferencesRow;
  daily_goals : list DailyGoalsRow;
  meal_templates : list MealTemplateRow;
  logs : Db.Database
}.

Definition set_users (s : Store) (us : list UserRow) : Store :=
  {| users := us; user_preferences := user_preferences s;
     daily_goals := daily_goals s; meal_templates := meal_templates s;
     logs := logs s |}.

Definition set_preferences (s : Store) (ps : list PreferencesRow) : Store :=
  {| users := users s; user_preferences := ps;
     daily_goals := daily_goals s; meal_templates := meal_templates s;
     logs := logs s |}.

(** A property of a JSON object: [undefined] is left out of the text. *)
Inductive Property (A : Type) : Type :=
| Undefined
| Null
| Value (a : A).

Arguments Undefined {A}.
Arguments Null {A}.
Arguments Value {A} a.

(** A column value read as a property: [NULL] arrives as [null]. *)
Definition of_column {A : Type} (v : option A) : Property A :=
  match v with
  | Some a => Value a
  | None => Null
  end.

(** The body of GET /reminders. *)
Record Reminders : Type := {
  workoutReminder : Property Z;
  nutritionReminder : Property Z;
  lastWorkout : option Z;        (* a date, or null *)
  lastNutrition : option Z       (* a timestamp, or null *)
}.

(** The [preferences] object that GET /profile builds. *)
Record ProfilePreferences : Type := {
  theme : option string;
  units : option string;
  notifications : option bool;
  workout_reminder : option Z;
  nutrition_reminder : option Z
}.

(** A row of GET /profile, and of [RETURNING username, email, name]. *)
Record Profile : Type := {
  username : string;
  email : string;
  name : option string;
  preferences : option ProfilePreferences
}.

Inductive Body : Type :=
| Message (message : string)
| RemindersJson (reminders : Reminders)
| ProfileJson (profile : Profile)
| PreferencesJson (message : string) (echo : ProfilePreferences)
| UpdatedJson (message : string) (user : Profile).

(** [res.status(status).json(body)]. *)
Record Reply : Type := { status : Z; body : Body }.

Definition is_user (userId : Z) (u : UserRow) : bool := u_id u =? userId.

Definition prefs_of (userId : Z) (p : PreferencesRow) : bool := p_user_id p =? userId.

(** [SELECT id FROM users WHERE id = $1]. *)
Definition userCheck (s : Store) (userId : Z) : list UserRow :=
  filter (is_user userId) (users s).

(** [SELECT ... FROM user_preferences WHERE user_id = $1]. *)
Definition prefsResult (s : Store) (userId : Z) : list PreferencesRow :=
  filter (prefs_of userId) (user_preferences s).

(** [SELECT date FROM workout_logs WHERE user_id = $1 ORDER BY date DESC
    LIMIT 1]. *)
Definition lastWorkout_rows (s : Store) (userId : Z) : list Z :=
  firstn 1
    (stable_sort (fun a b => b <=? a)
       (map Db.wl_date
            (filter (fun r => Sql.eq_param (Db.of_int (Db.wl_user_id r)) userId)
                    (Db.workout_logs (logs s))))).

(** [SELECT logged_at FROM food_logs WHERE user_id = $1 ORDER BY logged_at
    DESC LIMIT 1]; descending order puts [NULL] first. *)
Definition lastNutrition_rows (s : Store) (userId : Z) : list (option Z) :=
  firstn 1
    (stable_sort (fun a b => Sql.opt_le b a)
       (map Db.fl_logged_at
            (filter (fun r => Sql.eq_param (Db.of_int (Db.fl_user_id r)) userId)
                    (Db.food_logs (logs s))))).

(** The row that [INSERT INTO user_preferences (user_id) VALUES ($1)]
    builds from the defaults of the columns. *)
Definition default_preferences (userId now : Z) : PreferencesRow :=
  {| p_user_id := userId; p_theme := Some "light"; p_units := Some "metric";
     p_notifications := Some false; p_workout_reminder := None;
     p_nutrition_reminder := None; p_created_at := Some now;
     p_updated_at := Some now |}.

(** An insertion into [user_preferences]: the primary key and the
    reference to [users] are checked. *)
Definition insert_preferences (s : Store) (row : PreferencesRow) : Result Store :=
  if existsb (prefs_of (p_user_id row)) (user_preferences s) then
    Err (QueryError "duplicate key value violates unique constraint")
  else if negb (existsb (is_user (p_user_id row)) (users s)) then
    Err (QueryError "insert violates foreign key constraint")
  else Ok (set_preferences s (user_preferences s ++ [row])).

(** [rows[0]?.field || null]. *)
Definition first_or_null {A : Type} (rows : list (option A)) : option A :=
  match rows with
  | r :: _ => r
  | [] => None
  end.

(** GET /reminders, lines 10-91. *)
Definition getReminders (s : Store) (now userId : Z) : Reply * Store :=
  match userCheck s userId with
  | [] => ({| status := 404; body := Message "User not found" |}, s)
  | _ :: _ =>
      let prefsResult := prefsResult s userId in
      let lastWorkout := lastWorkout_rows s userId in
      let lastNutrition := lastNutrition_rows s userId in
      let inserted :=
        match prefsResult with
        | [] => insert_preferences s (default_preferences userId now)
        | _ :: _ => Ok s
        end in
      match inserted with
      | Err _ => ({| status := 500; body := Message "Error fetching reminders" |}, s)
      | Ok s' =>
          ({| status := 200;
              body := RemindersJson
                {| workoutReminder :=
                     match prefsResult with
                     | p :: _ => of_column (p_workout_reminder p)
                     | [] => Undefined
                     end;
                   nutritionReminder :=
                     match prefsResult with
                     | p :: _ => of_column (p_nutrition_reminder p)
                     | [] => Undefined
                     end;
                   lastWorkout := first_or_null (map Some lastWorkout);
                   lastNutrition := first_or_null lastNutrition |} |}, s')
      end
  end.

(** [INSERT INTO user_preferences (...) VALUES (...) ON CONFLICT (user_id)
    DO UPDATE SET ...]: the row of the user is rewritten by [update] when
    there is one, and [fresh] is inserted otherwise. *)
Definition upsert_preferences (s : Store) (userId : Z)
    (update : PreferencesRow -> PreferencesRow) (fresh : PreferencesRow)
  : Result Store :=
  if existsb (prefs_of userId) (user_preferences s) then
    Ok (set_preferences s
          (map (fun p => if prefs_of userId p then update p else p)
               (user_preferences s)))
  else insert_preferences s fresh.

(** A parameter of a [TIME] column as PostgreSQL reads it: a time of day
    from 00:00:00 to 24:00:00; any other value is refused. *)
Definition valid_time (v : option Z) : bool :=
  match v with
  | Some t => (0 <=? t) && (t <=? 86400)
  | None => true
  end.

Definition time_in (v : option Z) : Result (option Z) :=
  if valid_time v then Ok v
  else Err (QueryError "date/time field value out of range").

(** PUT /reminders, lines 94-122. *)
Definition putReminders (s : Store) (now userId : Z)
    (workoutReminder nutritionReminder : option Z) : Reply * Store :=
  let written :=
    workout_time <- time_in workoutReminder ;;
    nutrition_time <- time_in nutritionReminder ;;
    upsert_preferences s userId
      (fun p =>
         {| p_user_id := p_user_id p; p_theme := p_theme p;
            p_units := p_units p; p_notifications := p_notifications p;
            p_workout_reminder := workout_time;
            p_nutrition_reminder := nutrition_time;
            p_created_at := p_created_at p; p_updated_at := Some now |})
      {| p_user_id := userId; p_theme := Some "light";
         p_units := Some "metric"; p_notifications := Some false;
         p_workout_reminder := workout_time;
         p_nutrition_reminder := nutrition_time;
         p_created_at := Some now; p_updated_at := Some now |} in
  match written with
  | Ok s' => ({| status := 200; body := Message "Reminders updated successfully" |}, s')
  | Err _ => ({| status := 500; body := Message "Error updating reminders" |}, s)
  end.

(** [COALESCE(v, d)]. *)
Definition coalesce {A : Type} (v : option A) (d : A) : option A :=
  match v with
  | Some a => Some a
  | None => Some d
  end.

(** The rows of the profile statement, lines 303-316: [users] left joined
    with [user_preferences]. *)
Definition profile_rows (s : Store) (userId : Z) : list Profile :=
  flat_map
    (fun u =>
       match prefsResult s (u_id u) with
       | [] =>
           [ {| username := u_username u; email := u_email u; name := u_name u;
                preferences := Some
                  {| theme := Some "light"; units := Some "metric";
                     notifications := Some false;
                     workout_reminder := None; nutrition_reminder := None |} |} ]
       | ps =>
           map (fun up =>
                  {| username := u_username u; email := u_email u; name := u_name u;
                     preferences := Some
                       {| theme := coalesce (p_theme up) "light";
                          units := coalesce (p_units up) "metric";
                          notifications := coalesce (p_notifications up) false;
                          workout_reminder := p_workout_reminder up;
                          nutrition_reminder := p_nutrition_reminder up |} |})
               ps
       end)
    (userCheck s userId).

(** GET /profile, lines 290-335. *)
Definition getProfile (s : Store) (userId : Z) : Reply :=
  match profile_rows s userId with
  | [] => {| status := 404; body := Message "User not found" |}
  | row :: _ => {| status := 200; body := ProfileJson row |}
  end.

(** [v || d] on a string: the empty string is falsy. *)
Definition or_string (v : option string) (d : string) : string :=
  match v with
  | Some a => if String.eqb a "" then d else a
  | None => d
  end.

(** [v || false]. *)
Definition or_false (v : option bool) : bool :=
  match v with
  | Some b => b
  | None => false
  end.

(** The character of code 0, which no text value of PostgreSQL holds. *)
Definition has_nul (a : string) : bool :=
  negb (Regex.all_in (fun c => negb (Ascii.eqb c "000")) a).

(** A text parameter stored into a [VARCHAR(n)] column: a value with the
    character of code 0 is refused; a value of at most [n] characters is
    stored as it is; a longer one is cut to [n] characters when all that
    is cut off is spaces, and refused otherwise. *)
Definition varchar (n : nat) (a : string) : Result string :=
  if has_nul a then Err (QueryError "invalid byte sequence for encoding")
  else if (String.length a <=? n)%nat then Ok a
  else if Regex.all_in (fun c => Ascii.eqb c " ")
            (String.substring n (String.length a - n) a) then
    Ok (String.substring 0 n a)
  else Err (QueryError "value too long for type character varying").

(** PUT /preferences, lines 338-393. *)
Definition putPreferences (s : Store) (now userId : Z) (echo : ProfilePreferences)
  : Reply * Store :=
  let written :=
    stored_theme <- varchar 20 (or_string (theme echo) "light") ;;
    stored_units <- varchar 20 (or_string (units echo) "metric") ;;
    workout_time <- time_in (workout_reminder echo) ;;
    nutrition_time <- time_in (nutrition_reminder echo) ;;
    let row (created_at : option Z) :=
      {| p_user_id := userId;
         p_theme := Some stored_theme;
         p_units := Some stored_units;
         p_notifications := Some (or_false (notifications echo));
         p_workout_reminder := workout_time;
         p_nutrition_reminder := nutrition_time;
         p_created_at := created_at; p_updated_at := Some now |} in
    upsert_preferences s userId (fun p => row (p_created_at p)) (row (Some now)) in
  match written with
  | Ok s' =>
      ({| status := 200;
          body := PreferencesJson "Preferences updated successfully" echo |}, s')
  | Err _ => ({| status := 500; body := Message "Error updating preferences" |}, s)
  end.

(** [if (email)]: a string other than the empty one. *)
Definition truthy (v : option string) : bool :=
  match v with
  | Some a => negb (String.eqb a "")
  | None => false
  end.

(** [SELECT id FROM users WHERE email = $1 AND id != $2]. *)
Definition emailCheck (s : Store) (email : string) (userId : Z) : list UserRow :=
  filter (fun u => String.eqb (u_email u) email && negb (u_id u =? userId)) (users s).

(** The [UPDATE users ... WHERE id = $3 RETURNING username, email, name]
    of lines 426-433: the rows of the user are rewritten, and the
    statement is rejected when a value is longer than its column or an
    email then occurs twice. *)
Definition update_user (s : Store) (now userId : Z) (email name : option string)
  : Result (list Profile * Store) :=
  let rewrite (u : UserRow) :=
    {| u_id := u_id u; u_username := u_username u;
       u_email := match email with Some e => e | None => u_email u end;
       u_password := u_password u;
       u_name := match name with Some n => Some n | None => u_name u end;
       u_created_at := u_created_at u; u_updated_at := Some now |} in
  let updated := map (fun u => if is_user userId u then rewrite u else u) (users s) in
  let returning :=
    map (fun u => {| username := u_username u; email := u_email u;
                     name := u_name u; preferences := None |})
        (filter (is_user userId) updated) in
  if existsb (fun u => is_user userId u
                       && ((255 <? Z.of_nat (String.length (u_email u)))
                           || match u_name u with
                              | Some n => 100 <? Z.of_nat (String.length n)
                              | None => false
                              end))
             updated then
    Err (QueryError "value too long for type character varying")
  else if existsb (fun u => is_user userId u
                            && existsb (fun v => negb (u_id v =? u_id u)
                                                 && String.eqb (u_email v) (u_email u))
                                       updated)
                  updated then
    Err (QueryError "duplicate key value violates unique constraint")
  else Ok (returning, set_users s updated).

(** PUT /profile, lines 396-456. *)
Definition putProfile (s : Store) (now userId : Z) (email name : option string)
  : Reply * Store :=
  let checked : option Reply :=
    match email with
    | Some e =>
        if truthy email then
          if negb (Regex.test Regex.emailRegex e) then
            Some {| status := 400; body := Message "Invalid email format" |}
          else
            match emailCheck s e userId with
            | _ :: _ => Some {| status := 400; body := Message "Email already in use" |}
            | [] => None
            end
        else None
    | None => None
    end in
  match checked with
  | Some reply => (reply, s)
  | None =>
      match update_user s now userId email name with
      | Err _ => ({| status := 500; body := Message "Error updating profile" |}, s)
      | Ok ([], s') => ({| status := 404; body := Message "User not found" |}, s')
      | Ok (row :: _, s') =>
          ({| status := 200; body := UpdatedJson "Profile updated successfully" row |}, s')
      end
  end.

(** The statements of DELETE /account, lines 170-178.  Deleting workout
    logs takes their exercises along, deleting a user takes along what
    refers to the user with [ON DELETE CASCADE], and is rejected while a
    workout log still refers to the user. *)
Definition delete_food_logs (s : Store) (userId : Z) : Store :=
  {| users := users s; user_preferences := user_preferences s;
     daily_goals := daily_goals s; meal_templates := meal_templates s;
     logs :=
       {| Db.workout_logs := Db.workout_logs (logs s);
          Db.workout_exercises := Db.workout_exercises (logs s);
          Db.food_logs :=
            filter (fun r => negb (Sql.eq_param (Db.of_int (Db.fl_user_id r)) userId))
                   (Db.food_logs (logs s)) |} |}.

Definition delete_workout_logs (s : Store) (userId : Z) : Store :=
  let gone :=
    filter (fun r => Sql.eq_param (Db.of_int (Db.wl_user_id r)) userId)
           (Db.workout_logs (logs s)) in
  {| users := users s; user_preferences := user_preferences s;
     daily_goals := daily_goals s; meal_templates := meal_templates s;
     logs :=
       {| Db.workout_logs :=
            filter (fun r => negb (Sql.eq_param (Db.of_int (Db.wl_user_id r)) userId))
                   (Db.workout_logs (logs s));
          Db.workout_exercises :=
            filter (fun e =>
                      negb (existsb (fun r => Sql.sql_eq (Db.of_int (Db.we_workout_id e))
                                                         (Db.VInt (Db.wl_id r)))
                                    gone))
                   (Db.workout_exercises (logs s));
          Db.food_logs := Db.food_logs (logs s) |} |}.

Definition delete_daily_goals (s : Store) (userId : Z) : Store :=
  {| users := users s; user_preferences := user_preferences s;
     daily_goals := filter (fun g => negb (g_user_id g =? userId)) (daily_goals s);
     meal_templates := meal_templates s; logs := logs s |}.

Definition delete_user_preferences (s : Store) (userId : Z) : Store :=
  set_preferences s (filter (fun p => negb (prefs_of userId p)) (user_preferences s)).

Definition delete_user (s : Store) (userId : Z) : Result Store :=
  if existsb (is_user userId) (users s)
     && existsb (fun r => Sql.eq_param (Db.of_int (Db.wl_user_id r)) userId)
                (Db.workout_logs (logs s)) then
    Err (QueryError "update or delete violates foreign key constraint")
  else
    Ok {| users := filter (fun u => negb (is_user userId u)) (users s);
          user_preferences :=
            filter (fun p => negb (prefs_of userId p)) (user_preferences s);
          daily_goals := filter (fun g => negb (g_user_id g =? userId)) (daily_goals s);
          meal_templates :=
            filter (fun m => negb (Sql.eq_param (Db.of_int (m_user_id m)) userId))
                   (meal_templates s);
          logs :=
            {| Db.workout_logs := Db.workout_logs (logs s);
               Db.workout_exercises := Db.workout_exercises (logs s);
               Db.food_logs :=
                 filter (fun r => negb (Sql.eq_param (Db.of_int (Db.fl_user_id r)) userId))
                        (Db.food_logs (logs s)) |} |}.

(** DELETE /account, lines 163-189: the five statements between [BEGIN]
    and [COMMIT]; on an error [ROLLBACK] restores the store. *)
Definition deleteAccount (s : Store) (userId : Z) : Reply * Store :=
  let s1 := delete_food_logs s userId in
  let s2 := delete_workout_logs s1 userId in
  let s3 := delete_daily_goals s2 userId in
  let s4 := delete_user_preferences s3 userId in
  match delete_user s4 userId with
  | Ok s5 => ({| status := 200; body := Message "Account deleted successfully" |}, s5)
  | Err _ => ({| status := 500; body := Message "Error deleting account" |}, s)
  end.

(** The keys that the tables declare: one row per user id and per email
    in [users], one preferences row per user, and every preferences row
    refers to a user. *)
Definition keys_hold (s : Store) : Prop :=
  NoDup (map u_id (users s))
  /\ NoDup (map u_email (users s))
  /\ NoDup (map p_user_id (user_preferences s))
  /\ (forall p, In p (user_preferences s) ->
        exists u, In u (users s) /\ u_id u = p_user_id p).

End Accounts.

(** Sample accounts: Ann (7) with workouts and a meal but no preferences
    row, Bob (8) with a preferences row and one workout. *)
Module AccountSamples.

Import Accounts.

Local Open Scope string_scope.
Local Open Scope Z_scope.

Definition ann : UserRow :=
  {| u_id := 7; u_username := "ann"; u_email := "ann@example.org";
     u_password := "$2b$10$hash-of-ann"; u_name := Some "Ann";
     u_created_at := Some 0; u_updated_at := Some 0 |}.

Definition bob : UserRow :=
  {| u_id := 8; u_username := "bob"; u_email := "bob@example.org";
     u_password := "$2b$10$hash-of-bob"; u_name := None;
     u_created_at := Some 0; u_updated_at := Some 0 |}.

Definition bob_preferences : PreferencesRow :=
  {| p_user_id := 8; p_theme := Some "dark"; p_units := Some "imperial";
     p_notifications := Some true; p_workout_reminder := Some 25200;
     p_nutrition_reminder := None; p_created_at := Some 0; p_updated_at := Some 0 |}.

Definition bob_workout : Db.WorkoutLog :=
  {| Db.wl_id := 9; Db.wl_user_id := Some 8; Db.wl_name := "run";
     Db.wl_date := Samples.day 2024 1 5; Db.wl_duration := 20;
     Db.wl_notes := None; Db.wl_created_at := None; Db.wl_updated_at := None |}.

Definition squat (id workout : Z) : Db.WorkoutExercise :=
  {| Db.we_id := id; Db.we_workout_id := Some workout;
     Db.we_exercise_name := "Squat"; Db.we_sets := 3; Db.we_reps := 10;
     Db.we_weight := Some (60 # 1); Db.we_created_at := None |}.

Definition store : Store :=
  {| users := [ ann; bob ];
     user_preferences := [ bob_preferences ];
     daily_goals := [];
     meal_templates := [];
     logs :=
       {| Db.workout_logs := Db.workout_logs Samples.four_days ++ [ bob_workout ];
          Db.workout_exercises := [ squat 1 1; squat 2 9 ];
          Db.food_logs := Db.food_logs Samples.one_meal |} |}.

End AccountSamples.

(** The store that the five statements of DELETE /account leave when
    they are run one after the other. *)
Section AfterDelete.

Import Accounts.

Definition after_delete (s : Store) (userId : Z) : Store :=
  {| users := filter (fun u => negb (is_user userId u)) (users s);
     user_preferences :=
       filter (fun p => negb (prefs_of userId p))
              (filter (fun p => negb (prefs_of userId p)) (user_preferences s));
     daily_goals :=
       filter (fun g => negb (g_user_id g =? userId))
              (filter (fun g => negb (g_user_id g =? userId)) (daily_goals s));
     meal_templates :=
       filter (fun m => negb (Sql.eq_param (Db.of_int (m_user_id m)) userId))
              (meal_templates s);
     logs :=
       {| Db.workout_logs :=
            filter (fun r => negb (Sql.eq_param (Db.of_int (Db.wl_user_id r)) userId))
                   (Db.workout_logs (logs s));
          Db.workout_exercises :=
            filter (fun e =>
                      negb (existsb
                              (fun r => Sql.sql_eq (Db.of_int (Db.we_workout_id e))
                                                   (Db.VInt (Db.wl_id r)))
                              (filter (fun r => Sql.eq_param (Db.of_int (Db.wl_user_id r)) userId)
                                      (Db.workout_logs (logs s)))))
                   (Db.workout_exercises (logs s));
          Db.food_logs :=
            filter (fun r => negb (Sql.eq_param (Db.of_int (Db.fl_user_id r)) userId))
                   (filter (fun r => negb (Sql.eq_param (Db.of_int (Db.fl_user_id r)) userId))
                           (Db.food_logs (logs s))) |} |}.

End AfterDelete.

(** ** The date range of a request

    [validateDateRange] of the validation middleware stands in front of
    GET /logs of src/api/workout.mjs.  A query parameter is a string or
    absent. *)

Module Validation.

Import Regex.

Local Open Scope string_scope.
Local Open Scope Z_scope.

(** [req.query]. *)
Record Query : Type := {
  startDate : option string;
  endDate : option string
}.

(** The middleware calls [next()], leaving [req.query] as given, or
    answers itself with [res.status(status).json({ message })]. *)
Inductive Outcome : Type :=
| Next (query : Query)
| Json (status : Z) (message : string).

(** [\d]. *)
Definition is_digit (c : ascii) : bool :=
  let n := nat_of_ascii c in ((48 <=? n) && (n <=? 57))%nat.

Definition digit : Regex.t := Class is_digit.

Definition hyphen : Regex.t := Class (is_char "-").

(** [/^\d{4}-\d{2}-\d{2}$/]. *)
Definition dateRegex : Regex.t :=
  Seq digit (Seq digit (Seq digit (Seq digit
    (Seq hyphen (Seq digit (Seq digit
      (Seq hyphen (Seq digit digit)))))))).

(** A string is truthy unless it is empty; [undefined] is not. *)
Definition truthy (v : option string) : bool :=
  match v with
  | Some a => negb (String.eqb a "")
  | None => false
  end.

(** [if (v === '') delete req.query.v]. *)
Definition without_empty (v : option string) : option string :=
  match v with
  | Some a => if String.eqb a "" then None else Some a
  | None => None
  end.

Definition digit_value (c : ascii) : Z := Z.of_nat (nat_of_ascii c) - 48.

(** [new Date(s).getTime()] for a string [s] that [dateRegex] accepts,
    [None] standing for [NaN]: the date-only form is read in UTC, the
    month has to lie in 1..12 and the day in 1..31, and a day past the end
    of its month runs into the next month.  The middleware builds a
    [Date] from no other string. *)
Definition Date_getTime (s : string) : option Z :=
  match s with
  | String y1 (String y2 (String y3 (String y4 (String _
      (String m1 (String m2 (String _ (String d1 (String d2 _))))))))) =>
      let y := ((digit_value y1 * 10 + digit_value y2) * 10 + digit_value y3) * 10
               + digit_value y4 in
      let m := digit_value m1 * 10 + digit_value m2 in
      let d := digit_value d1 * 10 + digit_value d2 in
      if (1 <=? m) && (m <=? 12) && (1 <=? d) && (d <=? 31) then
        Some (Calendar.days_from_civil y m d * Calendar.msPerDay)
      else None
  | _ => None
  end.

(** [a > b] on two [Date]s: false when either is invalid. *)
Definition Date_gt (a b : option Z) : bool :=
  match a, b with
  | Some x, Some y => y <? x
  | _, _ => false
  end.

(** [v && !dateRegex.test(v)]. *)
Definition ill_formed (v : option string) : bool :=
  match v with
  | Some a => truthy v && negb (test dateRegex a)
  | None => false
  end.

(** [startDate && endDate && new Date(startDate) > new Date(endDate)]. *)
Definition out_of_order (start end_ : option string) : bool :=
  match start, end_ with
  | Some s, Some e =>
      truthy start && truthy end_ && Date_gt (Date_getTime s) (Date_getTime e)
  | _, _ => false
  end.

Definition validateDateRange (query : Query) : Outcome :=
  let start := startDate query in
  let end_ := endDate query in
  if negb (truthy start) && negb (truthy end_) then Next query
  else
    let query :=
      {| startDate := without_empty start; endDate := without_empty end_ |} in
    if ill_formed start then Json 400 "Invalid start date format"
    else if ill_formed end_ then Json 400 "Invalid end date format"
    else if out_of_order start end_ then Json 400 "Start date cannot be after end date"
    else Next query.

(** The ten characters of a date: four digits, two digits and two
    digits, set apart by hyphens. *)
Definition date_shaped (s : string) : Prop :=
  exists y1 y2 y3 y4 m1 m2 d1 d2,
    s = String y1 (String y2 (String y3 (String y4 (String "-"
          (String m1 (String m2 (String "-" (String d1 (String d2 "")))))))))
    /\ Forall (fun c => is_digit c = true) [ y1; y2; y3; y4; m1; m2; d1; d2 ].

End Validation.

(** ** The routes of src/api/workout.mjs that read the logs

    GET /history and GET /logs, over the tables of the workouts.  The pool
    connects. *)

Module Workout.

Import Db Sql.

Local Open Scope string_scope.
Local Open Scope Z_scope.

(** An object that [json_build_object] builds from a row of
    [workout_exercises]; the name is under the key [name] in GET /history,
    and [completed_sets] is a key in GET /logs only. *)
Record ExerciseJson : Type := {
  exercise_name : option string;
  sets : option Z;
  reps : option Z;
  weight : option Q;
  completed_sets : option Z
}.

(** A row of either answer; [name] is selected in GET /history only and
    [calories] in GET /logs only.  An element of [exercises] is an object
    or [null]. *)
Record LogRow : Type := {
  id : option Z;
  name : option string;
  date : option Z;
  duration : option Z;
  calories : option Z;
  notes : option string;
  exercises : list (option ExerciseJson)
}.

Inductive Body : Type :=
| Rows (rows : list LogRow)
| Message (message : string).

Record Reply : Type := { status : Z; body : Body }.

(** [workout_logs wl LEFT JOIN workout_exercises we ON wl.id =
    we.workout_id]: a log without exercises is kept once, with [NULL]s in
    the columns of [we]. *)
Definition left_join (id : WorkoutLog -> SqlValue)
    (workout_id : WorkoutExercise -> SqlValue) (db : Database)
  : list (WorkoutLog * option WorkoutExercise) :=
  flat_map
    (fun wl =>
       match filter (fun we => sql_eq (id wl) (workout_id we)) (workout_exercises db) with
       | [] => [ (wl, None) ]
       | es => map (fun we => (wl, Some we)) es
       end)
    (workout_logs db).

(** A column of [we] on a row of the join. *)
Definition of_joined (get : WorkoutExercise -> SqlValue)
    (we : option WorkoutExercise) : SqlValue :=
  match we with
  | Some e => get e
  | None => VNull
  end.

(** [GROUP BY wl.id ORDER BY wl.date DESC] with [json_agg] over the rows of
    each group: the columns of [wl] are those of the first row of the
    group, and descending order puts [NULL] first. *)
Definition grouped (id : WorkoutLog -> SqlValue)
    (row : WorkoutLog -> list (option ExerciseJson) -> LogRow)
    (object : option WorkoutExercise -> ExerciseJson)
    (rows : list (WorkoutLog * option WorkoutExercise)) : list LogRow :=
  stable_sort (fun a b => opt_le (date b) (date a))
    (flat_map
       (fun g =>
          match snd g with
          | [] => []
          | p :: _ => [ row (fst p) (map (fun q => Some (object (snd q))) (snd g)) ]
          end)
       (group_by opt_eqb (fun p => as_int (id (fst p))) rows)).

(** The statement of GET /history, lines 383-403. *)
Definition history (db : Database) (userId : Z) : Result (list LogRow) :=
  id <- column workout_logs_columns "id" ;;
  name <- column workout_logs_columns "name" ;;
  date <- column workout_logs_columns "date" ;;
  duration <- column workout_logs_columns "duration" ;;
  notes <- column workout_logs_columns "notes" ;;
  exercise_name <- column workout_exercises_columns "exercise_name" ;;
  sets <- column workout_exercises_columns "sets" ;;
  reps <- column workout_exercises_columns "reps" ;;
  weight <- column workout_exercises_columns "weight" ;;
  workout_id <- column workout_exercises_columns "workout_id" ;;
  user_id <- column workout_logs_columns "user_id" ;;
  Ok (grouped id
        (fun wl exercises =>
           {| id := as_int (id wl); name := as_text (name wl);
              date := cast_date (date wl); duration := as_int (duration wl);
              calories := None; notes := as_text (notes wl);
              exercises := exercises |})
        (fun we =>
           {| exercise_name := as_text (of_joined exercise_name we);
              sets := as_int (of_joined sets we);
              reps := as_int (of_joined reps we);
              weight := as_numeric (of_joined weight we);
              completed_sets := None |})
        (filter (fun p => eq_param (user_id (fst p)) userId)
                (left_join id workout_id db))).

(** GET /history, lines 379-417. *)
Definition getHistory (db : Database) (userId : Z) : Reply :=
  match history db userId with
  | Ok rows => {| status := 200; body := Rows rows |}
  | Err _ => {| status := 500; body := Message "Failed to fetch workout history" |}
  end.

(** [v && v.trim() !== '']. *)
Definition given (v : option string) : bool :=
  match v with
  | Some a => negb (String.eqb a "") && negb (Regex.all_in Regex.is_space a)
  | None => false
  end.

(** A parameter compared with [wl.date] is read as a date: of the strings
    that pass the middleware, those that name a day of the calendar in a
    year from 1 on. *)
Definition date_in (s : string) : Result Z :=
  match s with
  | String y1 (String y2 (String y3 (String y4 (String _
      (String m1 (String m2 (String _ (String d1 (String d2 _))))))))) =>
      let dv := Validation.digit_value in
      let y := ((dv y1 * 10 + dv y2) * 10 + dv y3) * 10 + dv y4 in
      let m := dv m1 * 10 + dv m2 in
      let d := dv d1 * 10 + dv d2 in
      if (1 <=? y) && (1 <=? m) && (m <=? 12) && (1 <=? d)
         && (d <=? Calendar.days_in_month y m) then
        Ok (Calendar.days_from_civil y m d)
      else Err (QueryError "date/time field value out of range")
  | _ => Err (QueryError "invalid input syntax for type date")
  end.

(** One of the two optional conditions on [wl.date]. *)
Definition bound (v : option string) : Result (option Z) :=
  match v with
  | Some s => if given v then d <- date_in s ;; Ok (Some d) else Ok None
  | None => Ok None
  end.

(** The statement that GET /logs assembles, lines 426-463, read against
    relations with the given columns: the columns are resolved when the
    statement is prepared, the parameters are read when it is bound. *)
Definition logs_statement
    (wl_columns : list (string * (WorkoutLog -> SqlValue)))
    (we_columns : list (string * (WorkoutExercise -> SqlValue)))
    (db : Database) (userId : Z) (query : Validation.Query)
  : Result (list LogRow) :=
  id <- column wl_columns "id" ;;
  date <- column wl_columns "date" ;;
  duration <- column wl_columns "duration" ;;
  calories <- column wl_columns "calories" ;;
  notes <- column wl_columns "notes" ;;
  exercise_name <- column we_columns "exercise_name" ;;
  sets <- column we_columns "sets" ;;
  reps <- column we_columns "reps" ;;
  weight <- column we_columns "weight" ;;
  completed_sets <- column we_columns "completed_sets" ;;
  workout_id <- column we_columns "workout_id" ;;
  user_id <- column wl_columns "user_id" ;;
  from <- bound (Validation.startDate query) ;;
  to <- bound (Validation.endDate query) ;;
  Ok (grouped id
        (fun wl exercises =>
           {| id := as_int (id wl); name := None;
              date := cast_date (date wl); duration := as_int (duration wl);
              calories := as_int (calories wl); notes := as_text (notes wl);
              exercises := exercises |})
        (fun we =>
           {| exercise_name := as_text (of_joined exercise_name we);
              sets := as_int (of_joined sets we);
              reps := as_int (of_joined reps we);
              weight := as_numeric (of_joined weight we);
              completed_sets := as_int (of_joined completed_sets we) |})
        (filter (fun p =>
                   eq_param (user_id (fst p)) userId
                   && match from with
                      | Some d => match cast_date (date (fst p)) with
                                  | Some x => d <=? x
                                  | None => false
                                  end
                      | None => true
                      end
                   && match to with
                      | Some d => match cast_date (date (fst p)) with
                                  | Some x => x <=? d
                                  | None => false
                                  end
                      | None => true
                      end)
                (left_join id workout_id db))).

(** [row.exercises[0] === null ? [] : row.exercises]. *)
Definition or_no_exercises (exercises : list (option ExerciseJson))
  : list (option ExerciseJson) :=
  match exercises with
  | None :: _ => []
  | _ => exercises
  end.

(** The handler of GET /logs, lines 421-484, on the tables that
    [initDatabase] creates. *)
Definition getLogs (db : Database) (userId : Z) (query : Validation.Query) : Reply :=
  match logs_statement workout_logs_columns workout_exercises_columns db userId query with
  | Ok rows =>
      {| status := 200;
         body := Rows (map (fun row =>
                              {| id := id row; name := name row; date := date row;
                                 duration := duration row; calories := calories row;
                                 notes := notes row;
                                 exercises := or_no_exercises (exercises row) |})
                           rows) |}
  | Err _ => {| status := 500; body := Message "Error fetching workout logs" |}
  end.

(** The route: the middleware, then the handler. *)
Definition logs_route (db : Database) (userId : Z) (query : Validation.Query) : Reply :=
  match Validation.validateDateRange query with
  | Validation.Json status message => {| status := status; body := Message message |}
  | Validation.Next query => getLogs db userId query
  end.

(** The exercises that refer to the workout log of that id. *)
Definition exercises_of (db : Database) (workout : Z) : list WorkoutExercise :=
  filter (fun we => sql_eq (VInt workout) (of_int (we_workout_id we)))
         (workout_exercises db).

(** The rows of the join that belong to one workout log. *)
Definition chunk_of (db : Database) (wl : WorkoutLog)
  : list (WorkoutLog * option WorkoutExercise) :=
  match exercises_of db (wl_id wl) with
  | [] => [ (wl, None) ]
  | es => map (fun we => (wl, Some we)) es
  end.

(** The user's workout logs. *)
Definition logs_of (db : Database) (userId : Z) : list WorkoutLog :=
  filter (fun wl => eq_param (of_int (wl_user_id wl)) userId) (workout_logs db).

(** The rows of the join that the statement of GET /history keeps, their
    grouping key, and the entry that the statement builds from a group. *)
Definition joined_rows (db : Database) (userId : Z)
  : list (WorkoutLog * option WorkoutExercise) :=
  flat_map (chunk_of db) (logs_of db userId).

Definition entry_key (p : WorkoutLog * option WorkoutExercise) : option Z :=
  as_int (VInt (wl_id (fst p))).

Definition entry_row (wl : WorkoutLog) (exercises : list (option ExerciseJson)) : LogRow :=
  {| id := Some (wl_id wl); name := Some (wl_name wl);
     date := Some (wl_date wl); duration := Some (wl_duration wl);
     calories := None; notes := as_text (of_text (wl_notes wl));
     exercises := exercises |}.

Definition entry_object (we : option WorkoutExercise) : ExerciseJson :=
  {| exercise_name := as_text (of_joined (fun e => VText (we_exercise_name e)) we);
     sets := as_int (of_joined (fun e => VInt (we_sets e)) we);
     reps := as_int (of_joined (fun e => VInt (we_reps e)) we);
     weight := as_numeric (of_joined (fun e => of_numeric (we_weight e)) we);
     completed_sets := None |}.

Definition entry_of_group
    (g : option Z * list (WorkoutLog * option WorkoutExercise)) : list LogRow :=
  match snd g with
  | [] => []
  | p :: _ => [ entry_row (fst p) (map (fun q => Some (entry_object (snd q))) (snd g)) ]
  end.

(** The entry of GET /history for a workout log. *)
Definition history_entry (db : Database) (wl : WorkoutLog) : LogRow :=
  {| id := Some (wl_id wl); name := Some (wl_name wl); date := Some (wl_date wl);
     duration := Some (wl_duration wl); calories := None; notes := wl_notes wl;
     exercises :=
       match exercises_of db (wl_id wl) with
       | [] =>
           [ Some {| exercise_name := None; sets := None; reps := None;
                     weight := None; completed_sets := None |} ]
       | es =>
           map (fun we =>
                  Some {| exercise_name := Some (we_exercise_name we);
                          sets := Some (we_sets we); reps := Some (we_reps we);
                          weight := we_weight we; completed_sets := None |})
               es
       end |}.

Definition not_earlier (a b : LogRow) : Prop := opt_le (date b) (date a) = true.

End Workout.
(** ** PUT /password of src/api/user.mjs

    The route is read over any implementation of the two calls into the
    bcrypt library; the salt that [bcrypt.genSalt] draws is an input of
    the handler.  A field of the body is a string or absent. *)

Section Password.

Import Accounts.

Local Open Scope string_scope.
Local Open Scope Z_scope.

(** [bcrypt.compare(data, encrypted)] and [bcrypt.hash(data, salt)]. *)
Variable compare : string -> string -> bool.
Variable hash : string -> string -> string.

Definition with_password (hashed : string) (u : UserRow) : UserRow :=
  {| u_id := u_id u; u_username := u_username u; u_email := u_email u;
     u_password := hashed; u_name := u_name u;
     u_created_at := u_created_at u; u_updated_at := u_updated_at u |}.

(** [UPDATE users SET password = $1 WHERE id = $2]: rejected when the
    value is longer than the column. *)
Definition update_password (s : Store) (userId : Z) (hashed : string) : Result Store :=
  let updated :=
    map (fun u => if is_user userId u then with_password hashed u else u) (users s) in
  if existsb (fun u => is_user userId u
                       && (255 <? Z.of_nat (String.length (u_password u))))
             updated then
    Err (QueryError "value too long for type character varying")
  else Ok (set_users s updated).

(** PUT /password, lines 125-160.  Reading [password] of a row that is
    not there throws, and so does either call into bcrypt when its data is
    missing; the [catch] answers 500. *)
Definition putPassword (s : Store) (salt : string) (userId : Z)
    (currentPassword newPassword : option string) : Reply * Store :=
  let server_error := {| status := 500; body := Message "Server error" |} in
  match userCheck s userId with
  | [] => (server_error, s)
  | user :: _ =>
      match currentPassword with
      | None => (server_error, s)
      | Some current =>
          if negb (compare current (u_password user)) then
            ({| status := 400; body := Message "Current password is incorrect" |}, s)
          else
            match newPassword with
            | None => (server_error, s)
            | Some new =>
                match update_password s userId (hash new salt) with
                | Ok s' =>
                    ({| status := 200; body := Message "Password updated successfully" |},
                     s')
                | Err _ => (server_error, s)
                end
            end
      end
  end.

End Password.

(** A stand-in for the library, for the samples: the hash of a password
    is the password behind the salt. *)
Module BcryptSamples.

Local Open Scope string_scope.

Definition salt : string := "$2b$10$hash-of-".

Definition hash (data salt : string) : string := salt ++ data.

Definition compare (data encrypted : string) : bool :=
  String.eqb encrypted (hash data salt).

End BcryptSamples.

(** * Properties *)

(** ** Sorting and grouping keep what they are given *)

Section SortingFacts.

Context {A : Type} (le : A -> A -> bool).

Lemma insert_sorted_length (x : A) (l : list A) :
  List.length (insert_sorted le x l) = S (List.length l).
Proof.
  induction l as [| y ys IH]; simpl.
  - reflexivity.
  - destruct (le x y); simpl; [reflexivity | now rewrite IH].
Qed.

Lemma stable_sort_length (l : list A) :
  List.length (stable_sort le l) = List.length l.
Proof.
  induction l as [| x xs IH]; simpl.
  - reflexivity.
  - unfold stable_sort in *. simpl.
    rewrite insert_sorted_length. now rewrite IH.
Qed.

Lemma insert_sorted_In (x y : A) (l : list A) :
  In y (insert_sorted le x l) <-> y = x \/ In y l.
Proof.
  induction l as [| z zs IH]; simpl.
  - intuition congruence.
  - destruct (le x z); simpl; [intuition congruence |].
    rewrite IH. intuition congruence.
Qed.

Lemma stable_sort_In (y : A) (l : list A) :
  In y (stable_sort le l) <-> In y l.
Proof.
  induction l as [| x xs IH]; simpl.
  - reflexivity.
  - unfold stable_sort in *. simpl.
    rewrite insert_sorted_In, IH. intuition congruence.
Qed.

End SortingFacts.

Section GroupingFacts.

Context {A K : Type} (eqb : K -> K -> bool) (key : A -> K).

Lemma add_to_group_not_nil (groups : list (K * list A)) (x : A) :
  add_to_group eqb key groups x <> [].
Proof.
  destruct groups as [| [k xs] rest]; simpl.
  - discriminate.
  - destruct (eqb k (key x)); discriminate.
Qed.

Lemma fold_add_to_group_not_nil (rows : list A) (groups : list (K * list A)) :
  groups <> [] -> fold_left (add_to_group eqb key) rows groups <> [].
Proof.
  revert groups.
  induction rows as [| x xs IH]; simpl; intros groups Hg.
  - exact Hg.
  - apply IH, add_to_group_not_nil.
Qed.

Lemma group_by_not_nil (x : A) (rows : list A) :
  group_by eqb key (x :: rows) <> [].
Proof.
  unfold group_by. simpl.
  apply fold_add_to_group_not_nil. discriminate.
Qed.

End GroupingFacts.

Lemma row_number_length {A : Type} (rows : list A) (from : Z) :
  List.length (Sql.row_number from rows) = List.length rows.
Proof.
  revert from.
  induction rows as [| r rest IH]; simpl; intros from.
  - reflexivity.
  - now rewrite IH.
Qed.

Lemma length_zero_nil {A : Type} (l : list A) :
  List.length l = 0%nat -> l = [].
Proof.
  destruct l; [reflexivity | discriminate].
Qed.

(** ** The streak *)

(** The subquery [s] has no row when the user has no workout and one row
    otherwise. *)
Lemma subquery_s_length (d : list (option Z)) :
  List.length (Sql.subquery_s (Sql.consecutive_days (Sql.distinct d)))
  = match d with [] => 0%nat | _ :: _ => 1%nat end.
Proof.
  destruct d as [| v vs].
  - reflexivity.
  - unfold Sql.subquery_s.
    rewrite length_firstn, stable_sort_length, length_map.
    assert (Hd : Sql.distinct (v :: vs) <> []).
    { unfold Sql.distinct. intro H. apply map_eq_nil in H.
      now apply (group_by_not_nil Sql.opt_eqb (fun v => v) v vs). }
    assert (Hc : Sql.consecutive_days (Sql.distinct (v :: vs)) <> []).
    { intro H. apply Hd. apply length_zero_nil.
      apply (f_equal (@List.length _)) in H.
      unfold Sql.consecutive_days in H.
      rewrite length_map, row_number_length, stable_sort_length in H.
      exact H. }
    destruct (Sql.consecutive_days (Sql.distinct (v :: vs))) as [| c cs];
      [congruence |].
    pose proof (group_by_not_nil Sql.opt_eqb (@snd (option Z) (option Z)) c cs) as Hg.
    destruct (group_by Sql.opt_eqb snd (c :: cs)); [congruence |].
    simpl. lia.
Qed.

(** What the streak query answers, for every content of the tables. *)
Lemma streakResult_value (db : Db.Database) (userId : Z) :
  Sql.streakResult db userId
  = Ok [ {| streak :=
              Some (match workout_days db userId with [] => 1 | _ :: _ => 2 end) |} ].
Proof.
  unfold Sql.streakResult, workout_days. cbn [Db.column Db.workout_logs_columns bind].
  simpl String.eqb. cbn iota. unfold bind.
  rewrite subquery_s_length.
  destruct (filter _ (Db.workout_logs db)); reflexivity.
Qed.

(** C1.  The streak that reaches the snapshot is not the longest run of
    consecutive days: the outer [SELECT COUNT( * ) + 1] counts the rows of
    the subquery [s], which [LIMIT 1] keeps to at most one, so the value
    is 1 without workouts and 2 with any.  For 2024-01-01, 2024-01-02,
    2024-01-03 and 2024-01-10 the code reports 2 where the longest run is
    3, and for no day at all it reports 1 where the specification says
    0. *)
Theorem streak_counts_rows_of_subquery :
  (forall db userId,
     exists rows,
       Sql.streakResult db userId = Ok rows
       /\ User.streak_of rows
          = match workout_days db userId with [] => 1 | _ :: _ => 2 end)
  /\ (exists rows,
        Sql.streakResult Samples.four_days 7 = Ok rows
        /\ User.streak_of rows = 2
        /\ Spec.streak (workout_days Samples.four_days 7) = 3)
  /\ (exists rows,
        Sql.streakResult Samples.no_data 7 = Ok rows
        /\ User.streak_of rows = 1
        /\ Spec.streak (workout_days Samples.no_data 7) = 0).
Proof.
  split; [| split].
  - intros db userId. eexists. split.
    + apply streakResult_value.
    + reflexivity.
  - eexists. split; [apply streakResult_value |]. split; vm_compute; reflexivity.
  - eexists. split; [apply streakResult_value |]. split; vm_compute; reflexivity.
Qed.

(** The subquery [s] itself does hold the longest run on the sample: its
    only row counts three days. *)
Lemma subquery_s_four_days :
  Sql.subquery_s
    (Sql.consecutive_days
       (Sql.distinct (map Some (workout_days Samples.four_days 7))))
  = [ (Some (Samples.day 2023 12 31), 3) ].
Proof. vm_compute. reflexivity. Qed.

(** The snapshot carries the value of the streak query unchanged. *)
Lemma snapshot_streak (pool : Pool) (client : Client) (db : Db.Database)
    (clock userId : Z) (stats : User.Stats) :
  connect pool = Ok client ->
  q_streakResult client userId = Sql.streakResult db userId ->
  User.calculateUserStats pool clock userId = Ok stats ->
  User.streak stats = match workout_days db userId with [] => 1 | _ :: _ => 2 end.
Proof.
  intros Hc Hs.
  unfold User.calculateUserStats. rewrite Hc. simpl.
  destruct (q_workoutResult client userId) as [wr | e]; simpl; [| discriminate].
  destruct (rows0 wr) as [first | e]; simpl; [| discriminate].
  rewrite Hs, streakResult_value. simpl.
  destruct (q_caloriesResult client userId) as [cr | e]; simpl; [| discriminate].
  destruct (q_monthlyStats client userId) as [ms | e]; simpl; [| discriminate].
  destruct (q_topExercises client userId) as [te | e]; simpl; [| discriminate].
  intros H. injection H as <-. simpl.
  destruct (workout_days db userId); reflexivity.
Qed.

(** ** The monthly rollups *)

(** C8.  The rollups are ordered by the number of the month, not by
    recency: at noon of 2024-02-15 the window reaches back to 2023-08-15,
    and for one workout on 2023-12-10 and one on 2024-01-10 the rollup of
    December 2023 precedes the rollup of January 2024, although its
    workout is the older one. *)
Theorem monthlyStats_december_before_january :
  Sql.monthlyStats Samples.new_year Samples.mid_february 7
  = Ok [ {| month := Some 12; active_days := 1; total_workouts := 1;
            total_duration := Some 30 |};
         {| month := Some 1; active_days := 1; total_workouts := 1;
            total_duration := Some 45 |} ]
  /\ workout_days Samples.new_year 7
     = [ Samples.day 2023 12 10; Samples.day 2024 1 10 ]
  /\ Samples.day 2023 12 10 < Samples.day 2024 1 10
  /\ Calendar.civil_from_days (Sql.sub_months Samples.mid_february 6 / Calendar.msPerDay)
     = (2023, 8, 15).
Proof.
  repeat split; vm_compute; reflexivity.
Qed.

(** ** The average of the daily calories *)

(** [food_logs] has no column [date]. *)
Lemma food_logs_has_no_date :
  Db.column Db.food_logs_columns "date" = Err (UndefinedColumn "date").
Proof. reflexivity. Qed.

(** C6.  The calories query reads a column [date] of [food_logs]; the
    table is created with [logged_at] and without [date], so PostgreSQL
    rejects the statement for every content of the tables, and the route
    answers 500 instead of a snapshot.  With 2000 kcal logged on one day
    the claim expects [avgCalories = 2000]. *)
Theorem caloriesResult_undefined_column :
  (forall db userId,
     Sql.caloriesResult db userId = Err (UndefinedColumn "date"))
  /\ (forall db now clock userId,
        User.getStats (pgPool db now) clock userId = error_reply)
  /\ User.getStats (pgPool Samples.one_meal Samples.mid_february) 0 7 = error_reply.
Proof.
  split; [| split]; intros; reflexivity.
Qed.

(** Read against a relation that does have the column, the same statement
    yields the mean of the daily sums: 2000 for the one meal. *)
Lemma daily_average_with_date_column :
  Sql.daily_average Samples.food_logs_with_date (Db.food_logs Samples.one_meal) 7
  = Ok [ {| avg_calories := Some (2000 # 1) |} ].
Proof. vm_compute. reflexivity. Qed.

(** ** Failure of the store *)

(** C3.  A failure of [pool.connect()] is not answered with the empty
    structure: the call is awaited before the [try] block opens, so the
    rejection leaves the handler and no body is sent. *)
Theorem getProgress_connect_failure_escapes :
  (forall e userId req_range,
     Progress.getProgress {| connect := Err e |} userId req_range
     = Progress.Rejected e)
  /\ Progress.getProgress Samples.unreachable 7 (Some "week"%string)
     = Progress.Rejected ConnectionError.
Proof.
  split; reflexivity.
Qed.

(** Once a client is held, a body is always sent, and it is the empty
    structure whenever the block throws. *)
Lemma getProgress_sends_after_connect (pool : Pool) (client : Client)
    (userId : Z) (req_range : option string) :
  connect pool = Ok client ->
  exists body,
    Progress.getProgress pool userId req_range = Progress.Sent body
    /\ (failed (Progress.try_block client userId req_range) = true ->
        body = Progress.emptyResponse).
Proof.
  intros Hc. unfold Progress.getProgress. rewrite Hc.
  destruct (Progress.try_block client userId req_range) as [body | e].
  - exists body. split; [reflexivity | discriminate].
  - exists Progress.emptyResponse. split; reflexivity.
Qed.

(** A rejected statement makes the block throw. *)
Lemma try_block_failing_statement (client : Client) (userId : Z)
    (req_range : option string) (tables : TablesExist) :
  q_tablesExist client = Ok [tables] ->
  workout_exists tables = true ->
  food_exists tables = true ->
  (forall tf, failed (q_workouts client userId tf) = true)
  \/ (forall tf, failed (q_nutrition client userId tf) = true) ->
  failed (Progress.try_block client userId req_range) = true.
Proof.
  intros Ht Hw Hf H. unfold Progress.try_block.
  rewrite Ht. simpl. rewrite Hw, Hf. simpl.
  destruct H as [H | H].
  - specialize (H (Progress.timeFilter
                     match req_range with Some r => r | None => "month"%string end)).
    destruct (q_workouts client userId _); [discriminate | reflexivity].
  - destruct (q_workouts client userId _); [| reflexivity]. simpl.
    specialize (H (Progress.timeFilter
                     match req_range with Some r => r | None => "month"%string end)).
    destruct (q_nutrition client userId _); [discriminate | reflexivity].
Qed.

(** When retrieval fails, the statistics route answers 500 with an error
    message and no snapshot. *)
Lemma getStats_retrieval_failure (pool : Pool) (clock userId : Z) :
  retrieval_fails pool userId = true ->
  User.getStats pool clock userId = error_reply.
Proof.
  intros Hf.
  unfold User.getStats, User.calculateUserStats, retrieval_fails in *.
  destruct (connect pool) as [client | e]; simpl; [| reflexivity].
  destruct (q_workoutResult client userId) as [wr | e]; simpl; [| reflexivity].
  destruct (rows0 wr) as [first | e]; simpl; [| reflexivity].
  destruct (q_streakResult client userId) as [sr | e]; simpl; [| reflexivity].
  destruct (q_caloriesResult client userId) as [cr | e]; simpl; [| reflexivity].
  destruct (q_monthlyStats client userId) as [ms | e]; simpl; [| reflexivity].
  destruct (q_topExercises client userId) as [te | e]; simpl; [| reflexivity].
  simpl in Hf. discriminate.
Qed.

Lemma getStats_retrieval_failure_examples :
  User.getStats Samples.failing 0 7 = error_reply
  /\ User.getStats Samples.unreachable 0 7 = error_reply.
Proof.
  split; apply getStats_retrieval_failure; reflexivity.
Qed.

(** C4.  The no-data case is not told apart from a failed retrieval.  On
    the tables that [initDatabase] creates the calories statement is
    refused whatever the tables hold (C6), so a user who has logged
    nothing is answered 500 with the error message, the very reply of a
    store whose statements all fail and of a store that cannot be
    reached; the claim has the no-data case yield a valid result. *)
Theorem getStats_no_data_is_an_error :
  (forall now clock userId,
     User.calculateUserStats (pgPool Samples.no_data now) clock userId
     = Err (UndefinedColumn "date"))
  /\ (forall now clock userId,
        User.getStats (pgPool Samples.no_data now) clock userId = error_reply)
  /\ (forall now clock userId,
        User.getStats (pgPool Samples.no_data now) clock userId
        = User.getStats Samples.failing clock userId)
  /\ (forall now clock userId,
        User.getStats (pgPool Samples.no_data now) clock userId
        = User.getStats Samples.unreachable clock userId).
Proof.
  repeat split; intros; reflexivity.
Qed.

(** ** Determinism of the snapshot *)

(** A snapshot, when the computation returns one, carries the reading of
    the clock in [lastUpdated]. *)
Lemma snapshot_lastUpdated (pool : Pool) (clock userId : Z) (stats : User.Stats) :
  User.calculateUserStats pool clock userId = Ok stats ->
  User.lastUpdated stats = clock.
Proof.
  unfold User.calculateUserStats.
  destruct (connect pool) as [client | e]; simpl; [| discriminate].
  destruct (q_workoutResult client userId) as [wr | e]; simpl; [| discriminate].
  destruct (rows0 wr) as [first | e]; simpl; [| discriminate].
  destruct (q_streakResult client userId) as [sr | e]; simpl; [| discriminate].
  destruct (q_caloriesResult client userId) as [cr | e]; simpl; [| discriminate].
  destruct (q_monthlyStats client userId) as [ms | e]; simpl; [| discriminate].
  destruct (q_topExercises client userId) as [te | e]; simpl; [| discriminate].
  intros H. injection H as <-. reflexivity.
Qed.


(** The window of the monthly query moves with [NOW()]: the same tables
    give different rollups at different instants. *)
Lemma monthlyStats_reads_now :
  Sql.monthlyStats Samples.new_year Samples.mid_february 7
  <> Sql.monthlyStats Samples.new_year (Samples.mid_february + 365 * Calendar.msPerDay) 7.
Proof.
  vm_compute. discriminate.
Qed.

(** ** The range keyword *)

Lemma timeFilter_default (range : string) :
  range <> "week"%string -> range <> "month"%string -> range <> "year"%string ->
  Progress.timeFilter range = Progress.timeFilter "month".
Proof.
  intros Hw Hm Hy. unfold Progress.timeFilter.
  destruct (String.eqb_spec range "week"); [contradiction |].
  destruct (String.eqb_spec range "month"); [contradiction |].
  destruct (String.eqb_spec range "year"); [contradiction |].
  reflexivity.
Qed.

(** C9.  Every range value other than week, month and year is served
    exactly as month is: the statements carry the same 30 day filter, so
    the outcome is the same, whatever the store answers. *)
Theorem unrecognized_range_is_month (pool : Pool) (userId : Z) (range : string) :
  range <> "week"%string -> range <> "month"%string -> range <> "year"%string ->
  Progress.getProgress pool userId (Some range)
  = Progress.getProgress pool userId (Some "month"%string).
Proof.
  intros Hw Hm Hy.
  unfold Progress.getProgress, Progress.try_block.
  rewrite (timeFilter_default range Hw Hm Hy). reflexivity.
Qed.

Lemma unrecognized_range_is_month_witness :
  Progress.getProgress
    (Samples.answering [ Samples.workout_day 0 (Samples.day 2024 1 2) 1 30 ] [])
    7 (Some "decade"%string)
  = Progress.getProgress
    (Samples.answering [ Samples.workout_day 0 (Samples.day 2024 1 2) 1 30 ] [])
    7 (Some "month"%string).
Proof.
  apply (unrecognized_range_is_month _ 7 "decade"); discriminate.
Defined.

(** A request without [range] is a request for month. *)
Lemma absent_range_is_month (pool : Pool) (userId : Z) :
  Progress.getProgress pool userId None
  = Progress.getProgress pool userId (Some "month"%string).
Proof. reflexivity. Qed.

(** ** The shape of the response *)

Lemma response_shape (w : list WorkoutDay.row) (n : list NutritionDay.row) :
  shape_consistent (Progress.response w n)
  /\ List.length (Progress.w_dates (Progress.workouts (Progress.response w n)))
     = List.length (Progress.dates w n).
Proof.
  unfold shape_consistent, Progress.response. simpl.
  rewrite !length_map. repeat split.
Qed.

Lemma emptyResponse_shape : shape_consistent Progress.emptyResponse.
Proof.
  unfold shape_consistent. simpl. repeat split.
Qed.

(** C10.  Every body that the progress handler sends has its eight arrays
    of one length, and the two date arrays are equal. *)
Theorem getProgress_shape_consistent (pool : Pool) (userId : Z)
    (req_range : option string) (body : Progress.Response) :
  Progress.getProgress pool userId req_range = Progress.Sent body ->
  shape_consistent body.
Proof.
  unfold Progress.getProgress.
  destruct (connect pool) as [client | e]; [| discriminate].
  unfold Progress.try_block.
  destruct (q_tablesExist client) as [te | e]; simpl;
    [| intros H; injection H as <-; apply emptyResponse_shape].
  destruct (rows0 te) as [tables | e]; simpl;
    [| intros H; injection H as <-; apply emptyResponse_shape].
  destruct (negb (workout_exists tables) || negb (food_exists tables));
    [intros H; injection H as <-; apply emptyResponse_shape |].
  destruct (q_workouts client userId _) as [w | e]; simpl;
    [| intros H; injection H as <-; apply emptyResponse_shape].
  destruct (q_nutrition client userId _) as [n | e]; simpl;
    [| intros H; injection H as <-; apply emptyResponse_shape].
  destruct w as [| w0 ws]; destruct n as [| n0 ns];
    intros H; injection H as <-;
    solve [apply emptyResponse_shape | apply response_shape].
Qed.

Lemma getProgress_shape_consistent_witness :
  shape_consistent
    (Progress.response
       [ Samples.workout_day 0 (Samples.day 2024 1 1) 1 30;
         Samples.workout_day 1 (Samples.day 2024 1 2) 2 60 ]
       [ Samples.nutrition_day 0 (Samples.day 2024 1 2) 2000;
         Samples.nutrition_day 1 (Samples.day 2024 1 3) 1800 ]).
Proof.
  apply (getProgress_shape_consistent
           (Samples.answering
              [ Samples.workout_day 0 (Samples.day 2024 1 1) 1 30;
                Samples.workout_day 1 (Samples.day 2024 1 2) 2 60 ]
              [ Samples.nutrition_day 0 (Samples.day 2024 1 2) 2000;
                Samples.nutrition_day 1 (Samples.day 2024 1 3) 1800 ])
           7 None).
  reflexivity.
Defined.

(** ** The date axis *)

(** C2.  The axis is neither free of duplicates nor ascending.  [new Set]
    compares the [Date] objects of the rows by identity, and every row
    carries an object of its own, so a day present in both sources stays
    twice on the axis; [sort()] without a comparator orders the objects by
    their [toString()] text, which begins with the name of the weekday, so
    Friday 2024-01-05 comes before Monday 2024-01-01. *)
Theorem axis_keeps_duplicates_and_weekday_order :
  (exists body,
     Progress.getProgress
       (Samples.answering
          [ Samples.workout_day 0 (Samples.day 2024 1 2) 1 30 ]
          [ Samples.nutrition_day 0 (Samples.day 2024 1 2) 2000 ])
       7 None = Progress.Sent body
     /\ Progress.w_dates (Progress.workouts body)
        = [ "2024-01-02"; "2024-01-02" ]%string
     /\ Spec.date_axis [ Samples.day 2024 1 2 ] [ Samples.day 2024 1 2 ]
        = [ Samples.day 2024 1 2 ])
  /\ (exists body,
        Progress.getProgress
          (Samples.answering
             [ Samples.workout_day 0 (Samples.day 2024 1 1) 1 30;
               Samples.workout_day 1 (Samples.day 2024 1 5) 1 45 ]
             [])
          7 None = Progress.Sent body
        /\ Progress.w_dates (Progress.workouts body)
           = [ "2024-01-05"; "2024-01-01" ]%string
        /\ Spec.date_axis [ Samples.day 2024 1 1; Samples.day 2024 1 5 ] []
           = [ Samples.day 2024 1 1; Samples.day 2024 1 5 ]).
Proof.
  split; eexists; (split; [vm_compute; reflexivity |]); split; vm_compute; reflexivity.
Qed.

(** The texts that [sort()] compares on the second sample. *)
Lemma toString_of_the_two_days :
  Js.toString (pg_date (0%nat, 0%nat) (Samples.day 2024 1 1))
  = "Mon Jan 01 2024 00:00:00 GMT+0000 (Coordinated Universal Time)"%string
  /\ Js.toString (pg_date (0%nat, 1%nat) (Samples.day 2024 1 5))
     = "Fri Jan 05 2024 00:00:00 GMT+0000 (Coordinated Universal Time)"%string.
Proof. split; vm_compute; reflexivity. Qed.

(** In general: objects of distinct identity all stay in the set. *)
Lemma sameValueZero_ref (a b : Js.Date) :
  Js.sameValueZero a b = true <-> Js.ref a = Js.ref b.
Proof.
  unfold Js.sameValueZero.
  destruct (Js.ref a) as [a1 a2], (Js.ref b) as [b1 b2]. simpl.
  rewrite andb_true_iff, !Nat.eqb_eq.
  split; [intros [-> ->]; reflexivity | intros H; injection H; auto].
Qed.

Lemma Set_add_fresh (seen : list Js.Date) (x : Js.Date) :
  ~ In (Js.ref x) (map Js.ref seen) -> Js.Set_add seen x = seen ++ [x].
Proof.
  induction seen as [| y ys IH]; simpl; intros Hn.
  - reflexivity.
  - destruct (Js.sameValueZero y x) eqn:E.
    + apply sameValueZero_ref in E. exfalso. apply Hn. left. exact E.
    + rewrite IH; [reflexivity |]. intro H. apply Hn. right. exact H.
Qed.

Lemma Set_of_fresh_from (xs seen : list Js.Date) :
  NoDup (map Js.ref (seen ++ xs)) ->
  fold_left Js.Set_add xs seen = seen ++ xs.
Proof.
  revert seen.
  induction xs as [| x rest IH]; simpl; intros seen Hnd.
  - now rewrite app_nil_r.
  - rewrite Set_add_fresh.
    + rewrite IH; rewrite <- app_assoc; [reflexivity | exact Hnd].
    + rewrite map_app in Hnd. simpl in Hnd.
      apply NoDup_remove_2 in Hnd.
      intro H. apply Hnd. apply in_or_app. left. exact H.
Qed.

Lemma Set_of_fresh (xs : list Js.Date) :
  NoDup (map Js.ref xs) -> Js.Set_of xs = xs.
Proof.
  intros H. unfold Js.Set_of. now rewrite Set_of_fresh_from.
Qed.

(** With an object of its own on every row, the axis has one entry per row
    of either answer: a day of both sources counts twice. *)
Lemma axis_length_fresh_objects (w : list WorkoutDay.row) (n : list NutritionDay.row) :
  NoDup (map Js.ref (map WorkoutDay.date w ++ map NutritionDay.date n)) ->
  List.length (Progress.w_dates (Progress.workouts (Progress.response w n)))
  = (List.length w + List.length n)%nat.
Proof.
  intros H. unfold Progress.response. simpl.
  unfold Progress.dates, Js.sort.
  rewrite length_map, stable_sort_length, (Set_of_fresh _ H).
  now rewrite length_app, !length_map.
Qed.

(** ** Zero for the source that lacks the day *)

(** C5.  The zero fill itself is as claimed, but the axis of the example
    is not: for workouts on 01-01 and 01-02 and nutrition on 01-02 and
    01-03 (of 2024) the axis has four entries, 01-02 twice, and not the
    three of the claim.  The workout count on 01-03 and the calories on
    01-01 are 0. *)
Theorem aligned_example_has_four_entries :
  exists body,
    Progress.getProgress
      (Samples.answering
         [ Samples.workout_day 0 (Samples.day 2024 1 1) 1 30;
           Samples.workout_day 1 (Samples.day 2024 1 2) 2 60 ]
         [ Samples.nutrition_day 0 (Samples.day 2024 1 2) 2000;
           Samples.nutrition_day 1 (Samples.day 2024 1 3) 1800 ])
      7 None = Progress.Sent body
    /\ Progress.w_dates (Progress.workouts body)
       = [ "2024-01-01"; "2024-01-02"; "2024-01-02"; "2024-01-03" ]%string
    /\ Progress.counts (Progress.workouts body) = [ 1; 2; 2; 0 ]
    /\ Progress.calories (Progress.nutrition body) = [ 0; 2000; 2000; 1800 ]
    /\ Spec.date_axis [ Samples.day 2024 1 1; Samples.day 2024 1 2 ]
                      [ Samples.day 2024 1 2; Samples.day 2024 1 3 ]
       = [ Samples.day 2024 1 1; Samples.day 2024 1 2; Samples.day 2024 1 3 ].
Proof.
  eexists. split; [vm_compute; reflexivity |].
  repeat split; vm_compute; reflexivity.
Qed.

(** The fill in general: at an index of the axis whose day no workout row
    has, the duration and the count are 0. *)
Lemma zero_fill_workouts (w : list WorkoutDay.row) (n : list NutritionDay.row)
    (i : nat) (date : Js.Date) :
  nth_error (Progress.dates w n) i = Some date ->
  Progress.find_workout w date = None ->
  nth_error (Progress.durations (Progress.workouts (Progress.response w n))) i = Some 0
  /\ nth_error (Progress.counts (Progress.workouts (Progress.response w n))) i = Some 0.
Proof.
  intros Hi Hf. unfold Progress.response. simpl.
  split; erewrite map_nth_error by exact Hi; rewrite Hf; reflexivity.
Qed.

(** At an index of the axis whose day no nutrition row has, the four
    nutrition fields are 0. *)
Lemma zero_fill_nutrition (w : list WorkoutDay.row) (n : list NutritionDay.row)
    (i : nat) (date : Js.Date) :
  nth_error (Progress.dates w n) i = Some date ->
  Progress.find_log n date = None ->
  nth_error (Progress.calories (Progress.nutrition (Progress.response w n))) i = Some 0
  /\ nth_error (Progress.protein (Progress.nutrition (Progress.response w n))) i = Some 0%Q
  /\ nth_error (Progress.carbs (Progress.nutrition (Progress.response w n))) i = Some 0%Q
  /\ nth_error (Progress.fats (Progress.nutrition (Progress.response w n))) i = Some 0%Q.
Proof.
  intros Hi Hf. unfold Progress.response. simpl.
  repeat split; erewrite map_nth_error by exact Hi; rewrite Hf; reflexivity.
Qed.

(** ** The progress route on the declared tables *)

(** The nutrition statement of progress.mjs reads the same missing column
    as the calories statement. *)
Lemma nutrition_undefined_column (db : Db.Database) (now userId : Z) (tf : string) :
  Sql.nutrition db now userId tf = Err (UndefinedColumn "date").
Proof. reflexivity. Qed.

(** X8.  On the tables that [initDatabase] creates the [catch] of the
    progress route always runs: the nutrition statement reads the column
    [date], which [food_logs] does not have, so every request, whatever
    the tables hold, the instant and the range, is answered with the empty
    structure. *)
Lemma getProgress_on_declared_tables (db : Db.Database) (now userId : Z)
    (req_range : option string) :
  Progress.getProgress (pgPool db now) userId req_range
  = Progress.Sent Progress.emptyResponse.
Proof.
  unfold Progress.getProgress, Progress.try_block. simpl.
  destruct (Sql.workouts db now userId _); reflexivity.
Qed.

(** * Further properties *)

(** ** Order and grouping *)

Section SortingOrder.

Context {A : Type} (le : A -> A -> bool).

Lemma insert_sorted_perm (x : A) (l : list A) :
  Permutation (x :: l) (insert_sorted le x l).
Proof.
  induction l as [| y ys IH]; simpl.
  - apply Permutation_refl.
  - destruct (le x y).
    + apply Permutation_refl.
    + eapply Permutation_trans; [apply perm_swap |].
      apply perm_skip, IH.
Qed.

Lemma stable_sort_perm (l : list A) : Permutation l (stable_sort le l).
Proof.
  induction l as [| x xs IH]; simpl.
  - apply Permutation_refl.
  - unfold stable_sort in *. simpl.
    eapply Permutation_trans; [apply perm_skip, IH |].
    apply insert_sorted_perm.
Qed.

Hypothesis le_total : forall x y, le x y = true \/ le y x = true.

Lemma insert_sorted_HdRel (a x : A) (l : list A) :
  leR le a x -> HdRel (leR le) a l -> HdRel (leR le) a (insert_sorted le x l).
Proof.
  intros Hax Hl.
  destruct l as [| y ys]; simpl.
  - constructor. exact Hax.
  - destruct (le x y); constructor.
    + exact Hax.
    + now inversion Hl.
Qed.

Lemma insert_sorted_Sorted (x : A) (l : list A) :
  Sorted (leR le) l -> Sorted (leR le) (insert_sorted le x l).
Proof.
  induction 1 as [| y ys Hs IH Hhd]; simpl.
  - repeat constructor.
  - destruct (le x y) eqn:E.
    + constructor; [constructor; assumption | constructor; exact E].
    + constructor; [exact IH |].
      apply insert_sorted_HdRel; [| exact Hhd].
      destruct (le_total x y) as [H | H]; [congruence | exact H].
Qed.

Lemma stable_sort_Sorted (l : list A) : Sorted (leR le) (stable_sort le l).
Proof.
  induction l as [| x xs IH]; simpl.
  - constructor.
  - unfold stable_sort in *. simpl. now apply insert_sorted_Sorted.
Qed.

Hypothesis le_trans : forall x y z, le x y = true -> le y z = true -> le x z = true.

Lemma stable_sort_StronglySorted (l : list A) :
  StronglySorted (leR le) (stable_sort le l).
Proof.
  apply Sorted_StronglySorted; [| apply stable_sort_Sorted].
  intros x y z. apply le_trans.
Qed.

End SortingOrder.

Lemma In_firstn {A : Type} (n : nat) (l : list A) (x : A) :
  In x (firstn n l) -> In x l.
Proof.
  revert n. induction l as [| y ys IH]; intros [| n]; simpl; try tauto.
  intros [H | H]; [left; exact H | right; eapply IH; exact H].
Qed.

Lemma StronglySorted_firstn {A : Type} (R : A -> A -> Prop) (n : nat) (l : list A) :
  StronglySorted R l -> StronglySorted R (firstn n l).
Proof.
  intros H. revert n.
  induction H as [| x xs Hs IH Hall]; intros [| n]; simpl; try constructor.
  - apply IH.
  - rewrite Forall_forall in *. intros y Hy. apply Hall.
    eapply In_firstn; eauto.
Qed.

Lemma NoDup_firstn {A : Type} (n : nat) (l : list A) :
  NoDup l -> NoDup (firstn n l).
Proof.
  intros H. revert n.
  induction H as [| x xs Hn Hnd IH]; intros [| n]; simpl; try constructor.
  - intro Hin. apply Hn. eapply In_firstn; eauto.
  - apply IH.
Qed.

Section GroupingInvariants.

Context {A K : Type} (eqb : K -> K -> bool) (key : A -> K).
Hypothesis eqb_eq : forall a b, eqb a b = true <-> a = b.

Lemma add_to_group_keys (groups : list (K * list A)) (x : A) :
  forall k, In k (map fst (add_to_group eqb key groups x))
            <-> In k (map fst groups) \/ k = key x.
Proof.
  induction groups as [| [k0 xs] rest IH]; simpl; intros k.
  - intuition congruence.
  - destruct (eqb k0 (key x)) eqn:E; simpl.
    + apply eqb_eq in E. subst. intuition congruence.
    + rewrite IH. intuition congruence.
Qed.

Lemma add_to_group_well_grouped (groups : list (K * list A)) (x : A) :
  well_grouped key groups -> well_grouped key (add_to_group eqb key groups x).
Proof.
  unfold well_grouped.
  induction groups as [| [k0 xs] rest IH]; simpl; intros [Hnd Hall].
  - split; repeat constructor; simpl; auto. discriminate.
  - inversion Hnd as [| ? ? Hnotin Hnd']. subst.
    inversion Hall as [| ? ? [Hne Hkeys] Hall']. subst. simpl in *.
    destruct (eqb k0 (key x)) eqn:E; simpl.
    + apply eqb_eq in E. split; [constructor; assumption |].
      constructor; [| assumption]. simpl. split.
      * destruct xs; discriminate.
      * apply Forall_app. split; [assumption |]. constructor; [symmetry; exact E | constructor].
    + destruct (IH (conj Hnd' Hall')) as [Hnd2 Hall2].
      split.
      * constructor; [| assumption].
        rewrite add_to_group_keys. intros [H | H]; [contradiction |].
        subst. assert (eqb (key x) (key x) = true) by now apply eqb_eq. congruence.
      * constructor; [| assumption]. simpl. now split.
Qed.

Lemma fold_add_to_group_well_grouped (rows : list A) (groups : list (K * list A)) :
  well_grouped key groups -> well_grouped key (fold_left (add_to_group eqb key) rows groups).
Proof.
  revert groups.
  induction rows as [| x xs IH]; simpl; intros groups H.
  - exact H.
  - apply IH, add_to_group_well_grouped, H.
Qed.

Lemma group_by_well_grouped (rows : list A) :
  well_grouped key (group_by eqb key rows).
Proof.
  apply fold_add_to_group_well_grouped.
  split; constructor.
Qed.

Lemma add_to_group_perm (groups : list (K * list A)) (x : A) :
  Permutation (List.concat (map snd (add_to_group eqb key groups x)))
              (x :: List.concat (map snd groups)).
Proof.
  induction groups as [| [k0 xs] rest IH]; simpl.
  - apply Permutation_refl.
  - destruct (eqb k0 (key x)); simpl.
    + rewrite <- app_assoc. simpl.
      apply Permutation_sym, Permutation_middle.
    + eapply Permutation_trans; [apply Permutation_app_head, IH |].
      apply Permutation_sym, Permutation_middle.
Qed.

Lemma fold_add_to_group_perm (rows : list A) (groups : list (K * list A)) :
  Permutation (List.concat (map snd (fold_left (add_to_group eqb key) rows groups)))
              (List.concat (map snd groups) ++ rows).
Proof.
  revert groups.
  induction rows as [| x xs IH]; simpl; intros groups.
  - now rewrite app_nil_r.
  - eapply Permutation_trans; [apply IH |].
    eapply Permutation_trans; [apply Permutation_app_tail, add_to_group_perm |].
    simpl. apply Permutation_middle.
Qed.

Lemma group_by_perm (rows : list A) :
  Permutation (List.concat (map snd (group_by eqb key rows))) rows.
Proof.
  unfold group_by.
  eapply Permutation_trans; [apply fold_add_to_group_perm |]. apply Permutation_refl.
Qed.

Lemma eqb_refl (k : K) : eqb k k = true.
Proof. now apply eqb_eq. Qed.

(** Where a group of the new list comes from. *)
Lemma add_to_group_inv (groups : list (K * list A)) (x : A) (k : K) (xs : list A) :
  NoDup (map fst groups) ->
  In (k, xs) (add_to_group eqb key groups x) ->
  (In (k, xs) groups /\ eqb k (key x) = false)
  \/ (exists xs0, In (k, xs0) groups /\ eqb k (key x) = true /\ xs = xs0 ++ [x])
  \/ (k = key x /\ xs = [x] /\ ~ In (key x) (map fst groups)).
Proof.
  induction groups as [| [k0 xs0] rest IH]; simpl; intros Hnd Hin.
  - destruct Hin as [Hin | []]. injection Hin as <- <-.
    right. right. auto.
  - inversion Hnd as [| ? ? Hnotin Hnd']. subst.
    destruct (eqb k0 (key x)) eqn:E.
    + destruct Hin as [Hin | Hin].
      * injection Hin as <- <-. right. left. exists xs0. auto.
      * left. split; [right; exact Hin |].
        destruct (eqb k (key x)) eqn:E2; [| reflexivity].
        apply eqb_eq in E, E2. exfalso. apply Hnotin.
        rewrite E, <- E2. change k with (fst (k, xs)). now apply in_map.
    + destruct Hin as [Hin | Hin].
      * injection Hin as <- <-. left. auto.
      * destruct (IH Hnd' Hin) as [[H1 H2] | [(xs1 & H1 & H2 & H3) | (H1 & H2 & H3)]].
        -- left. auto.
        -- right. left. exists xs1. auto.
        -- right. right. repeat split; try assumption.
           intros [H | H]; [| contradiction].
           subst k0. rewrite eqb_refl in E. discriminate.
Qed.

Lemma add_to_group_NoDup (groups : list (K * list A)) (x : A) :
  NoDup (map fst groups) -> NoDup (map fst (add_to_group eqb key groups x)).
Proof.
  induction groups as [| [k0 xs0] rest IH]; simpl; intros Hnd.
  - repeat constructor. simpl. tauto.
  - inversion Hnd as [| ? ? Hnotin Hnd']. subst.
    destruct (eqb k0 (key x)) eqn:E; simpl.
    + constructor; assumption.
    + constructor; [| now apply IH].
      rewrite add_to_group_keys. intros [H | H]; [contradiction |].
      subst k0. rewrite eqb_refl in E. discriminate.
Qed.

Lemma filter_same_key_none (k : K) (l : list A) :
  (forall x, In x l -> key x <> k) -> filter (same_key eqb key k) l = [].
Proof.
  induction l as [| y ys IH]; simpl; intros H.
  - reflexivity.
  - unfold same_key at 1. destruct (eqb k (key y)) eqn:E.
    + apply eqb_eq in E. exfalso. apply (H y); [left; reflexivity | now symmetry].
    + apply IH. intros x Hx. apply H. right. exact Hx.
Qed.

Lemma add_to_group_groups_of (seen : list A) (groups : list (K * list A)) (x : A) :
  groups_of eqb key seen groups -> groups_of eqb key (seen ++ [x]) (add_to_group eqb key groups x).
Proof.
  intros (Hnd & Hall & Hcov). repeat split.
  - now apply add_to_group_NoDup.
  - intros k xs Hin. rewrite filter_app. simpl. unfold same_key at 2.
    destruct (add_to_group_inv groups x k xs Hnd Hin)
      as [[H1 H2] | [(xs0 & H1 & H2 & H3) | (H1 & H2 & H3)]].
    + rewrite H2, app_nil_r. now apply Hall.
    + rewrite H2, H3. f_equal. now apply Hall.
    + subst k xs. rewrite eqb_refl.
      rewrite filter_same_key_none; [reflexivity |].
      intros y Hy Heq. apply H3. rewrite <- Heq. now apply Hcov.
  - intros y Hy. apply add_to_group_keys.
    apply in_app_or in Hy. destruct Hy as [Hy | [<- | []]]; auto.
Qed.

Lemma fold_add_to_group_groups_of (rows seen : list A) (groups : list (K * list A)) :
  groups_of eqb key seen groups ->
  groups_of eqb key (seen ++ rows) (fold_left (add_to_group eqb key) rows groups).
Proof.
  revert seen groups.
  induction rows as [| x xs IH]; simpl; intros seen groups H.
  - now rewrite app_nil_r.
  - replace (seen ++ x :: xs) with ((seen ++ [x]) ++ xs)
      by (rewrite <- app_assoc; reflexivity).
    apply IH, add_to_group_groups_of, H.
Qed.

(** [GROUP BY]: the keys are pairwise different, the group of a key is
    the rows with that key in their order, and no row is left out. *)
Lemma group_by_groups_of (rows : list A) : groups_of eqb key rows (group_by eqb key rows).
Proof.
  apply (fold_add_to_group_groups_of rows [] []).
  repeat split; simpl; try constructor; intros; contradiction.
Qed.

End GroupingInvariants.

Lemma StronglySorted_impl {A : Type} (R R' : A -> A -> Prop) (l : list A) :
  (forall a b, R a b -> R' a b) -> StronglySorted R l -> StronglySorted R' l.
Proof.
  intros Himp H. induction H as [| x xs Hs IH Hall]; constructor.
  - exact IH.
  - eapply Forall_impl; [| exact Hall]. intros b. apply Himp.
Qed.

Lemma StronglySorted_firstn_skipn {A : Type} (R : A -> A -> Prop) (n : nat) (l : list A) :
  StronglySorted R l ->
  forall a b, In a (firstn n l) -> In b (skipn n l) -> R a b.
Proof.
  intros H. revert n.
  induction H as [| x xs Hs IH Hall]; intros [| n] a b; simpl; try tauto.
  intros [<- | Ha] Hb.
  - rewrite Forall_forall in Hall. apply Hall.
    rewrite <- (firstn_skipn n xs). apply in_or_app. now right.
  - eapply IH; eassumption.
Qed.

Lemma opt_string_eqb_eq (a b : option string) :
  Sql.opt_string_eqb a b = true <-> a = b.
Proof.
  destruct a as [x |], b as [y |]; simpl; try (split; congruence).
  rewrite String.eqb_eq. split; congruence.
Qed.

Lemma opt_eqb_eq (a b : option Z) : Sql.opt_eqb a b = true <-> a = b.
Proof.
  destruct a as [x |], b as [y |]; simpl; try (split; congruence).
  rewrite Z.eqb_eq. split; congruence.
Qed.

Lemma non_null_somes {A B : Type} (f : A -> option B) (l : list A) :
  (forall x, In x l -> f x <> None) ->
  List.length (Sql.non_null (map f l)) = List.length l.
Proof.
  induction l as [| x xs IH]; simpl; intros H.
  - reflexivity.
  - destruct (f x) eqn:E.
    + simpl. f_equal. apply IH. intros y Hy. apply H. now right.
    + exfalso. apply (H x); [now left | exact E].
Qed.

Lemma avg_defined (vs : list (option Q)) :
  Sql.non_null vs <> [] -> Sql.avg vs <> None.
Proof.
  unfold Sql.avg. destruct (Sql.non_null vs); [congruence | discriminate].
Qed.

Lemma topExercises_value (db : Db.Database) (userId : Z) :
  Sql.topExercises db userId
  = Ok (firstn 5
          (stable_sort (fun a b => times_performed b <=? times_performed a)
             (map (fun g =>
                     {| exercise_name := fst g;
                        times_performed := Z.of_nat (List.length (snd g));
                        avg_weight :=
                          Sql.avg (map (fun p => Sql.coalesce0
                                          (Sql.as_numeric (Db.of_numeric (Db.we_weight (fst p)))))
                                       (snd g)) |})
                  (group_by Sql.opt_string_eqb
                     (fun p => Some (Db.we_exercise_name (fst p)))
                     (exercise_entries db userId))))).
Proof. reflexivity. Qed.

(** X1.  The answer of the top exercises statement: at most five rows,
    the more often performed first, no exercise name twice; every row
    carries the name of an exercise that the user has performed, how often
    the user has performed it (at least once) and an average weight that
    is never [NULL]; and an exercise that the user has performed and that
    is missing from the answer is missing because five rows were performed
    at least as often. *)
Theorem topExercises_top_five (db : Db.Database) (userId : Z) :
  exists rows,
    Sql.topExercises db userId = Ok rows
    /\ (List.length rows <= 5)%nat
    /\ StronglySorted more_often rows
    /\ NoDup (map exercise_name rows)
    /\ (forall r, In r rows ->
          exists name,
            exercise_name r = Some name
            /\ times_performed r = performed db userId name
            /\ 1 <= times_performed r
            /\ avg_weight r <> None)
    /\ (forall name,
          0 < performed db userId name ->
          ~ In (Some name) (map exercise_name rows) ->
          List.length rows = 5%nat
          /\ forall r, In r rows -> performed db userId name <= times_performed r).
Proof.
  eexists. split; [apply topExercises_value |].
  set (entries := exercise_entries db userId).
  set (keyf := fun p : Db.WorkoutExercise * Db.WorkoutLog => Some (Db.we_exercise_name (fst p))).
  set (G := group_by Sql.opt_string_eqb keyf entries).
  set (mk := fun g : option string * list (Db.WorkoutExercise * Db.WorkoutLog) =>
               {| exercise_name := fst g;
                  times_performed := Z.of_nat (List.length (snd g));
                  avg_weight :=
                    Sql.avg (map (fun p => Sql.coalesce0
                               (Sql.as_numeric (Db.of_numeric (Db.we_weight (fst p)))))
                            (snd g)) |}).
  set (cmp := fun a b : ExerciseRow => times_performed b <=? times_performed a).
  set (S := stable_sort cmp (map mk G)).
  destruct (group_by_groups_of Sql.opt_string_eqb keyf opt_string_eqb_eq entries)
    as (Hnd & Hcontent & Hcover). fold G in Hnd, Hcontent, Hcover.
  destruct (group_by_well_grouped Sql.opt_string_eqb keyf opt_string_eqb_eq entries)
    as (_ & Hwell). fold G in Hwell.
  assert (Hsorted : StronglySorted more_often S).
  { apply (StronglySorted_impl (leR cmp)).
    - intros a b. unfold leR, cmp, more_often. apply Z.leb_le.
    - apply (stable_sort_StronglySorted cmp).
      + intros x y. unfold cmp. rewrite !Z.leb_le. lia.
      + intros x y z. unfold cmp. rewrite !Z.leb_le. lia. }
  assert (Hnames : map exercise_name (map mk G) = map fst G).
  { rewrite map_map. apply map_ext. reflexivity. }
  assert (HndS : NoDup (map exercise_name S)).
  { eapply Permutation_NoDup; [apply Permutation_map, stable_sort_perm |].
    now rewrite Hnames. }
  assert (Hrow : forall r, In r S ->
            exists name, exercise_name r = Some name
              /\ times_performed r = performed db userId name
              /\ 1 <= times_performed r /\ avg_weight r <> None).
  { intros r Hr. apply stable_sort_In in Hr. apply in_map_iff in Hr.
    destruct Hr as ([k xs] & <- & Hg).
    rewrite Forall_forall in Hwell. destruct (Hwell _ Hg) as [Hne Hkeys]. simpl in *.
    destruct xs as [| p ps]; [congruence |].
    assert (Hk : k = Some (Db.we_exercise_name (fst p))).
    { apply Forall_inv in Hkeys. symmetry. exact Hkeys. }
    exists (Db.we_exercise_name (fst p)). split; [exact Hk |].
    split; [| split].
    - rewrite (Hcontent _ _ Hg). unfold performed. fold entries. rewrite Hk.
      reflexivity.
    - simpl. lia.
    - apply avg_defined. intro H. apply (f_equal (@List.length _)) in H.
      rewrite non_null_somes in H; [discriminate |].
      intros q _. unfold Sql.coalesce0.
      destruct (Sql.as_numeric _); discriminate. }
  split; [| split; [| split; [| split]]].
  - rewrite length_firstn. apply Nat.le_min_l.
  - now apply StronglySorted_firstn.
  - rewrite <- firstn_map. now apply NoDup_firstn.
  - intros r Hr. apply Hrow. eapply In_firstn. exact Hr.
  - intros name Hpos Habsent.
    (* the exercise has a row in [S], hence behind the first five *)
    assert (Hin : In (Some name) (map exercise_name S)).
    { eapply Permutation_in; [apply Permutation_map, stable_sort_perm |].
      rewrite Hnames. unfold performed in Hpos. fold entries in Hpos.
      destruct (filter _ entries) as [| p ps] eqn:E; [simpl in Hpos; lia |].
      assert (Hp : In p (filter (fun p => String.eqb name (Db.we_exercise_name (fst p))) entries))
        by (rewrite E; now left).
      apply filter_In in Hp. destruct Hp as [Hp Hn]. apply String.eqb_eq in Hn.
      rewrite Hn. apply (Hcover p Hp). }
    apply in_map_iff in Hin. destruct Hin as (r0 & Hr0 & Hin).
    rewrite <- (firstn_skipn 5 S) in Hin. apply in_app_or in Hin.
    destruct Hin as [Hin | Hin].
    { exfalso. apply Habsent. rewrite <- Hr0. now apply in_map. }
    split.
    + rewrite length_firstn. destruct (Nat.le_gt_cases 5 (List.length S)) as [H | H].
      * now apply Nat.min_l.
      * rewrite skipn_all2 in Hin by lia. contradiction.
    + intros r Hr.
      pose proof (StronglySorted_firstn_skipn more_often 5 S Hsorted r r0 Hr Hin) as Hle.
      unfold more_often in Hle.
      destruct (Hrow r0) as (n0 & Hn0 & Hc0 & _).
      { rewrite <- (firstn_skipn 5 S). apply in_or_app. now right. }
      rewrite Hr0 in Hn0. injection Hn0 as <-. lia.
Qed.

(** ** The rollups *)

Lemma non_null_map_Some {A B : Type} (f : A -> B) (l : list A) :
  Sql.non_null (map (fun x => Some (f x)) l) = map f l.
Proof.
  induction l as [| x xs IH]; simpl; [reflexivity | now rewrite IH].
Qed.

Lemma sumZ_perm (l l' : list Z) : Permutation l l' -> sumZ l = sumZ l'.
Proof.
  induction 1; simpl; lia.
Qed.

Lemma sumZ_lengths {A : Type} (ls : list (list A)) :
  sumZ (map (fun l => Z.of_nat (List.length l)) ls)
  = Z.of_nat (List.length (List.concat ls)).
Proof.
  induction ls as [| l rest IH]; simpl.
  - reflexivity.
  - rewrite length_app, IH. lia.
Qed.

Lemma fold_left_add_sumZ (l : list Z) (acc : Z) :
  fold_left Z.add l acc = acc + sumZ l.
Proof.
  revert acc. induction l as [| x xs IH]; simpl; intros acc.
  - lia.
  - rewrite IH. lia.
Qed.

Lemma opt_le_total (a b : option Z) :
  Sql.opt_le a b = true \/ Sql.opt_le b a = true.
Proof.
  destruct a, b; simpl; auto. rewrite !Z.leb_le. lia.
Qed.

Lemma opt_le_trans (a b c : option Z) :
  Sql.opt_le a b = true -> Sql.opt_le b c = true -> Sql.opt_le a c = true.
Proof.
  destruct a, b, c; simpl; auto; try discriminate. rewrite !Z.leb_le. lia.
Qed.

Lemma non_null_all_some {A : Type} (ks : list (option A)) :
  (forall k, In k ks -> k <> None) -> ks = map Some (Sql.non_null ks).
Proof.
  induction ks as [| k rest IH]; simpl; intros Hall; [reflexivity |].
  destruct k as [v |].
  - simpl. f_equal. apply IH. intros k Hk. apply Hall. now right.
  - exfalso. apply (Hall None); [now left | reflexivity].
Qed.

Lemma distinct_length (vs : list Z) :
  List.length (Sql.non_null (Sql.distinct (map Some vs)))
  = List.length (nodup Z.eq_dec vs).
Proof.
  unfold Sql.distinct.
  destruct (group_by_groups_of Sql.opt_eqb (fun v : option Z => v) opt_eqb_eq (map Some vs))
    as (Hnd & _ & Hcover).
  destruct (group_by_well_grouped Sql.opt_eqb (fun v : option Z => v) opt_eqb_eq (map Some vs))
    as (_ & Hwell).
  set (G := group_by Sql.opt_eqb (fun v : option Z => v) (map Some vs)) in *.
  assert (Hkeys : forall k, In k (map fst G) <-> exists v, k = Some v /\ In v vs).
  { intros k. split.
    - intros Hk. apply in_map_iff in Hk. destruct Hk as ([k' xs] & <- & Hg).
      rewrite Forall_forall in Hwell. destruct (Hwell _ Hg) as [Hne Hall]. simpl in *.
      destruct xs as [| x rest]; [congruence |].
      apply Forall_inv in Hall. subst k'.
      assert (Hx : In x (map Some vs)).
      { eapply Permutation_in; [apply (group_by_perm Sql.opt_eqb (fun v : option Z => v)) |].
        apply in_concat. exists (x :: rest). split; [| now left].
        fold G. change (x :: rest) with (snd (x, x :: rest)). now apply in_map. }
      apply in_map_iff in Hx. destruct Hx as (v & <- & Hv). eauto.
    - intros (v & -> & Hv). apply (Hcover (Some v)). now apply in_map. }
  assert (Hsome : map fst G = map Some (Sql.non_null (map fst G))).
  { apply non_null_all_some.
    intros k Hk. apply Hkeys in Hk. destruct Hk as (v & -> & _). discriminate. }
  apply Permutation_length. apply NoDup_Permutation.
  - rewrite Hsome in Hnd. eapply NoDup_map_inv. exact Hnd.
  - apply NoDup_nodup.
  - intros v. rewrite nodup_In. split.
    + intros Hv. assert (H : In (Some v) (map fst G)).
      { rewrite Hsome. now apply in_map. }
      apply Hkeys in H. destruct H as (v' & Hv' & Hin). now injection Hv' as ->.
    + intros Hv. assert (H : In (Some v) (map fst G)) by (apply Hkeys; eauto).
      rewrite Hsome in H. apply in_map_iff in H. destruct H as (v' & Hv' & Hin).
      now injection Hv' as ->.
Qed.

Lemma monthlyStats_value (db : Db.Database) (now userId : Z) :
  Sql.monthlyStats db now userId
  = Ok (stable_sort (fun a b => Sql.opt_le (month b) (month a))
          (map (fun g =>
                  {| month := fst g;
                     active_days :=
                       Z.of_nat (List.length
                         (Sql.non_null (Sql.distinct
                            (map (fun r => Some (Db.wl_date r)) (snd g)))));
                     total_workouts := Z.of_nat (List.length (snd g));
                     total_duration :=
                       Sql.sum_int (map (fun r => Some (Db.wl_duration r)) (snd g)) |})
               (group_by Sql.opt_eqb
                  (fun r => Some (Calendar.month_of (Db.wl_date r)))
                  (window_logs db now userId)))).
Proof. reflexivity. Qed.

(** X2.  The answer of the monthly statement: one row per month number
    that has a workout of the user in the window, no month number twice,
    the higher month numbers first; every row carries the number of
    workouts of that month number in the window, the number of distinct
    dates among them and the sum of their durations; and the workout
    counts of the rows add up to the number of workouts in the window. *)
Theorem monthlyStats_rollups (db : Db.Database) (now userId : Z) :
  exists rows,
    Sql.monthlyStats db now userId = Ok rows
    /\ NoDup (map month rows)
    /\ StronglySorted month_after rows
    /\ (forall r, In r rows ->
          exists m,
            let logs := of_month m (window_logs db now userId) in
            month r = Some m
            /\ logs <> []
            /\ total_workouts r = Z.of_nat (List.length logs)
            /\ active_days r
               = Z.of_nat (List.length (nodup Z.eq_dec (map Db.wl_date logs)))
            /\ total_duration r = Some (sumZ (map Db.wl_duration logs)))
    /\ sumZ (map total_workouts rows)
       = Z.of_nat (List.length (window_logs db now userId)).
Proof.
  eexists. split; [apply monthlyStats_value |].
  set (logs := window_logs db now userId).
  set (keyf := fun r : Db.WorkoutLog => Some (Calendar.month_of (Db.wl_date r))).
  set (G := group_by Sql.opt_eqb keyf logs).
  set (mk := fun g : option Z * list Db.WorkoutLog =>
               {| month := fst g;
                  active_days :=
                    Z.of_nat (List.length
                      (Sql.non_null (Sql.distinct
                         (map (fun r => Some (Db.wl_date r)) (snd g)))));
                  total_workouts := Z.of_nat (List.length (snd g));
                  total_duration :=
                    Sql.sum_int (map (fun r => Some (Db.wl_duration r)) (snd g)) |}).
  set (cmp := fun a b : MonthRow => Sql.opt_le (month b) (month a)).
  destruct (group_by_groups_of Sql.opt_eqb keyf opt_eqb_eq logs)
    as (Hnd & Hcontent & Hcover). fold G in Hnd, Hcontent, Hcover.
  destruct (group_by_well_grouped Sql.opt_eqb keyf opt_eqb_eq logs)
    as (_ & Hwell). fold G in Hwell.
  assert (Hmonths : map month (map mk G) = map fst G).
  { rewrite map_map. apply map_ext. reflexivity. }
  split; [| split; [| split]].
  - eapply Permutation_NoDup; [apply Permutation_map, stable_sort_perm |].
    now rewrite Hmonths.
  - apply (StronglySorted_impl (leR cmp)); [intros a b H; exact H |].
    apply (stable_sort_StronglySorted cmp).
    + intros x y. apply opt_le_total.
    + intros x y z H1 H2. unfold cmp in *. eapply opt_le_trans; eassumption.
  - intros r Hr. apply stable_sort_In in Hr. apply in_map_iff in Hr.
    destruct Hr as ([k xs] & <- & Hg).
    rewrite Forall_forall in Hwell. destruct (Hwell _ Hg) as [Hne Hkeys]. simpl in Hne, Hkeys.
    destruct xs as [| p ps] eqn:Exs; [congruence |]. rewrite <- Exs in *.
    assert (Hk : k = Some (Calendar.month_of (Db.wl_date p))).
    { rewrite Exs in Hkeys. apply Forall_inv in Hkeys. symmetry. exact Hkeys. }
    exists (Calendar.month_of (Db.wl_date p)).
    assert (Hxs : xs = of_month (Calendar.month_of (Db.wl_date p)) logs).
    { rewrite (Hcontent _ _ Hg), Hk. reflexivity. }
    cbv zeta. rewrite <- Hxs. simpl.
    split; [exact Hk |]. split; [exact Hne |]. split; [reflexivity |]. split.
    + rewrite <- distinct_length. now rewrite map_map.
    + unfold Sql.sum_int. rewrite non_null_map_Some.
      destruct (map Db.wl_duration xs) as [| d ds] eqn:E.
      * rewrite Exs in E. discriminate.
      * rewrite fold_left_add_sumZ. reflexivity.
  - rewrite (sumZ_perm _ (map total_workouts (map mk G))).
    + rewrite map_map. simpl.
      rewrite <- (map_map snd (fun l => Z.of_nat (List.length l))).
      rewrite sumZ_lengths. f_equal. apply Permutation_length.
      apply (group_by_perm Sql.opt_eqb keyf).
    + apply Permutation_map, Permutation_sym, stable_sort_perm.
Qed.

(** ** The axis and the rows *)

Lemma Set_add_In (seen : list Js.Date) (x y : Js.Date) :
  In y (Js.Set_add seen x) -> In y seen \/ y = x.
Proof.
  induction seen as [| z zs IH]; simpl.
  - intros [H | []]; auto.
  - destruct (Js.sameValueZero z x); simpl; [tauto |].
    intros [H | H]; [auto |]. destruct (IH H); auto.
Qed.

Lemma Set_add_keeps (seen : list Js.Date) (x y : Js.Date) :
  In y seen -> In y (Js.Set_add seen x).
Proof.
  induction seen as [| z zs IH]; simpl; [tauto |].
  destruct (Js.sameValueZero z x); simpl; [tauto |].
  intros [H | H]; auto.
Qed.

Lemma Set_add_has (seen : list Js.Date) (x : Js.Date) :
  exists y, In y (Js.Set_add seen x) /\ Js.ref y = Js.ref x /\ (y = x \/ In y seen).
Proof.
  induction seen as [| z zs IH]; simpl.
  - exists x. auto.
  - destruct (Js.sameValueZero z x) eqn:E.
    + apply sameValueZero_ref in E. exists z. simpl. auto.
    + destruct IH as (y & H1 & H2 & H3). exists y. simpl. tauto.
Qed.

Lemma fold_Set_add_In (xs seen : list Js.Date) (y : Js.Date) :
  In y (fold_left Js.Set_add xs seen) -> In y seen \/ In y xs.
Proof.
  revert seen. induction xs as [| x rest IH]; simpl; intros seen H; [auto |].
  destruct (IH _ H) as [H1 | H1]; [| auto].
  destruct (Set_add_In _ _ _ H1); auto.
Qed.

Lemma fold_Set_add_keeps (xs seen : list Js.Date) (y : Js.Date) :
  In y seen -> In y (fold_left Js.Set_add xs seen).
Proof.
  revert seen. induction xs as [| x rest IH]; simpl; intros seen H; [exact H |].
  apply IH, Set_add_keeps, H.
Qed.

Lemma fold_Set_add_has (xs seen : list Js.Date) (x : Js.Date) :
  In x xs ->
  exists y, In y (fold_left Js.Set_add xs seen)
            /\ Js.ref y = Js.ref x /\ (In y xs \/ In y seen).
Proof.
  revert seen. induction xs as [| z rest IH]; simpl; intros seen Hx; [contradiction |].
  destruct Hx as [-> | Hx].
  - destruct (Set_add_has seen x) as (y & H1 & H2 & H3).
    exists y. split; [now apply fold_Set_add_keeps |]. split; [exact H2 |].
    destruct H3 as [-> | H3]; auto.
  - destruct (IH (Js.Set_add seen z) Hx) as (y & H1 & H2 & H3).
    exists y. split; [exact H1 |]. split; [exact H2 |].
    destruct H3 as [H3 | H3]; [auto |].
    destruct (Set_add_In _ _ _ H3) as [H4 | ->]; auto.
Qed.

(** X3.  When the driver hands out one [Date] object per reference, a
    day is on the axis of the response exactly when a workout row or a
    nutrition row has it: the axis lists the days of the rows and nothing
    else. *)
Theorem axis_is_the_days_of_the_rows (w : list WorkoutDay.row)
    (n : list NutritionDay.row) (s : string) :
  one_object_per_ref (row_dates w n) ->
  (In s (Progress.w_dates (Progress.workouts (Progress.response w n)))
   <-> In s (workout_iso_days w) \/ In s (nutrition_iso_days n)).
Proof.
  intros Hheap. unfold Progress.response. simpl.
  unfold Progress.dates, Js.sort, Js.Set_of. fold (row_dates w n).
  rewrite in_map_iff. split.
  - intros (d & <- & Hd). apply stable_sort_In in Hd.
    apply fold_Set_add_In in Hd. destruct Hd as [[] | Hd].
    unfold row_dates in Hd. apply in_app_or in Hd.
    destruct Hd as [Hd | Hd]; apply in_map_iff in Hd; destruct Hd as (r & <- & Hr).
    + left. unfold workout_iso_days. apply in_map_iff. eauto.
    + right. unfold nutrition_iso_days. apply in_map_iff. eauto.
  - intros H.
    assert (Hd : exists d, In d (row_dates w n) /\ Progress.isoDay d = s).
    { unfold row_dates. destruct H as [H | H]; apply in_map_iff in H;
        destruct H as (r & <- & Hr); eexists; (split; [| reflexivity]);
        apply in_or_app; [left | right]; now apply in_map. }
    destruct Hd as (d & Hd & <-).
    destruct (fold_Set_add_has (row_dates w n) [] d Hd) as (y & H1 & H2 & H3).
    destruct H3 as [H3 | []].
    assert (y = d) by (apply Hheap; assumption). subst y.
    exists d. split; [reflexivity |]. now apply stable_sort_In.
Qed.

Lemma axis_is_the_days_of_the_rows_witness :
  In "2024-01-03"%string
     (Progress.w_dates (Progress.workouts (Progress.response
        [ Samples.workout_day 0 (Samples.day 2024 1 1) 1 30 ]
        [ Samples.nutrition_day 0 (Samples.day 2024 1 3) 1800 ]))).
Proof.
  apply (axis_is_the_days_of_the_rows
           [ Samples.workout_day 0 (Samples.day 2024 1 1) 1 30 ]
           [ Samples.nutrition_day 0 (Samples.day 2024 1 3) 1800 ]).
  - intros a b Ha Hb. simpl in Ha, Hb.
    destruct Ha as [<- | [<- | []]]; destruct Hb as [<- | [<- | []]];
      simpl; intros H; try reflexivity; discriminate.
  - right. vm_compute. auto.
Defined.

(** ** The values on the axis *)

Lemma find_unique {A : Type} (f : A -> bool) (l : list A) (r : A) :
  In r l -> f r = true ->
  (forall r', In r' l -> f r' = true -> r' = r) ->
  find f l = Some r.
Proof.
  induction l as [| x xs IH]; simpl; intros Hin Hf Huniq; [contradiction |].
  destruct (f x) eqn:E.
  - f_equal. apply Huniq; auto.
  - destruct Hin as [-> | Hin]; [congruence |].
    apply IH; auto.
Qed.

Lemma NoDup_map_unique {A B : Type} (f : A -> B) (l : list A) (a b : A) :
  NoDup (map f l) -> In a l -> In b l -> f a = f b -> a = b.
Proof.
  induction l as [| x xs IH]; simpl; intros Hnd Ha Hb Hf; [contradiction |].
  inversion Hnd as [| ? ? Hnotin Hnd']. subst.
  destruct Ha as [-> | Ha], Hb as [-> | Hb]; auto.
  - exfalso. apply Hnotin. rewrite Hf. now apply in_map.
  - exfalso. apply Hnotin. rewrite <- Hf. now apply in_map.
Qed.

(** X4.  With one workout row per day, the entry of the axis for the day
    of a row carries the count and the duration of that row, read with
    [parseInt(...) || 0]. *)
Theorem axis_carries_the_workout_row (w : list WorkoutDay.row)
    (n : list NutritionDay.row) (i : nat) (date : Js.Date) (r : WorkoutDay.row) :
  NoDup (workout_iso_days w) ->
  nth_error (Progress.dates w n) i = Some date ->
  In r w ->
  Progress.isoDay (WorkoutDay.date r) = Progress.isoDay date ->
  nth_error (Progress.counts (Progress.workouts (Progress.response w n))) i
  = Some (Js.parseInt_then_or0 (WorkoutDay.workout_count r))
  /\ nth_error (Progress.durations (Progress.workouts (Progress.response w n))) i
     = Some (Js.parseInt_then_or0 (WorkoutDay.total_duration r)).
Proof.
  intros Hnd Hi Hr Hday.
  assert (Hf : Progress.find_workout w date = Some r).
  { apply find_unique.
    - exact Hr.
    - rewrite Hday. apply String.eqb_refl.
    - intros r' Hr' E. apply String.eqb_eq in E.
      apply (NoDup_map_unique (fun r => Progress.isoDay (WorkoutDay.date r)) w);
        try assumption. congruence. }
  unfold Progress.response. simpl.
  split; erewrite map_nth_error by exact Hi; rewrite Hf; reflexivity.
Qed.

Lemma axis_carries_the_workout_row_witness :
  nth_error
    (Progress.counts (Progress.workouts (Progress.response
       [ Samples.workout_day 0 (Samples.day 2024 1 1) 1 30;
         Samples.workout_day 1 (Samples.day 2024 1 2) 2 60 ]
       [ Samples.nutrition_day 0 (Samples.day 2024 1 2) 2000 ]))) 2
  = Some 2.
Proof.
  apply (axis_carries_the_workout_row
           [ Samples.workout_day 0 (Samples.day 2024 1 1) 1 30;
             Samples.workout_day 1 (Samples.day 2024 1 2) 2 60 ]
           [ Samples.nutrition_day 0 (Samples.day 2024 1 2) 2000 ]
           2 (pg_date (1%nat, 0%nat) (Samples.day 2024 1 2))
           (Samples.workout_day 1 (Samples.day 2024 1 2) 2 60)).
  - vm_compute. repeat constructor; simpl; intuition discriminate.
  - vm_compute. reflexivity.
  - simpl. auto.
  - vm_compute. reflexivity.
Defined.

Lemma find_none {A : Type} (f : A -> bool) (l : list A) :
  (forall x, In x l -> f x = false) -> find f l = None.
Proof.
  induction l as [| x xs IH]; simpl; intros H; [reflexivity |].
  rewrite (H x) by now left. apply IH. intros y Hy. apply H. now right.
Qed.

(** X5.  The fill: at an entry of the axis whose day no workout row has,
    the count and the duration are 0, and at an entry whose day no
    nutrition row has, the calories, protein, carbs and fats are 0. *)
Theorem axis_zero_without_a_row (w : list WorkoutDay.row) (n : list NutritionDay.row)
    (i : nat) (date : Js.Date) :
  nth_error (Progress.dates w n) i = Some date ->
  ((forall r, In r w -> Progress.isoDay (WorkoutDay.date r) <> Progress.isoDay date) ->
   nth_error (Progress.counts (Progress.workouts (Progress.response w n))) i = Some 0
   /\ nth_error (Progress.durations (Progress.workouts (Progress.response w n))) i
      = Some 0)
  /\ ((forall r, In r n -> Progress.isoDay (NutritionDay.date r) <> Progress.isoDay date) ->
      nth_error (Progress.calories (Progress.nutrition (Progress.response w n))) i
      = Some 0
      /\ nth_error (Progress.protein (Progress.nutrition (Progress.response w n))) i
         = Some 0%Q
      /\ nth_error (Progress.carbs (Progress.nutrition (Progress.response w n))) i
         = Some 0%Q
      /\ nth_error (Progress.fats (Progress.nutrition (Progress.response w n))) i
         = Some 0%Q).
Proof.
  intros Hi. split; intros Hno.
  - destruct (zero_fill_workouts w n i date Hi) as [H1 H2]; [| now split].
    apply find_none. intros r Hr. apply String.eqb_neq. now apply Hno.
  - apply (zero_fill_nutrition w n i date Hi).
    apply find_none. intros r Hr. apply String.eqb_neq. now apply Hno.
Qed.

Lemma axis_zero_without_a_row_witness :
  nth_error
    (Progress.counts (Progress.workouts (Progress.response
       [ Samples.workout_day 0 (Samples.day 2024 1 1) 1 30 ]
       [ Samples.nutrition_day 0 (Samples.day 2024 1 3) 1800 ]))) 1
  = Some 0
  /\ nth_error
       (Progress.calories (Progress.nutrition (Progress.response
          [ Samples.workout_day 0 (Samples.day 2024 1 1) 1 30 ]
          [ Samples.nutrition_day 0 (Samples.day 2024 1 3) 1800 ]))) 0
     = Some 0.
Proof.
  split.
  - apply (axis_zero_without_a_row
             [ Samples.workout_day 0 (Samples.day 2024 1 1) 1 30 ]
             [ Samples.nutrition_day 0 (Samples.day 2024 1 3) 1800 ]
             1 (pg_date (1%nat, 0%nat) (Samples.day 2024 1 3))).
    + vm_compute. reflexivity.
    + intros r [<- | []]. vm_compute. discriminate.
  - apply (axis_zero_without_a_row
             [ Samples.workout_day 0 (Samples.day 2024 1 1) 1 30 ]
             [ Samples.nutrition_day 0 (Samples.day 2024 1 3) 1800 ]
             0 (pg_date (0%nat, 0%nat) (Samples.day 2024 1 1))).
    + vm_compute. reflexivity.
    + intros r [<- | []]. vm_compute. discriminate.
Defined.

(** ** The workout statement of the progress route *)

Lemma interval_days_timeFilter (range : string) :
  Sql.interval_days (Progress.timeFilter range) = Ok (range_days range).
Proof.
  unfold Progress.timeFilter, range_days.
  destruct (String.eqb range "week"); [reflexivity |].
  destruct (String.eqb range "month"); [reflexivity |].
  destruct (String.eqb range "year"); reflexivity.
Qed.

Lemma collect_map_ok {A B : Type} (f : A -> Result B) (g : A -> B) (l : list A) :
  (forall x, In x l -> f x = Ok (g x)) ->
  Sql.collect (map f l) = Ok (map g l).
Proof.
  induction l as [| x xs IH]; simpl; intros H; [reflexivity |].
  rewrite (H x) by now left. simpl.
  rewrite IH by (intros y Hy; apply H; now right). reflexivity.
Qed.

Lemma row_number_snd {A : Type} (l : list A) (from : Z) :
  map snd (Sql.row_number from l) = l.
Proof.
  revert from. induction l as [| x xs IH]; simpl; intros from; [reflexivity |].
  now rewrite IH.
Qed.

Lemma row_number_from {A : Type} (l : list A) (from : Z) (ig : Z * A) :
  In ig (Sql.row_number from l) -> from <= fst ig.
Proof.
  revert from. induction l as [| x xs IH]; simpl; intros from; [tauto |].
  intros [<- | H]; simpl; [lia |]. apply IH in H. lia.
Qed.

Lemma row_number_NoDup {A : Type} (l : list A) (from : Z) :
  0 <= from ->
  NoDup (map (fun ig => Z.to_nat (fst ig)) (Sql.row_number from l)).
Proof.
  revert from. induction l as [| x xs IH]; simpl; intros from Hfrom.
  - constructor.
  - constructor; [| apply IH; lia].
    intros H. apply in_map_iff in H. destruct H as (ig & Heq & Hin).
    apply row_number_from in Hin. lia.
Qed.

Lemma row_number_sorted {A B : Type} (R : A -> A -> Prop) (R' : B -> B -> Prop)
    (f : Z * A -> B) (l : list A) (from : Z) :
  (forall i j a b, R a b -> R' (f (i, a)) (f (j, b))) ->
  StronglySorted R l -> StronglySorted R' (map f (Sql.row_number from l)).
Proof.
  intros Hf H. revert from.
  induction H as [| x xs Hs IH Hall]; simpl; intros from; constructor.
  - apply IH.
  - rewrite Forall_forall in *. intros b Hb.
    apply in_map_iff in Hb. destruct Hb as ([j y] & <- & Hin).
    apply Hf, Hall.
    rewrite <- (row_number_snd xs (from + 1)).
    change y with (snd (j, y)). now apply in_map.
Qed.

Lemma StronglySorted_distinct {A B : Type} (R : A -> A -> Prop) (f : A -> B) (l : list A) :
  StronglySorted R l -> NoDup (map f l) ->
  StronglySorted (fun a b => R a b /\ f a <> f b) l.
Proof.
  induction 1 as [| x xs Hs IH Hall]; simpl; intros Hnd; constructor.
  - apply IH. now inversion Hnd.
  - inversion Hnd as [| ? ? Hnotin _]. subst.
    rewrite Forall_forall in *. intros b Hb. split; [now apply Hall |].
    intros E. apply Hnotin. rewrite E. now apply in_map.
Qed.

Lemma workouts_value (db : Db.Database) (now userId : Z) (range : string) :
  Sql.workouts db now userId (Progress.timeFilter range)
  = Ok (map workout_row
          (Sql.row_number 0
             (stable_sort (fun g h => Sql.opt_le (fst g) (fst h))
                (group_by Sql.opt_eqb (fun r => Some (Db.wl_date r))
                   (recent_logs db now userId (range_days range)))))).
Proof.
  unfold Sql.workouts.
  cbn [Db.column Db.workout_logs_columns bind]. simpl String.eqb. cbn iota.
  unfold bind at 1 2 3. rewrite interval_days_timeFilter. unfold bind at 1.
  apply collect_map_ok.
  intros [i [k xs]] Hin. simpl.
  assert (Hg : In (k, xs) (group_by Sql.opt_eqb (fun r => Some (Db.wl_date r))
                             (recent_logs db now userId (range_days range)))).
  { apply (stable_sort_In (fun g h => Sql.opt_le (fst g) (fst h))).
    rewrite <- (row_number_snd (stable_sort _ _) 0).
    change (k, xs) with (snd (i, (k, xs))). now apply in_map. }
  destruct (group_by_well_grouped Sql.opt_eqb (fun r : Db.WorkoutLog => Some (Db.wl_date r))
              opt_eqb_eq (recent_logs db now userId (range_days range))) as (_ & Hwell).
  rewrite Forall_forall in Hwell. destruct (Hwell _ Hg) as [Hne Hkeys]. simpl in *.
  destruct xs as [| p ps]; [congruence |].
  apply Forall_inv in Hkeys. subst k. reflexivity.
Qed.

Lemma workouts_rows (db : Db.Database) (now userId : Z) (range : string) :
  exists rows,
    Sql.workouts db now userId (Progress.timeFilter range) = Ok rows
    /\ StronglySorted earlier_day rows
    /\ NoDup (map (fun r => Js.ref (WorkoutDay.date r)) rows)
    /\ (forall r, In r rows ->
          exists d,
            let logs := on_day d (recent_logs db now userId (range_days range)) in
            Js.time (WorkoutDay.date r) = d * Calendar.msPerDay
            /\ logs <> []
            /\ WorkoutDay.workout_count r = Some (Z.of_nat (List.length logs))
            /\ WorkoutDay.total_duration r = Some (sumZ (map Db.wl_duration logs)))
    /\ sumZ (map (fun r => Js.parseInt_or0 (WorkoutDay.workout_count r)) rows)
       = Z.of_nat (List.length (recent_logs db now userId (range_days range))).
Proof.
  eexists. split; [apply workouts_value |].
  set (logs := recent_logs db now userId (range_days range)).
  set (keyf := fun r : Db.WorkoutLog => Some (Db.wl_date r)).
  set (G := group_by Sql.opt_eqb keyf logs).
  set (cmp := fun g h : option Z * list Db.WorkoutLog => Sql.opt_le (fst g) (fst h)).
  set (S := stable_sort cmp G).
  destruct (group_by_groups_of Sql.opt_eqb keyf opt_eqb_eq logs)
    as (Hnd & Hcontent & Hcover). fold G in Hnd, Hcontent, Hcover.
  destruct (group_by_well_grouped Sql.opt_eqb keyf opt_eqb_eq logs)
    as (_ & Hwell). fold G in Hwell.
  assert (Hgroup : forall k xs, In (k, xs) S ->
            exists d, k = Some d /\ xs = on_day d logs /\ xs <> []).
  { intros k xs Hin. apply stable_sort_In in Hin.
    rewrite Forall_forall in Hwell. destruct (Hwell _ Hin) as [Hne Hkeys]. simpl in *.
    destruct xs as [| p ps] eqn:E; [congruence |]. rewrite <- E in *.
    assert (Hk : k = Some (Db.wl_date p)).
    { rewrite E in Hkeys. apply Forall_inv in Hkeys. symmetry. exact Hkeys. }
    exists (Db.wl_date p). split; [exact Hk |]. split; [| exact Hne].
    rewrite (Hcontent _ _ Hin), Hk. reflexivity. }
  assert (HndS : NoDup (map fst S)).
  { eapply Permutation_NoDup; [apply Permutation_map, stable_sort_perm | exact Hnd]. }
  assert (Hsorted : StronglySorted (fun g h => leR cmp g h /\ fst g <> fst h) S).
  { apply StronglySorted_distinct; [| exact HndS].
    apply (stable_sort_StronglySorted cmp).
    - intros x y. apply opt_le_total.
    - intros x y z. unfold cmp. apply opt_le_trans. }
  split; [| split; [| split]].
  - (* days ascending *)
    assert (Hsorted' : StronglySorted
              (fun g h => exists a b, fst g = Some a /\ fst h = Some b /\ a < b) S).
    { assert (Hall : Forall (fun g => exists d, fst g = Some d) S).
      { rewrite Forall_forall. intros [k xs] Hin.
        destruct (Hgroup _ _ Hin) as (d & -> & _). simpl. eauto. }
      clear - Hsorted Hall.
      induction Hsorted as [| g gs Hs IH Hhd]; constructor.
      - apply IH. now inversion Hall.
      - inversion Hall as [| ? ? (a & Ha) Hall']. subst.
        rewrite Forall_forall in *. intros h Hh.
        destruct (Hall' _ Hh) as (b & Hb). destruct (Hhd _ Hh) as [Hle Hne].
        exists a, b. repeat split; try assumption.
        unfold leR, cmp in Hle. rewrite Ha, Hb in *. simpl in Hle.
        apply Z.leb_le in Hle. assert (a <> b) by congruence. lia. }
    refine (row_number_sorted _ earlier_day workout_row S 0 _ Hsorted').
    intros i j a b (x & y & Hx & Hy & Hlt). unfold earlier_day, workout_row. simpl.
    rewrite Hx, Hy. unfold Calendar.msPerDay. lia.
  - rewrite map_map. simpl.
    assert (Hn := row_number_NoDup S 0 (Z.le_refl 0)).
    apply (NoDup_map_inv (fun p : nat * nat => snd p)).
    rewrite map_map. simpl. exact Hn.
  - intros r Hr. apply in_map_iff in Hr. destruct Hr as ([i [k xs]] & <- & Hin).
    assert (Hg : In (k, xs) S).
    { rewrite <- (row_number_snd S 0). change (k, xs) with (snd (i, (k, xs))).
      now apply in_map. }
    destruct (Hgroup _ _ Hg) as (d & -> & Hxs & Hne).
    exists d. cbv zeta. rewrite <- Hxs. unfold workout_row. simpl.
    split; [reflexivity |]. split; [exact Hne |]. split; [reflexivity |].
    unfold Sql.sum_int. rewrite non_null_map_Some.
    destruct (map Db.wl_duration xs) as [| z zs] eqn:E.
    + destruct xs; [congruence | discriminate].
    + rewrite fold_left_add_sumZ. reflexivity.
  - rewrite map_map. simpl.
    rewrite <- (map_map snd (fun g => Z.of_nat (List.length (snd g)))).
    rewrite row_number_snd.
    rewrite (sumZ_perm _ (map (fun g => Z.of_nat (List.length (snd g))) G)).
    + rewrite <- (map_map snd (fun l => Z.of_nat (List.length l))).
      rewrite sumZ_lengths. f_equal. apply Permutation_length.
      apply (group_by_perm Sql.opt_eqb keyf).
    + apply Permutation_map, Permutation_sym, stable_sort_perm.
Qed.

(** X6.  The answer of the workout statement of the progress route: one
    row per day that has a workout of the user in the window, the days
    ascending, a [Date] object of its own on every row, on each row the
    number and the summed duration of the workouts of that day, and the
    counts of the rows add up to the number of workouts in the window. *)
Theorem workouts_answer (db : Db.Database) (now userId : Z) (range : string) :
  exists rows,
    Sql.workouts db now userId (Progress.timeFilter range) = Ok rows
    /\ StronglySorted earlier_day rows
    /\ NoDup (map (fun r => Js.ref (WorkoutDay.date r)) rows)
    /\ (forall r, In r rows ->
          exists d,
            let logs := on_day d (recent_logs db now userId (range_days range)) in
            Js.time (WorkoutDay.date r) = d * Calendar.msPerDay
            /\ logs <> []
            /\ WorkoutDay.workout_count r = Some (Z.of_nat (List.length logs))
            /\ WorkoutDay.total_duration r = Some (sumZ (map Db.wl_duration logs)))
    /\ sumZ (map (fun r => Js.parseInt_or0 (WorkoutDay.workout_count r)) rows)
       = Z.of_nat (List.length (recent_logs db now userId (range_days range))).
Proof. exact (workouts_rows db now userId range). Qed.

Lemma date_ge_in_days (now k d : Z) :
  0 < now mod Calendar.msPerDay ->
  Sql.date_ge (Db.VDate d) (now - k * Calendar.msPerDay)
  = (now / Calendar.msPerDay - k <? d).
Proof.
  intros Ht. unfold Sql.date_ge. simpl. unfold Calendar.msPerDay in *.
  pose proof (Z.div_mod now 86400000 ltac:(lia)) as Hdm.
  pose proof (Z.mod_pos_bound now 86400000 ltac:(lia)) as Hb.
  destruct (Z.leb_spec (now - k * 86400000) (d * 86400000));
    destruct (Z.ltb_spec (now / 86400000 - k) d); try reflexivity; lia.
Qed.

Lemma recent_logs_in_days (db : Db.Database) (now userId k : Z) :
  0 < now mod Calendar.msPerDay ->
  recent_logs db now userId k = logs_after db userId (now / Calendar.msPerDay - k).
Proof.
  intros Ht. unfold recent_logs, logs_after. apply filter_ext.
  intros r. now rewrite date_ge_in_days.
Qed.

(** X7.  Asked at any time but midnight, the window of [k] days of the
    progress route reaches from the day [k - 1] days before today onwards:
    the workout statement counts exactly the user's workouts dated after
    the day [k] days ago, those dated in the future included, and every
    row of its answer is dated after that day. *)
Theorem workouts_window_in_days (db : Db.Database) (now userId : Z) (range : string) :
  0 < now mod Calendar.msPerDay ->
  exists rows,
    Sql.workouts db now userId (Progress.timeFilter range) = Ok rows
    /\ sumZ (map (fun r => Js.parseInt_or0 (WorkoutDay.workout_count r)) rows)
       = Z.of_nat (List.length
           (logs_after db userId (now / Calendar.msPerDay - range_days range)))
    /\ (forall r, In r rows ->
          (now / Calendar.msPerDay - range_days range) * Calendar.msPerDay
          < Js.time (WorkoutDay.date r)).
Proof.
  intros Ht.
  destruct (workouts_rows db now userId range) as (rows & Hrows & _ & _ & Hrow & Hsum).
  exists rows. split; [exact Hrows |]. split.
  - now rewrite Hsum, recent_logs_in_days.
  - intros r Hr. destruct (Hrow r Hr) as (d & Htime & Hne & _).
    rewrite Htime. rewrite recent_logs_in_days in Hne by exact Ht.
    destruct (on_day d _) as [| p ps] eqn:E; [congruence |].
    assert (Hp : In p (on_day d (logs_after db userId
                         (now / Calendar.msPerDay - range_days range))))
      by (rewrite E; now left).
    unfold on_day, logs_after in Hp. rewrite !filter_In in Hp.
    destruct Hp as [[_ Hp] Hd]. apply andb_true_iff in Hp. destruct Hp as [_ Hp].
    apply Z.ltb_lt in Hp. apply Z.eqb_eq in Hd. subst d.
    unfold Calendar.msPerDay in *. nia.
Qed.

Lemma workouts_window_in_days_witness :
  exists rows,
    Sql.workouts Samples.four_days Samples.mid_february 7 (Progress.timeFilter "week")
    = Ok rows
    /\ sumZ (map (fun r => Js.parseInt_or0 (WorkoutDay.workout_count r)) rows)
       = Z.of_nat (List.length
           (logs_after Samples.four_days 7
              (Samples.mid_february / Calendar.msPerDay - range_days "week")))
    /\ (forall r, In r rows ->
          (Samples.mid_february / Calendar.msPerDay - range_days "week")
            * Calendar.msPerDay
          < Js.time (WorkoutDay.date r)).
Proof.
  apply (workouts_window_in_days Samples.four_days Samples.mid_february 7 "week").
  vm_compute. reflexivity.
Defined.

(** ** The email expression *)

Section RegexFacts.

Import Regex.

Local Open Scope string_scope.

Lemma seq_inv (r s : t) (w : string) :
  matches (Seq r s) w -> exists u v, w = u ++ v /\ matches r u /\ matches s v.
Proof. inversion 1; subst; eauto. Qed.

Lemma alt_inv (r s : t) (w : string) :
  matches (Alt r s) w -> matches r w \/ matches s w.
Proof. inversion 1; subst; auto. Qed.

Lemma class_inv (p : ascii -> bool) (w : string) :
  matches (Class p) w -> exists c, w = String c "" /\ p c = true.
Proof. inversion 1; subst; eauto. Qed.

Lemma append_nil_inv (u v : string) : u ++ v = "" -> u = "" /\ v = "".
Proof. destruct u; simpl; [auto | discriminate]. Qed.

Lemma nullable_matches (r : t) : nullable r = true <-> matches r "".
Proof.
  induction r; simpl.
  - split; [discriminate | inversion 1].
  - split; [constructor | reflexivity].
  - split; [discriminate | inversion 1].
  - rewrite andb_true_iff, IHr1, IHr2. split.
    + intros [H1 H2]. exact (m_seq _ _ "" "" H1 H2).
    + intros H. apply seq_inv in H. destruct H as (u & v & Heq & Hu & Hv).
      symmetry in Heq. apply append_nil_inv in Heq. destruct Heq as [-> ->]. auto.
  - rewrite orb_true_iff, IHr1, IHr2. split.
    + intros [H | H]; [now apply m_alt_l | now apply m_alt_r].
    + apply alt_inv.
  - split; [constructor | reflexivity].
Qed.

Lemma star_cons_inv (r : t) (c : ascii) (s : string) :
  matches (Star r) (String c s) ->
  exists u v, s = u ++ v /\ matches r (String c u) /\ matches (Star r) v.
Proof.
  intros H. remember (Star r) as sr eqn:Er. remember (String c s) as cs eqn:Es.
  revert c s Es.
  induction H as [| | | | | | r0 u v Hu _ Hv IHv]; try discriminate; intros c s Es.
  injection Er as ->.
  destruct u as [| c' u'].
  - simpl in Es. apply IHv; [reflexivity | exact Es].
  - simpl in Es. injection Es as Hc Hs. subst c' s. exists u', v. auto.
Qed.

Lemma deriv_matches (r : t) (c : ascii) (s : string) :
  matches (deriv c r) s <-> matches r (String c s).
Proof.
  revert s. induction r; intros s; simpl.
  - split; inversion 1.
  - split; inversion 1.
  - destruct (p c) eqn:E.
    + split.
      * inversion 1. subst. now constructor.
      * intros H. apply class_inv in H. destruct H as (c0 & Heq & _).
        injection Heq as _ ->. constructor.
    + split; [inversion 1 |].
      intros H. apply class_inv in H. destruct H as (c0 & Heq & Hp).
      injection Heq as -> _. congruence.
  - assert (Hfirst : forall u v, matches (deriv c r1) u -> matches r2 v ->
                                 matches (Seq r1 r2) (String c (u ++ v))).
    { intros u v Hu Hv. apply IHr1 in Hu.
      exact (m_seq _ _ (String c u) v Hu Hv). }
    assert (Hinv : matches (Seq r1 r2) (String c s) ->
                   (exists u v, s = u ++ v /\ matches (deriv c r1) u /\ matches r2 v)
                   \/ (matches r1 "" /\ matches (deriv c r2) s)).
    { intros H. apply seq_inv in H. destruct H as (u & v & Heq & Hu & Hv).
      destruct u as [| c' u'].
      - right. simpl in Heq. subst v. split; [exact Hu | now apply IHr2].
      - left. simpl in Heq. injection Heq as Hc Hs. subst c' s.
        exists u', v. split; [reflexivity |]. split; [now apply IHr1 | exact Hv]. }
    destruct (nullable r1) eqn:En.
    + split.
      * intros H. apply alt_inv in H. destruct H as [H | H].
        -- apply seq_inv in H. destruct H as (u & v & -> & Hu & Hv). now apply Hfirst.
        -- apply IHr2 in H. apply nullable_matches in En.
           exact (m_seq _ _ "" _ En H).
      * intros H. destruct (Hinv H) as [(u & v & -> & Hu & Hv) | [_ Hd]].
        -- apply m_alt_l. now constructor.
        -- now apply m_alt_r.
    + split.
      * intros H. apply seq_inv in H. destruct H as (u & v & -> & Hu & Hv).
        now apply Hfirst.
      * intros H. destruct (Hinv H) as [(u & v & -> & Hu & Hv) | [Hn _]].
        -- now constructor.
        -- apply nullable_matches in Hn. congruence.
  - split; intros H; apply alt_inv in H; destruct H as [H | H];
      solve [apply m_alt_l; now apply IHr1 | apply m_alt_r; now apply IHr2].
  - split.
    + intros H. apply seq_inv in H. destruct H as (u & v & -> & Hu & Hv).
      apply IHr in Hu. exact (m_star_cons _ (String c u) v Hu Hv).
    + intros H. destruct (star_cons_inv _ _ _ H) as (u & v & -> & Hu & Hv).
      constructor; [now apply IHr | exact Hv].
Qed.

(** The derivative test decides the language. *)
Lemma test_matches (r : t) (s : string) : test r s = true <-> matches r s.
Proof.
  revert r. induction s as [| c s IH]; intros r; simpl.
  - apply nullable_matches.
  - rewrite IH. apply deriv_matches.
Qed.

Lemma star_class_all_in (p : ascii -> bool) (w : string) :
  matches (Star (Class p)) w <-> all_in p w = true.
Proof.
  split.
  - intros H. remember (Star (Class p)) as r eqn:Er.
    induction H as [| | | | | | r0 u v Hu _ Hv IHv]; try discriminate.
    + reflexivity.
    + injection Er as ->. apply class_inv in Hu. destruct Hu as (c & -> & Hc).
      simpl. rewrite Hc. now apply IHv.
  - induction w as [| c w IH]; simpl; intros H.
    + constructor.
    + apply andb_true_iff in H. destruct H as [Hc Hw].
      exact (m_star_cons _ (String c "") w (m_class p c Hc) (IH Hw)).
Qed.

Lemma plus_class_all_in (p : ascii -> bool) (w : string) :
  matches (Plus (Class p)) w <-> w <> "" /\ all_in p w = true.
Proof.
  unfold Plus. split.
  - intros H. apply seq_inv in H. destruct H as (u & v & -> & Hu & Hv).
    apply class_inv in Hu. destruct Hu as (c & -> & Hc).
    apply star_class_all_in in Hv. simpl. rewrite Hc, Hv. split; [discriminate | reflexivity].
  - intros [Hne H]. destruct w as [| c w]; [congruence |]. simpl in H.
    apply andb_true_iff in H. destruct H as [Hc Hw].
    exact (m_seq _ _ (String c "") w (m_class p c Hc) (proj2 (star_class_all_in p w) Hw)).
Qed.

Lemma is_char_inv (d : ascii) (w : string) :
  matches (Class (is_char d)) w <-> w = String d "".
Proof.
  split.
  - intros H. apply class_inv in H. destruct H as (c & -> & Hc).
    unfold is_char in Hc. apply Ascii.eqb_eq in Hc. now subst.
  - intros ->. constructor. unfold is_char. apply Ascii.eqb_refl.
Qed.

Lemma emailRegex_matches (s : string) :
  matches emailRegex s
  <-> exists a b c,
        s = a ++ "@" ++ b ++ "." ++ c
        /\ a <> "" /\ b <> "" /\ c <> ""
        /\ all_in not_space_at a = true
        /\ all_in not_space_at b = true
        /\ all_in not_space_at c = true.
Proof.
  unfold emailRegex. split.
  - intros H.
    apply seq_inv in H. destruct H as (a & r1 & -> & Ha & H).
    apply seq_inv in H. destruct H as (at_ & r2 & -> & Hat & H).
    apply seq_inv in H. destruct H as (b & r3 & -> & Hb & H).
    apply seq_inv in H. destruct H as (dot & c & -> & Hdot & Hc).
    apply is_char_inv in Hat, Hdot. subst at_ dot.
    apply plus_class_all_in in Ha, Hb, Hc.
    exists a, b, c. tauto.
  - intros (a & b & c & -> & Ha & Hb & Hc & Ha' & Hb' & Hc').
    repeat apply m_seq; try (apply is_char_inv; reflexivity);
      apply plus_class_all_in; auto.
Qed.

(** X9.  The email expression accepts exactly the strings of the shape
    [local@domain.rest] whose three parts are not empty and hold neither
    white space nor [@] (a part may hold dots). *)
Theorem emailRegex_accepts (s : string) :
  test emailRegex s = true
  <-> exists a b c,
        s = a ++ "@" ++ b ++ "." ++ c
        /\ a <> "" /\ b <> "" /\ c <> ""
        /\ all_in not_space_at a = true
        /\ all_in not_space_at b = true
        /\ all_in not_space_at c = true.
Proof.
  rewrite test_matches. apply emailRegex_matches.
Qed.

Lemma length_app_string (u v : string) :
  String.length (u ++ v) = (String.length u + String.length v)%nat.
Proof.
  induction u as [| c u IH]; simpl; [reflexivity | now rewrite IH].
Qed.

Lemma occurrences_app (d : ascii) (u v : string) :
  occurrences d (u ++ v) = (occurrences d u + occurrences d v)%nat.
Proof.
  induction u as [| c u IH]; simpl; [reflexivity | rewrite IH; lia].
Qed.

Lemma all_in_app (p : ascii -> bool) (u v : string) :
  all_in p (u ++ v) = all_in p u && all_in p v.
Proof.
  induction u as [| c u IH]; simpl; [reflexivity | rewrite IH; apply andb_assoc].
Qed.

Lemma not_space_at_no_at (w : string) :
  all_in not_space_at w = true ->
  occurrences "@" w = 0%nat /\ all_in (fun c => negb (is_space c)) w = true.
Proof.
  induction w as [| c w IH]; simpl; [auto |].
  intros H. apply andb_true_iff in H. destruct H as [Hc Hw].
  destruct (IH Hw) as [H1 H2]. unfold not_space_at, is_char in Hc.
  apply andb_true_iff in Hc. destruct Hc as [Hs Ha].
  rewrite H1, H2, Hs. destruct (Ascii.eqb c "@"); [discriminate | auto].
Qed.

(** X10.  An accepted address holds exactly one [@] and no white space. *)
Theorem accepted_email_one_at (s : string) :
  test emailRegex s = true ->
  occurrences "@" s = 1%nat
  /\ all_in (fun c => negb (is_space c)) s = true
  /\ (5 <= String.length s)%nat.
Proof.
  intros H. apply test_matches, emailRegex_matches in H.
  destruct H as (a & b & c & -> & Ha & Hb & Hc & Ha' & Hb' & Hc').
  apply not_space_at_no_at in Ha', Hb', Hc'.
  destruct Ha' as [A1 A2], Hb' as [B1 B2], Hc' as [C1 C2].
  repeat split.
  - rewrite !occurrences_app, A1, B1, C1. reflexivity.
  - rewrite !all_in_app, A2, B2, C2. reflexivity.
  - rewrite !length_app_string. simpl.
    destruct a; [congruence |]. destruct b; [congruence |]. destruct c; [congruence |].
    simpl. lia.
Qed.

Lemma accepted_email_one_at_witness :
  occurrences "@" "ann@example.org" = 1%nat
  /\ all_in (fun c => negb (is_space c)) "ann@example.org" = true
  /\ (5 <= String.length "ann@example.org")%nat.
Proof.
  apply (accepted_email_one_at "ann@example.org"). vm_compute. reflexivity.
Defined.

End RegexFacts.

(** ** The reminders *)

Section AccountFacts.

Import Accounts.

Lemma filter_map_update {A : Type} (f : A -> bool) (g : A -> A) (l : list A) :
  (forall x, f x = true -> f (g x) = true) ->
  filter f (map (fun x => if f x then g x else x) l) = map g (filter f l).
Proof.
  intros Hg. induction l as [| x xs IH]; simpl; [reflexivity |].
  destruct (f x) eqn:E.
  - rewrite (Hg x E). simpl. now rewrite IH.
  - rewrite E. exact IH.
Qed.

Lemma existsb_filter_nil {A : Type} (f : A -> bool) (l : list A) :
  existsb f l = false <-> filter f l = [].
Proof.
  induction l as [| x xs IH]; simpl; [tauto |].
  destruct (f x); simpl; [split; discriminate | exact IH].
Qed.

Lemma existsb_filter_cons {A : Type} (f : A -> bool) (l : list A) :
  existsb f l = true <-> filter f l <> [].
Proof.
  rewrite <- not_false_iff_true, existsb_filter_nil. tauto.
Qed.

(** A read for a user who has a preferences row changes nothing. *)
Lemma getReminders_with_row (s : Store) (now userId : Z) (p : PreferencesRow)
    (ps : list PreferencesRow) :
  userCheck s userId <> [] ->
  prefsResult s userId = p :: ps ->
  getReminders s now userId
  = ({| status := 200;
        body := RemindersJson
          {| workoutReminder := of_column (p_workout_reminder p);
             nutritionReminder := of_column (p_nutrition_reminder p);
             lastWorkout := first_or_null (map Some (lastWorkout_rows s userId));
             lastNutrition := first_or_null (lastNutrition_rows s userId) |} |}, s).
Proof.
  intros Hu Hp. unfold getReminders.
  destruct (userCheck s userId); [congruence |].
  rewrite Hp. reflexivity.
Qed.

Lemma time_in_valid (v : option Z) : valid_time v = true -> time_in v = Ok v.
Proof. unfold time_in. now intros ->. Qed.

(** X11.  What PUT /reminders stores, GET /reminders returns: for a user of
    the table [users] and two reminders that are times of day or absent,
    the update answers 200 and the next read answers 200 with the two
    reminders as they were put ([null] for an absent one), creating
    nothing.  A reminder that is no time of day is refused: the update
    answers 500 and stores nothing. *)
Theorem reminders_round_trip (s : Store) (now now' userId : Z)
    (workoutReminder nutritionReminder : option Z) :
  userCheck s userId <> [] ->
  (valid_time workoutReminder && valid_time nutritionReminder = true ->
   exists s1 lastWorkout lastNutrition,
     putReminders s now userId workoutReminder nutritionReminder
     = ({| status := 200; body := Message "Reminders updated successfully" |}, s1)
     /\ getReminders s1 now' userId
        = ({| status := 200;
              body := RemindersJson
                {| Accounts.workoutReminder := of_column workoutReminder;
                   Accounts.nutritionReminder := of_column nutritionReminder;
                   Accounts.lastWorkout := lastWorkout;
                   Accounts.lastNutrition := lastNutrition |} |}, s1))
  /\ (valid_time workoutReminder && valid_time nutritionReminder = false ->
      putReminders s now userId workoutReminder nutritionReminder
      = ({| status := 500; body := Message "Error updating reminders" |}, s)).
Proof.
  intros Huser. split.
  - intros Hv. apply andb_true_iff in Hv. destruct Hv as [Hw Hn].
    unfold putReminders. cbv zeta.
    rewrite (time_in_valid _ Hw), (time_in_valid _ Hn). cbn [bind].
    unfold upsert_preferences.
    destruct (existsb (prefs_of userId) (user_preferences s)) eqn:E.
    + apply existsb_filter_cons in E.
      destruct (filter (prefs_of userId) (user_preferences s)) as [| p ps] eqn:Ep;
        [congruence |].
      eexists. do 2 eexists. split; [reflexivity |].
      erewrite getReminders_with_row; cycle 1.
      { exact Huser. }
      { unfold prefsResult. simpl.
        rewrite filter_map_update
          by (intros x Hx; unfold prefs_of in *; simpl; auto using Z.eqb_refl).
        rewrite Ep. simpl. reflexivity. }
      reflexivity.
    + unfold insert_preferences. simpl. rewrite E.
      assert (Hu : existsb (is_user userId) (users s) = true)
        by (apply existsb_filter_cons; exact Huser).
      rewrite Hu. simpl.
      eexists. do 2 eexists. split; [reflexivity |].
      erewrite getReminders_with_row; cycle 1.
      { exact Huser. }
      { unfold prefsResult. simpl. rewrite filter_app.
        apply existsb_filter_nil in E. rewrite E. simpl.
        unfold prefs_of at 1. simpl. rewrite Z.eqb_refl. reflexivity. }
      reflexivity.
  - intros Hv. unfold putReminders, time_in. cbv zeta.
    destruct (valid_time workoutReminder); [| reflexivity].
    simpl in Hv. rewrite Hv. reflexivity.
Qed.

Lemma reminders_round_trip_witness :
  (exists s1 lastWorkout lastNutrition,
     putReminders AccountSamples.store 100 7 (Some 21600) None
     = ({| status := 200; body := Message "Reminders updated successfully" |}, s1)
     /\ getReminders s1 200 7
        = ({| status := 200;
              body := RemindersJson
                {| Accounts.workoutReminder := of_column (Some 21600);
                   Accounts.nutritionReminder := of_column None;
                   Accounts.lastWorkout := lastWorkout;
                   Accounts.lastNutrition := lastNutrition |} |}, s1))
  /\ putReminders AccountSamples.store 100 7 (Some 90000) (Some (-5))
     = ({| status := 500; body := Message "Error updating reminders" |},
        AccountSamples.store).
Proof.
  split.
  - apply (reminders_round_trip AccountSamples.store 100 200 7 (Some 21600) None).
    + vm_compute. discriminate.
    + reflexivity.
  - apply (reminders_round_trip AccountSamples.store 100 200 7 (Some 90000) (Some (-5))).
    + vm_compute. discriminate.
    + reflexivity.
Defined.

Lemma flat_map_ext_In {A B : Type} (f g : A -> list B) (l : list A) :
  (forall x, In x l -> f x = g x) -> flat_map f l = flat_map g l.
Proof.
  induction l as [| x xs IH]; simpl; intros H; [reflexivity |].
  rewrite (H x) by now left. rewrite IH; [reflexivity |].
  intros y Hy. apply H. now right.
Qed.

Lemma profile_rows_default_row (s : Store) (now userId : Z) :
  prefsResult s userId = [] ->
  profile_rows
    (set_preferences s (user_preferences s ++ [default_preferences userId now])) userId
  = profile_rows s userId.
Proof.
  intros Hp. unfold profile_rows, userCheck. simpl.
  apply flat_map_ext_In. intros u Hu.
  apply filter_In in Hu. destruct Hu as [_ Hu]. unfold is_user in Hu.
  apply Z.eqb_eq in Hu. rewrite Hu.
  unfold prefsResult in *. simpl. rewrite filter_app, Hp. simpl.
  unfold prefs_of at 1. simpl. rewrite Z.eqb_refl. reflexivity.
Qed.

(** X12.  The first read of the reminders of a user without a preferences
    row leaves the two reminder properties out of the body and inserts
    the row of defaults; the profile of the user reads the same before and
    after, and the next read answers [null] for both reminders and changes
    nothing. *)
Theorem getReminders_creates_the_defaults (s : Store) (now now' userId : Z) :
  userCheck s userId <> [] ->
  prefsResult s userId = [] ->
  exists s1 lastWorkout lastNutrition,
    getReminders s now userId
    = ({| status := 200;
          body := RemindersJson
            {| workoutReminder := Undefined; nutritionReminder := Undefined;
               Accounts.lastWorkout := lastWorkout;
               Accounts.lastNutrition := lastNutrition |} |}, s1)
    /\ prefsResult s1 userId = [ default_preferences userId now ]
    /\ getProfile s1 userId = getProfile s userId
    /\ getReminders s1 now' userId
       = ({| status := 200;
             body := RemindersJson
               {| workoutReminder := Null; nutritionReminder := Null;
                  Accounts.lastWorkout := lastWorkout;
                  Accounts.lastNutrition := lastNutrition |} |}, s1).
Proof.
  intros Hu Hp.
  assert (Hins : insert_preferences s (default_preferences userId now)
                 = Ok (set_preferences s
                         (user_preferences s ++ [default_preferences userId now]))).
  { unfold insert_preferences. simpl.
    replace (existsb (prefs_of userId) (user_preferences s)) with false
      by (symmetry; apply existsb_filter_nil; exact Hp).
    replace (existsb (is_user userId) (users s)) with true
      by (symmetry; apply existsb_filter_cons; exact Hu).
    reflexivity. }
  assert (Hp1 : prefsResult
                  (set_preferences s
                     (user_preferences s ++ [default_preferences userId now])) userId
                = [ default_preferences userId now ]).
  { unfold prefsResult in *. simpl. rewrite filter_app, Hp. simpl.
    unfold prefs_of at 1. simpl. rewrite Z.eqb_refl. reflexivity. }
  eexists. do 2 eexists. split; [| split; [| split]].
  - unfold getReminders.
    destruct (userCheck s userId) eqn:E; [congruence |].
    rewrite Hp, Hins. reflexivity.
  - exact Hp1.
  - unfold getProfile. now rewrite profile_rows_default_row.
  - erewrite getReminders_with_row; cycle 1.
    { exact Hu. }
    { exact Hp1. }
    reflexivity.
Qed.

Lemma getReminders_creates_the_defaults_witness :
  exists s1 lastWorkout lastNutrition,
    getReminders AccountSamples.store 100 7
    = ({| status := 200;
          body := RemindersJson
            {| workoutReminder := Undefined; nutritionReminder := Undefined;
               Accounts.lastWorkout := lastWorkout;
               Accounts.lastNutrition := lastNutrition |} |}, s1)
    /\ prefsResult s1 7 = [ default_preferences 7 100 ]
    /\ getProfile s1 7 = getProfile AccountSamples.store 7
    /\ getReminders s1 200 7
       = ({| status := 200;
             body := RemindersJson
               {| workoutReminder := Null; nutritionReminder := Null;
                  Accounts.lastWorkout := lastWorkout;
                  Accounts.lastNutrition := lastNutrition |} |}, s1).
Proof.
  apply (getReminders_creates_the_defaults AccountSamples.store 100 200 7).
  - vm_compute. discriminate.
  - vm_compute. reflexivity.
Defined.

(** ** The last workout *)

Lemma sorted_desc_head (l : list Z) :
  match stable_sort (fun a b => b <=? a) l with
  | [] => l = []
  | d :: _ => In d l /\ forall d', In d' l -> d' <= d
  end.
Proof.
  pose proof (stable_sort_StronglySorted (fun a b : Z => b <=? a)) as Hs.
  specialize (Hs ltac:(intros x y; rewrite !Z.leb_le; lia)
                 ltac:(intros x y z; rewrite !Z.leb_le; lia) l).
  pose proof (stable_sort_In (fun a b : Z => b <=? a)) as Hin.
  destruct (stable_sort (fun a b => b <=? a) l) as [| d rest] eqn:E.
  - apply length_zero_nil. rewrite <- (stable_sort_length (fun a b : Z => b <=? a)), E.
    reflexivity.
  - split.
    + apply (Hin d l). rewrite E. now left.
    + intros d' Hd'. apply (Hin d' l) in Hd'. rewrite E in Hd'.
      destruct Hd' as [-> | Hd']; [lia |].
      inversion Hs as [| ? ? _ Hall]. subst. rewrite Forall_forall in Hall.
      specialize (Hall d' Hd'). unfold leR in Hall. apply Z.leb_le in Hall. exact Hall.
Qed.

(** X13.  Whenever GET /reminders answers 200, [lastWorkout] is the latest
    date among the workouts of the user, and [null] exactly when the user
    has none. *)
Theorem lastWorkout_is_the_latest (s s' : Store) (now userId : Z) (r : Reminders) :
  getReminders s now userId = ({| status := 200; body := RemindersJson r |}, s') ->
  match lastWorkout r with
  | None => workout_days (logs s) userId = []
  | Some d =>
      In d (workout_days (logs s) userId)
      /\ forall d', In d' (workout_days (logs s) userId) -> d' <= d
  end.
Proof.
  unfold getReminders.
  destruct (userCheck s userId); [discriminate |].
  destruct (match prefsResult s userId with
            | [] => insert_preferences s (default_preferences userId now)
            | _ :: _ => Ok s
            end); [| discriminate].
  intros H. injection H as <- _. simpl.
  unfold lastWorkout_rows. fold (workout_days (logs s) userId).
  pose proof (sorted_desc_head (workout_days (logs s) userId)) as Hd.
  destruct (stable_sort _ (workout_days (logs s) userId)); simpl; exact Hd.
Qed.

Lemma lastWorkout_is_the_latest_witness :
  In (Samples.day 2024 1 10) (workout_days (logs AccountSamples.store) 7)
  /\ forall d', In d' (workout_days (logs AccountSamples.store) 7) ->
                d' <= Samples.day 2024 1 10.
Proof.
  apply (lastWorkout_is_the_latest AccountSamples.store
           (snd (getReminders AccountSamples.store 100 7)) 100 7
           {| workoutReminder := Undefined; nutritionReminder := Undefined;
              lastWorkout := Some (Samples.day 2024 1 10);
              lastNutrition := Some (Samples.day 2024 1 3 * Calendar.msPerDay + 8 * 3600000) |}).
  vm_compute. reflexivity.
Defined.

(** ** Preferences and profile *)

Lemma userCheck_head (s : Store) (userId : Z) (u : UserRow) (us : list UserRow) :
  userCheck s userId = u :: us -> u_id u = userId.
Proof.
  intros H. assert (Hin : In u (userCheck s userId)) by (rewrite H; now left).
  apply filter_In in Hin. destruct Hin as [_ Hin]. now apply Z.eqb_eq in Hin.
Qed.

(** A value without the character of code 0 that fits the column is
    stored as it is. *)
Lemma varchar_fits (n : nat) (a : string) :
  has_nul a = false -> (String.length a <= n)%nat -> varchar n a = Ok a.
Proof.
  intros Hnul Hlen. unfold varchar. rewrite Hnul.
  destruct (Nat.leb_spec (String.length a) n); [reflexivity | lia].
Qed.

(** X14.  What PUT /preferences stores, GET /profile returns.  When the
    columns take the body, that is when the theme and the units, [light]
    and [metric] standing in for an absent or empty one, hold no character
    of code 0 and run past twenty characters with spaces only, and the two
    reminders are times of day or absent, then the update answers 200
    echoing the body as it came, and the profile then carries the theme
    and the units as the columns store them (cut to twenty characters),
    the notifications as sent or [false], and the two reminders as sent,
    so that a reminder that the body leaves out is erased, whatever was
    stored before.  When a column refuses its value the update answers 500
    and stores nothing. *)
Theorem preferences_round_trip (s : Store) (now userId : Z)
    (echo : ProfilePreferences) (u : UserRow) (us : list UserRow) :
  userCheck s userId = u :: us ->
  (forall stored_theme stored_units,
     varchar 20 (or_string (theme echo) "light") = Ok stored_theme ->
     varchar 20 (or_string (units echo) "metric") = Ok stored_units ->
     valid_time (workout_reminder echo) && valid_time (nutrition_reminder echo) = true ->
     exists s1,
       putPreferences s now userId echo
       = ({| status := 200;
             body := PreferencesJson "Preferences updated successfully" echo |}, s1)
       /\ getProfile s1 userId
          = {| status := 200;
               body := ProfileJson
                 {| username := u_username u; email := u_email u; name := u_name u;
                    preferences := Some
                      {| theme := Some stored_theme;
                         units := Some stored_units;
                         notifications := Some (or_false (notifications echo));
                         workout_reminder := workout_reminder echo;
                         nutrition_reminder := nutrition_reminder echo |} |} |})
  /\ (failed (varchar 20 (or_string (theme echo) "light"))
      || failed (varchar 20 (or_string (units echo) "metric"))
      || negb (valid_time (workout_reminder echo))
      || negb (valid_time (nutrition_reminder echo)) = true ->
      putPreferences s now userId echo
      = ({| status := 500; body := Message "Error updating preferences" |}, s)).
Proof.
  intros Hu. split.
  - intros th un Hth Hun Hv. apply andb_true_iff in Hv. destruct Hv as [Hw Hn].
    pose proof (userCheck_head _ _ _ _ Hu) as Hid.
    unfold putPreferences. cbv zeta.
    rewrite Hth, Hun, (time_in_valid _ Hw), (time_in_valid _ Hn). cbn [bind].
    unfold upsert_preferences.
    destruct (existsb (prefs_of userId) (user_preferences s)) eqn:E.
    + apply existsb_filter_cons in E.
      destruct (filter (prefs_of userId) (user_preferences s)) as [| p ps] eqn:Ep;
        [congruence |].
      eexists. split; [reflexivity |].
      unfold getProfile, profile_rows.
      change (userCheck (set_preferences s _) userId) with (userCheck s userId).
      rewrite Hu. simpl. rewrite Hid. unfold prefsResult. simpl.
      rewrite filter_map_update
        by (intros x Hx; unfold prefs_of in *; simpl; auto using Z.eqb_refl).
      rewrite Ep. simpl. reflexivity.
    + unfold insert_preferences. simpl. rewrite E.
      assert (Hex : existsb (is_user userId) (users s) = true).
      { apply existsb_filter_cons. unfold userCheck in Hu. rewrite Hu. discriminate. }
      rewrite Hex. simpl.
      eexists. split; [reflexivity |].
      unfold getProfile, profile_rows.
      change (userCheck (set_preferences s _) userId) with (userCheck s userId).
      rewrite Hu. simpl. rewrite Hid. unfold prefsResult. simpl.
      rewrite filter_app. apply existsb_filter_nil in E. rewrite E. simpl.
      unfold prefs_of at 1. simpl. rewrite Z.eqb_refl. simpl. reflexivity.
  - intros Hbad. unfold putPreferences, time_in. cbv zeta.
    destruct (varchar 20 (or_string (theme echo) "light")); [| reflexivity].
    destruct (varchar 20 (or_string (units echo) "metric")); [| reflexivity].
    destruct (valid_time (workout_reminder echo)); [| reflexivity].
    destruct (valid_time (nutrition_reminder echo)); [| reflexivity].
    discriminate Hbad.
Qed.

Lemma preferences_round_trip_witness :
  (exists s1,
     putPreferences AccountSamples.store 100 8
       {| theme := None; units := Some "metric                  "%string;
          notifications := None;
          workout_reminder := Some 21600; nutrition_reminder := None |}
     = ({| status := 200;
           body := PreferencesJson "Preferences updated successfully"
             {| theme := None; units := Some "metric                  "%string;
                notifications := None;
                workout_reminder := Some 21600; nutrition_reminder := None |} |}, s1)
     /\ getProfile s1 8
        = {| status := 200;
             body := ProfileJson
               {| username := "bob"; email := "bob@example.org"; name := None;
                  preferences := Some
                    {| theme := Some "light"%string;
                       units := Some "metric              "%string;
                       notifications := Some false;
                       workout_reminder := Some 21600;
                       nutrition_reminder := None |} |} |})
  /\ putPreferences AccountSamples.store 100 8
       {| theme := Some "a theme of more than twenty characters"%string;
          units := None; notifications := None;
          workout_reminder := Some 90000; nutrition_reminder := None |}
     = ({| status := 500; body := Message "Error updating preferences" |},
        AccountSamples.store).
Proof.
  split.
  - apply (preferences_round_trip AccountSamples.store 100 8
             {| theme := None; units := Some "metric                  "%string;
                notifications := None;
                workout_reminder := Some 21600; nutrition_reminder := None |}
             AccountSamples.bob []); reflexivity.
  - apply (preferences_round_trip AccountSamples.store 100 8
             {| theme := Some "a theme of more than twenty characters"%string;
                units := None; notifications := None;
                workout_reminder := Some 90000; nutrition_reminder := None |}
             AccountSamples.bob []); reflexivity.
Defined.

(** ** Deleting an account *)

Lemma filter_filter_implied {A : Type} (f g : A -> bool) (l : list A) :
  (forall x, f x = true -> g x = true) -> filter f (filter g l) = filter f l.
Proof.
  intros H. induction l as [| x xs IH]; simpl; [reflexivity |].
  destruct (g x) eqn:Eg; simpl.
  - now rewrite IH.
  - destruct (f x) eqn:Ef; [| exact IH]. rewrite (H x Ef) in Eg. discriminate.
Qed.

Lemma filter_filter_excluded {A : Type} (f : A -> bool) (l : list A) :
  filter f (filter (fun x => negb (f x)) l) = [].
Proof.
  induction l as [| x xs IH]; simpl; [reflexivity |].
  destruct (f x) eqn:E; simpl; [exact IH |]. now rewrite E.
Qed.

Lemma eq_param_other (v : option Z) (a b : Z) :
  a <> b -> Sql.eq_param (Db.of_int v) a = true ->
  negb (Sql.eq_param (Db.of_int v) b) = true.
Proof.
  intros Hab. destruct v as [z |]; simpl; [| discriminate].
  intros H. apply Z.eqb_eq in H. subst z.
  apply negb_true_iff, Z.eqb_neq. exact Hab.
Qed.

Lemma deleteAccount_value (s : Store) (userId : Z) :
  deleteAccount s userId
  = ({| status := 200; body := Message "Account deleted successfully" |},
     after_delete s userId).
Proof.
  unfold deleteAccount, delete_user. simpl.
  replace (existsb (fun r => Sql.eq_param (Db.of_int (Db.wl_user_id r)) userId)
             (filter (fun r => negb (Sql.eq_param (Db.of_int (Db.wl_user_id r)) userId))
                     (Db.workout_logs (logs s))))
    with false.
  - rewrite andb_false_r. reflexivity.
  - symmetry. apply existsb_filter_nil.
    apply (filter_filter_excluded
             (fun r => Sql.eq_param (Db.of_int (Db.wl_user_id r)) userId)).
Qed.

Lemma entries_after_delete (s : Store) (userId other : Z) :
  other <> userId ->
  NoDup (map Db.wl_id (Db.workout_logs (logs s))) ->
  exercise_entries (logs (after_delete s userId)) other
  = exercise_entries (logs s) other.
Proof.
  intros Hne Hnd. unfold exercise_entries. simpl.
  set (wl := Db.workout_logs (logs s)) in *.
  set (mine := fun r => Sql.eq_param (Db.of_int (Db.wl_user_id r)) userId).
  set (theirs := fun p : Db.WorkoutExercise * Db.WorkoutLog =>
                   Sql.eq_param (Db.of_int (Db.wl_user_id (snd p))) other).
  induction (Db.workout_exercises (logs s)) as [| e es IH]; simpl; [reflexivity |].
  set (joins := fun r : Db.WorkoutLog =>
                  Sql.sql_eq (Db.of_int (Db.we_workout_id e)) (Db.VInt (Db.wl_id r))).
  assert (Hpairs : forall l, filter theirs (map (fun r => (e, r)) l)
                             = map (fun r => (e, r))
                                   (filter (fun r => Sql.eq_param
                                                       (Db.of_int (Db.wl_user_id r)) other)
                                           l)).
  { induction l as [| r rs IHl]; simpl; [reflexivity |].
    unfold theirs at 1. simpl.
    destruct (Sql.eq_param (Db.of_int (Db.wl_user_id r)) other); simpl; now rewrite IHl. }
  rewrite filter_app, Hpairs.
  destruct (existsb joins (filter mine wl)) eqn:Egone; simpl.
  - (* the exercise goes with a workout of the deleted user *)
    rewrite IH. 
    replace (filter (fun r => Sql.eq_param (Db.of_int (Db.wl_user_id r)) other)
                    (filter joins wl)) with (@nil Db.WorkoutLog); [reflexivity |].
    symmetry. apply existsb_exists in Egone. destruct Egone as (g & Hg & Hjg).
    apply filter_In in Hg. destruct Hg as [Hgin Hgmine].
    apply existsb_filter_nil. apply not_true_iff_false. intros Hex.
    apply existsb_exists in Hex. destruct Hex as (r & Hr & Hrother).
    apply filter_In in Hr. destruct Hr as [Hrin Hjr].
    assert (Hid : Db.wl_id r = Db.wl_id g).
    { unfold joins in Hjg, Hjr. destruct (Db.we_workout_id e) as [z |]; simpl in *;
        [| discriminate]. apply Z.eqb_eq in Hjg, Hjr. congruence. }
    assert (r = g) by (eapply NoDup_map_unique; eauto). subst r.
    unfold mine in Hgmine.
    pose proof (eq_param_other _ _ _ Hne Hrother) as Hc. rewrite Hgmine in Hc. discriminate.
  - rewrite filter_app, Hpairs, IH. f_equal. f_equal.
    assert (Hswap : forall l : list Db.WorkoutLog,
              filter (fun r => Sql.eq_param (Db.of_int (Db.wl_user_id r)) other)
                     (filter joins (filter (fun r => negb (mine r)) l))
              = filter (fun r => Sql.eq_param (Db.of_int (Db.wl_user_id r)) other)
                       (filter joins l)).
    { induction l as [| r rs IHl]; simpl; [reflexivity |].
      destruct (mine r) eqn:Em; simpl.
      - rewrite IHl. destruct (joins r); simpl; [| reflexivity].
        destruct (Sql.eq_param (Db.of_int (Db.wl_user_id r)) other) eqn:Eo; [| reflexivity].
        pose proof (eq_param_other _ _ _ Hne Eo) as Hc. unfold mine in Em.
        rewrite Em in Hc. discriminate.
      - destruct (joins r); simpl; now rewrite IHl. }
    apply Hswap.
Qed.

Lemma workoutResult_value (db : Db.Database) (userId : Z) :
  Sql.workoutResult db userId
  = Ok [ {| count := Z.of_nat (List.length (workout_days db userId)) |} ].
Proof.
  unfold workout_days. rewrite length_map. reflexivity.
Qed.

Lemma workout_days_after_delete (s : Store) (userId other : Z) :
  other <> userId ->
  workout_days (logs (after_delete s userId)) other = workout_days (logs s) other.
Proof.
  intros Hne. unfold workout_days. simpl. f_equal.
  apply filter_filter_implied. intros r. apply eq_param_other. exact Hne.
Qed.

Lemma window_logs_after_delete (s : Store) (now userId other : Z) :
  other <> userId ->
  window_logs (logs (after_delete s userId)) now other = window_logs (logs s) now other.
Proof.
  intros Hne. unfold window_logs. simpl.
  apply filter_filter_implied. intros r Hr.
  apply andb_true_iff in Hr. destruct Hr as [Hr _].
  now apply (eq_param_other _ other userId).
Qed.

Lemma profile_after_delete (s : Store) (userId other : Z) :
  other <> userId ->
  profile_rows (after_delete s userId) other = profile_rows s other.
Proof.
  intros Hne. unfold profile_rows, userCheck. simpl.
  rewrite filter_filter_implied.
  - apply flat_map_ext_In. intros u Hu.
    apply filter_In in Hu. destruct Hu as [_ Hu]. unfold is_user in Hu.
    apply Z.eqb_eq in Hu. rewrite Hu. unfold prefsResult. simpl.
    rewrite !filter_filter_implied; [reflexivity | |];
      intros p Hp; unfold prefs_of in *; apply Z.eqb_eq in Hp;
      apply negb_true_iff, Z.eqb_neq; congruence.
  - intros u Hu. unfold is_user in *. apply Z.eqb_eq in Hu.
    apply negb_true_iff, Z.eqb_neq. congruence.
Qed.

(** X15.  Given a client of the pool and workout logs with ids of their
    own, DELETE /account answers 200; afterwards the profile of the user
    answers 404 and the user has neither workouts nor a preferences row,
    while for every other user the profile and the answers of the
    statistics statements are what they were before. *)
Theorem deleteAccount_leaves_the_others (s : Store) (now userId : Z) :
  NoDup (map Db.wl_id (Db.workout_logs (logs s))) ->
  exists s',
    deleteAccount s userId
    = ({| status := 200; body := Message "Account deleted successfully" |}, s')
    /\ getProfile s' userId = {| status := 404; body := Message "User not found" |}
    /\ workout_days (logs s') userId = []
    /\ prefsResult s' userId = []
    /\ forall other,
         other <> userId ->
         getProfile s' other = getProfile s other
         /\ q_workoutResult (pgClient (logs s') now) other
            = q_workoutResult (pgClient (logs s) now) other
         /\ q_streakResult (pgClient (logs s') now) other
            = q_streakResult (pgClient (logs s) now) other
         /\ q_monthlyStats (pgClient (logs s') now) other
            = q_monthlyStats (pgClient (logs s) now) other
         /\ q_topExercises (pgClient (logs s') now) other
            = q_topExercises (pgClient (logs s) now) other.
Proof.
  intros Hnd. exists (after_delete s userId).
  split; [apply deleteAccount_value |]. split; [| split; [| split]].
  - unfold getProfile, profile_rows, userCheck. simpl.
    rewrite (filter_filter_excluded (is_user userId)). reflexivity.
  - unfold workout_days. simpl.
    rewrite (filter_filter_excluded
               (fun r => Sql.eq_param (Db.of_int (Db.wl_user_id r)) userId)).
    reflexivity.
  - unfold prefsResult. simpl. apply (filter_filter_excluded (prefs_of userId)).
  - intros other Hne.
    cbn [q_workoutResult q_streakResult q_monthlyStats q_topExercises pgClient].
    split; [| split; [| split; [| split]]].
    + unfold getProfile. now rewrite profile_after_delete.
    + rewrite !workoutResult_value. now rewrite workout_days_after_delete.
    + rewrite !streakResult_value. now rewrite workout_days_after_delete.
    + rewrite !monthlyStats_value. now rewrite window_logs_after_delete.
    + rewrite !topExercises_value. now rewrite entries_after_delete.
Qed.

Lemma deleteAccount_leaves_the_others_witness :
  exists s',
    deleteAccount AccountSamples.store 7
    = ({| status := 200; body := Message "Account deleted successfully" |}, s')
    /\ getProfile s' 7 = {| status := 404; body := Message "User not found" |}
    /\ workout_days (logs s') 7 = []
    /\ prefsResult s' 7 = []
    /\ forall other,
         other <> 7 ->
         getProfile s' other = getProfile AccountSamples.store other
         /\ q_workoutResult (pgClient (logs s') Samples.mid_february) other
            = q_workoutResult (pgClient (logs AccountSamples.store) Samples.mid_february) other
         /\ q_streakResult (pgClient (logs s') Samples.mid_february) other
            = q_streakResult (pgClient (logs AccountSamples.store) Samples.mid_february) other
         /\ q_monthlyStats (pgClient (logs s') Samples.mid_february) other
            = q_monthlyStats (pgClient (logs AccountSamples.store) Samples.mid_february) other
         /\ q_topExercises (pgClient (logs s') Samples.mid_february) other
            = q_topExercises (pgClient (logs AccountSamples.store) Samples.mid_february) other.
Proof.
  apply (deleteAccount_leaves_the_others AccountSamples.store Samples.mid_february 7).
  vm_compute. repeat constructor; simpl; intuition discriminate.
Defined.

(** ** Updating the profile *)

Lemma map_update_none {A : Type} (f : A -> bool) (g : A -> A) (l : list A) :
  filter f l = [] -> map (fun x => if f x then g x else x) l = l.
Proof.
  induction l as [| x xs IH]; simpl; [reflexivity |].
  destruct (f x); [discriminate |]. intros H. now rewrite IH.
Qed.

Lemma update_user_tables (s s' : Store) (now userId : Z) (email name : option string)
    (rows : list Profile) :
  update_user s now userId email name = Ok (rows, s') ->
  exists rewrite,
    (forall u, u_id (rewrite u) = u_id u
               /\ u_email (rewrite u) = match email with Some e => e | None => u_email u end)
    /\ s' = set_users s (map (fun u => if is_user userId u then rewrite u else u) (users s))
    /\ rows = map (fun u => {| username := u_username u; email := u_email u;
                               name := u_name u; preferences := None |})
                  (map rewrite (userCheck s userId)).
Proof.
  unfold update_user.
  set (rewrite := fun u : UserRow =>
         {| u_id := u_id u; u_username := u_username u;
            u_email := match email with Some e => e | None => u_email u end;
            u_password := u_password u;
            u_name := match name with Some n => Some n | None => u_name u end;
            u_created_at := u_created_at u; u_updated_at := Some now |}).
  destruct (existsb _ _); [discriminate |].
  destruct (existsb _ _); [discriminate |].
  intros H. injection H as <- <-.
  exists rewrite. split; [intros u; split; reflexivity |]. split; [reflexivity |].
  unfold userCheck. f_equal. apply filter_map_update. intros u Hu. exact Hu.
Qed.

(** X16.  PUT /profile with an email other than the empty string: the
    tables other than [users] and the rows of other users stay as they
    are whatever the reply, nothing changes unless the reply is 200, and a
    reply of 200 means that the address passed the expression, that every
    row of the user now carries it and that no other row does. *)
Theorem putProfile_checks_the_email (s s' : Store) (now userId : Z) (e : string)
    (name : option string) (r : Reply) :
  e <> ""%string ->
  putProfile s now userId (Some e) name = (r, s') ->
  user_preferences s' = user_preferences s
  /\ daily_goals s' = daily_goals s
  /\ meal_templates s' = meal_templates s
  /\ logs s' = logs s
  /\ (forall u, u_id u <> userId -> (In u (users s') <-> In u (users s)))
  /\ (status r <> 200 -> users s' = users s)
  /\ (status r = 200 ->
        Regex.test Regex.emailRegex e = true
        /\ forall u, In u (users s') -> (u_email u = e <-> u_id u = userId)).
Proof.
  intros He. unfold putProfile, truthy.
  replace (String.eqb e "") with false by (symmetry; now apply String.eqb_neq).
  simpl.
  destruct (Regex.test Regex.emailRegex e) eqn:Et; simpl.
  2: { intros H. injection H as <- <-. simpl. repeat split; try tauto; try discriminate. }
  destruct (emailCheck s e userId) as [| c cs] eqn:Ec.
  2: { intros H. injection H as <- <-. simpl. repeat split; try tauto; try discriminate. }
  destruct (update_user s now userId (Some e) name) as [[rows s1] | err] eqn:Eu.
  2: { intros H. injection H as <- <-. simpl. repeat split; try tauto; try discriminate. }
  destruct (update_user_tables _ _ _ _ _ _ _ Eu) as (rewrite & Hrw & Hs1 & Hrows).
  assert (Hothers : forall u, u_id u <> userId -> (In u (users s1) <-> In u (users s))).
  { intros u Hu. rewrite Hs1. simpl. rewrite in_map_iff. split.
    - intros (x & Hx & Hin). destruct (is_user userId x) eqn:Ex.
      + exfalso. apply Hu. rewrite <- Hx. rewrite (proj1 (Hrw x)).
        now apply Z.eqb_eq in Ex.
      + now subst x.
    - intros Hin. exists u. split; [| exact Hin].
      unfold is_user. now replace (u_id u =? userId) with false
        by (symmetry; now apply Z.eqb_neq). }
  assert (Htables : user_preferences s1 = user_preferences s
                    /\ daily_goals s1 = daily_goals s
                    /\ meal_templates s1 = meal_templates s /\ logs s1 = logs s).
  { rewrite Hs1. simpl. auto. }
  destruct Htables as (T1 & T2 & T3 & T4).
  assert (Hmine : forall u, In u (users s1) -> u_id u = userId -> u_email u = e).
  { intros u H Hid. rewrite Hs1 in H. simpl in H. apply in_map_iff in H.
    destruct H as (x & Hx & Hin). destruct (is_user userId x) eqn:Ex.
    - rewrite <- Hx. apply (Hrw x).
    - subst x. unfold is_user in Ex. apply Z.eqb_neq in Ex. contradiction. }
  assert (Htheirs : forall u, In u (users s1) -> u_email u = e -> u_id u = userId).
  { intros u H Hmail. destruct (Z.eq_dec (u_id u) userId) as [Hid | Hid]; [exact Hid |].
    exfalso. apply (Hothers u Hid) in H.
    assert (Hin : In u (emailCheck s e userId)).
    { unfold emailCheck. apply filter_In. split; [exact H |].
      rewrite Hmail, String.eqb_refl. simpl.
      apply negb_true_iff, Z.eqb_neq. exact Hid. }
    rewrite Ec in Hin. contradiction. }
  destruct rows as [| row rest]; intros H; injection H as <- <-; simpl;
    (split; [exact T1 |]); (split; [exact T2 |]); (split; [exact T3 |]);
    (split; [exact T4 |]); (split; [exact Hothers |]); split.
  - intros _. rewrite Hs1. simpl. apply map_update_none.
    symmetry in Hrows. apply map_eq_nil in Hrows. apply map_eq_nil in Hrows. exact Hrows.
  - discriminate.
  - congruence.
  - intros _. split; [reflexivity |]. intros u Hu. split; auto.
Qed.

Lemma putProfile_checks_the_email_witness :
  Regex.test Regex.emailRegex "ann@work.example" = true.
Proof.
  pose proof (putProfile_checks_the_email AccountSamples.store
           (snd (putProfile AccountSamples.store 100 7 (Some "ann@work.example"%string) None))
           100 7 "ann@work.example"%string None
           (fst (putProfile AccountSamples.store 100 7 (Some "ann@work.example"%string) None)))
    as H.
  destruct H as (_ & _ & _ & _ & _ & _ & H).
  - discriminate.
  - apply surjective_pairing.
  - apply H. vm_compute. reflexivity.
Defined.




(** ** The keys of the tables *)

Lemma NoDup_map_filter {A B : Type} (f : A -> B) (g : A -> bool) (l : list A) :
  NoDup (map f l) -> NoDup (map f (filter g l)).
Proof.
  induction l as [| x xs IH]; simpl; intros H; [constructor |].
  inversion H as [| ? ? Hnotin Hnd]. subst.
  destruct (g x); simpl; [| now apply IH].
  constructor; [| now apply IH].
  intros Hin. apply Hnotin. apply in_map_iff in Hin. destruct Hin as (y & Hy & Hin).
  apply filter_In in Hin. rewrite <- Hy. apply in_map. tauto.
Qed.

Lemma NoDup_map_from {A B C : Type} (f : A -> B) (g : A -> C) (l : list A) :
  NoDup (map g l) ->
  (forall a b, In a l -> In b l -> f a = f b -> g a = g b) ->
  NoDup (map f l).
Proof.
  induction l as [| x xs IH]; simpl; intros Hnd H; [constructor |].
  inversion Hnd as [| ? ? Hnotin Hnd']. subst.
  constructor.
  - intros Hin. apply in_map_iff in Hin. destruct Hin as (y & Hy & Hin).
    apply Hnotin. rewrite <- (H y x); auto. now apply in_map.
  - apply IH; auto.
Qed.

Lemma existsb_false_inv {A : Type} (f : A -> bool) (l : list A) (x : A) :
  existsb f l = false -> In x l -> f x = false.
Proof.
  intros E Hin. destruct (f x) eqn:Ex; [| reflexivity].
  rewrite <- E. symmetry. apply existsb_exists. now exists x.
Qed.

Lemma existsb_false_not_in (userId : Z) (ps : list PreferencesRow) :
  existsb (prefs_of userId) ps = false -> ~ In userId (map p_user_id ps).
Proof.
  intros E Hin. apply in_map_iff in Hin. destruct Hin as (p & Hp & Hin).
  assert (existsb (prefs_of userId) ps = true) as E'.
  { apply existsb_exists. exists p. split; [exact Hin |].
    unfold prefs_of. now apply Z.eqb_eq. }
  congruence.
Qed.

Lemma insert_preferences_keys (s s' : Store) (row : PreferencesRow) :
  insert_preferences s row = Ok s' -> keys_hold s -> keys_hold s'.
Proof.
  unfold insert_preferences.
  destruct (existsb (prefs_of (p_user_id row)) (user_preferences s)) eqn:E1; [discriminate |].
  destruct (existsb (is_user (p_user_id row)) (users s)) eqn:E2; [| discriminate].
  simpl. intros H. injection H as <-. intros (K1 & K2 & K3 & K4).
  unfold keys_hold. simpl. repeat split; try assumption.
  - rewrite map_app. simpl.
    apply NoDup_app; [exact K3 | repeat constructor; intros [] |].
    intros x Hx [<- | []]. now apply (existsb_false_not_in _ _ E1).
  - intros p Hp. apply in_app_or in Hp. destruct Hp as [Hp | [<- | []]]; [now apply K4 |].
    apply existsb_exists in E2. destruct E2 as (u & Hu & Hid).
    exists u. split; [exact Hu |]. now apply Z.eqb_eq in Hid.
Qed.

Lemma upsert_preferences_keys (s s' : Store) (userId : Z)
    (update : PreferencesRow -> PreferencesRow) (fresh : PreferencesRow) :
  (forall p, p_user_id p = userId -> p_user_id (update p) = userId) ->
  upsert_preferences s userId update fresh = Ok s' ->
  keys_hold s -> keys_hold s'.
Proof.
  intros Hupd. unfold upsert_preferences.
  destruct (existsb (prefs_of userId) (user_preferences s)) eqn:E;
    [| apply insert_preferences_keys].
  intros H. injection H as <-. intros (K1 & K2 & K3 & K4).
  assert (forall p, p_user_id (if prefs_of userId p then update p else p) = p_user_id p)
    as Hid.
  { intros p. unfold prefs_of. destruct (p_user_id p =? userId) eqn:Ep; [| reflexivity].
    apply Z.eqb_eq in Ep. rewrite Ep. now apply Hupd. }
  unfold keys_hold. simpl. repeat split; try assumption.
  - rewrite map_map. rewrite (map_ext _ p_user_id Hid). exact K3.
  - intros p Hp. apply in_map_iff in Hp. destruct Hp as (q & <- & Hq).
    rewrite Hid. now apply K4.
Qed.

Lemma update_user_unique (s s' : Store) (now userId : Z) (email name : option string)
    (rows : list Profile) :
  update_user s now userId email name = Ok (rows, s') ->
  exists updated,
    s' = set_users s updated
    /\ (exists rewrite, (forall u, u_id (rewrite u) = u_id u)
          /\ updated = map (fun u => if is_user userId u then rewrite u else u) (users s))
    /\ existsb (fun u => is_user userId u
                         && existsb (fun v => negb (u_id v =? u_id u)
                                              && String.eqb (u_email v) (u_email u))
                                    updated)
               updated = false.
Proof.
  unfold update_user. cbv zeta.
  destruct (existsb _ _); [discriminate |].
  match goal with |- (if ?c then _ else _) = _ -> _ => destruct c eqn:Euniq end;
    [discriminate |].
  intros H. injection H as _ <-.
  eexists. split; [reflexivity |]. split; [| exact Euniq].
  eexists. split; [| reflexivity]. reflexivity.
Qed.

Lemma updated_users_keys (s : Store) (userId : Z) (rewrite : UserRow -> UserRow)
    (updated : list UserRow) :
  (forall u, u_id (rewrite u) = u_id u) ->
  updated = map (fun u => if is_user userId u then rewrite u else u) (users s) ->
  existsb (fun u => is_user userId u
                    && existsb (fun v => negb (u_id v =? u_id u)
                                         && String.eqb (u_email v) (u_email u))
                               updated)
          updated = false ->
  keys_hold s -> keys_hold (set_users s updated).
Proof.
  intros Hrw Hupdated Euniq (K1 & K2 & K3 & K4).
  assert (forall u, u_id (if is_user userId u then rewrite u else u) = u_id u) as Hid.
  { intros u. destruct (is_user userId u); [apply Hrw | reflexivity]. }
  assert (map u_id updated = map u_id (users s)) as Hids.
  { rewrite Hupdated, map_map. now apply map_ext. }
  unfold keys_hold, set_users. cbn [users user_preferences]. repeat split.
  - now rewrite Hids.
  - apply NoDup_map_from with (g := u_id); [now rewrite Hids |].
    assert (forall a b, In a updated -> In b updated -> is_user userId a = true ->
                        u_email a = u_email b -> u_id a = u_id b) as Hone.
    { intros a b Ha Hb Hua Hab.
      assert (existsb (fun v => negb (u_id v =? u_id a)
                                && String.eqb (u_email v) (u_email a)) updated = false)
        as Hno.
      { pose proof (existsb_false_inv _ _ a Euniq Ha) as Hf. simpl in Hf.
        rewrite Hua in Hf. exact Hf. }
      pose proof (existsb_false_inv _ _ b Hno Hb) as Hf. simpl in Hf.
      rewrite Hab, String.eqb_refl, Bool.andb_true_r in Hf.
      apply Bool.negb_false_iff, Z.eqb_eq in Hf. now symmetry. }
    intros a b Ha Hb Hab.
    destruct (is_user userId a) eqn:Ea; [now apply Hone |].
    destruct (is_user userId b) eqn:Eb; [symmetry; now apply Hone |].
    assert (forall x, In x updated -> is_user userId x = false -> In x (users s)) as Hold.
    { intros x Hx Ex. rewrite Hupdated in Hx. apply in_map_iff in Hx.
      destruct Hx as (y & Hy & Hin).
      destruct (is_user userId y) eqn:Ey.
      - subst x. unfold is_user in *. rewrite Hrw in Ex. congruence.
      - now subst x. }
    f_equal. apply (NoDup_map_unique u_email (users s)); auto.
  - exact K3.
  - intros p Hp. destruct (K4 p Hp) as (u & Hu & Hup).
    exists (if is_user userId u then rewrite u else u). split.
    + rewrite Hupdated.
      now apply (in_map (fun u => if is_user userId u then rewrite u else u)).
    + now rewrite Hid.
Qed.

Lemma update_user_keys (s s' : Store) (now userId : Z) (email name : option string)
    (rows : list Profile) :
  update_user s now userId email name = Ok (rows, s') ->
  keys_hold s -> keys_hold s'.
Proof.
  intros H K. apply update_user_unique in H.
  destruct H as (updated & -> & (rewrite & Hrw & Hupdated) & Euniq).
  now apply (updated_users_keys s userId rewrite).
Qed.

Lemma after_delete_keys (s : Store) (userId : Z) :
  keys_hold s -> keys_hold (after_delete s userId).
Proof.
  intros (K1 & K2 & K3 & K4). unfold keys_hold, after_delete.
  cbn [users user_preferences].
  split; [now apply NoDup_map_filter |]. split; [now apply NoDup_map_filter |].
  split; [now apply NoDup_map_filter, NoDup_map_filter |].
  intros p Hp. apply filter_In in Hp. destruct Hp as (Hp & Ep).
  apply filter_In in Hp. destruct Hp as (Hp & _).
  destruct (K4 p Hp) as (u & Hu & Hup). exists u. split; [| exact Hup].
  apply filter_In. split; [exact Hu |].
  unfold is_user, prefs_of in *. now rewrite Hup.
Qed.

(** X18.  Every route of the accounts keeps the keys of the tables: after
    GET /reminders, PUT /reminders, PUT /preferences, PUT /profile and
    DELETE /account the user ids and the emails are still without
    repetition, there is still at most one preferences row per user, and
    every preferences row still refers to a user. *)
Theorem account_routes_keep_the_keys (s : Store) (now userId : Z)
    (workoutReminder nutritionReminder : option Z) (echo : ProfilePreferences)
    (email name : option string) :
  keys_hold s ->
  keys_hold (snd (getReminders s now userId))
  /\ keys_hold (snd (putReminders s now userId workoutReminder nutritionReminder))
  /\ keys_hold (snd (putPreferences s now userId echo))
  /\ keys_hold (snd (putProfile s now userId email name))
  /\ keys_hold (snd (deleteAccount s userId)).
Proof.
  intros K. split; [| split; [| split; [| split]]].
  - unfold getReminders. destruct (userCheck s userId); [exact K |].
    destruct (prefsResult s userId); [| exact K].
    destruct (insert_preferences s _) eqn:E; [| exact K].
    simpl. now apply (insert_preferences_keys _ _ _ E).
  - unfold putReminders, time_in. cbv zeta.
    destruct (valid_time workoutReminder); [| exact K].
    destruct (valid_time nutritionReminder); [| exact K].
    cbn [bind].
    destruct (upsert_preferences s userId _ _) eqn:E; [| exact K].
    simpl. refine (upsert_preferences_keys _ _ _ _ _ _ E K). intros p Hp. exact Hp.
  - unfold putPreferences, time_in. cbv zeta.
    destruct (varchar 20 (or_string (theme echo) "light")); [| exact K].
    destruct (varchar 20 (or_string (units echo) "metric")); [| exact K].
    destruct (valid_time (workout_reminder echo)); [| exact K].
    destruct (valid_time (nutrition_reminder echo)); [| exact K].
    cbn [bind].
    destruct (upsert_preferences s userId _ _) eqn:E; [| exact K].
    simpl. refine (upsert_preferences_keys _ _ _ _ _ _ E K). intros p _. reflexivity.
  - unfold putProfile. cbv zeta.
    match goal with |- keys_hold (snd match ?c with _ => _ end) => destruct c end;
      [exact K |].
    destruct (update_user s now userId email name) as [[rows s'] | e] eqn:E; [| exact K].
    assert (keys_hold s') by apply (update_user_keys _ _ _ _ _ _ _ E K).
    now destruct rows.
  - rewrite deleteAccount_value. simpl. now apply after_delete_keys.
Qed.

Lemma account_routes_keep_the_keys_witness :
  keys_hold AccountSamples.store
  /\ keys_hold (snd (putProfile AccountSamples.store 0 7 (Some "ann@new.org"%string) None)).
Proof.
  assert (keys_hold AccountSamples.store) as K.
  { unfold keys_hold. simpl. repeat split.
    - repeat constructor; simpl; intuition discriminate.
    - repeat constructor; simpl; intuition discriminate.
    - repeat constructor; simpl; intuition discriminate.
    - intros p [<- | []]. exists AccountSamples.bob. simpl. intuition. }
  split; [exact K |].
  pose proof (account_routes_keep_the_keys AccountSamples.store 0 7 None None
                {| theme := None; units := None; notifications := None;
                   workout_reminder := None; nutrition_reminder := None |}
                (Some "ann@new.org"%string) None K) as H.
  destruct H as (_ & _ & _ & H & _). exact H.
Defined.

End AccountFacts.

(** ** The date range of a request *)

Section ValidationFacts.

Import Regex Validation.

Local Open Scope string_scope.

Lemma seq_class_inv (p : ascii -> bool) (r : Regex.t) (w : string) :
  matches (Seq (Class p) r) w
  <-> exists c v, w = String c v /\ p c = true /\ matches r v.
Proof.
  split.
  - intros H. apply seq_inv in H. destruct H as (u & v & -> & Hu & Hv).
    apply class_inv in Hu. destruct Hu as (c & -> & Hc).
    exists c, v. auto.
  - intros (c & v & -> & Hc & Hv).
    change (String c v) with (String c "" ++ v).
    constructor; [now constructor | exact Hv].
Qed.

Lemma is_char_eq (d c : ascii) : is_char d c = true <-> c = d.
Proof. unfold is_char. apply Ascii.eqb_eq. Qed.

Lemma dateRegex_matches (s : string) : matches dateRegex s <-> date_shaped s.
Proof.
  unfold dateRegex, date_shaped, digit, hyphen. split.
  - intros H.
    repeat (apply seq_class_inv in H;
            let c := fresh "c" in let E := fresh "E" in
            destruct H as (c & ? & -> & E & H)).
    apply class_inv in H. destruct H as (c8 & -> & E8).
    apply is_char_eq in E3, E6. subst.
    exists c, c0, c1, c2, c4, c5, c7, c8. split; [reflexivity |].
    repeat constructor; assumption.
  - intros (y1 & y2 & y3 & y4 & m1 & m2 & d1 & d2 & -> & H).
    repeat match goal with
           | H : Forall _ (_ :: _) |- _ => inversion H; subst; clear H
           end.
    repeat (apply seq_class_inv; do 2 eexists;
            split; [reflexivity |]; split; [try assumption; now apply is_char_eq |]).
    now constructor.
Qed.

(** X19.  The date expression accepts exactly the strings of ten
    characters that are four digits, a hyphen, two digits, a hyphen and
    two digits. *)
Theorem dateRegex_accepts (s : string) :
  test dateRegex s = true <-> date_shaped s.
Proof.
  rewrite test_matches. apply dateRegex_matches.
Qed.

Lemma truthy_some (v : option string) :
  truthy v = true -> exists a, v = Some a /\ a <> "" /\ without_empty v = Some a.
Proof.
  destruct v as [a |]; simpl; [| discriminate].
  destruct (String.eqb_spec a ""); simpl; [discriminate |]. eauto.
Qed.

Lemma falsy_without_empty (v : option string) :
  truthy v = false -> without_empty v = None.
Proof.
  destruct v as [a |]; simpl; [| reflexivity].
  destruct (String.eqb a ""); simpl; [reflexivity | discriminate].
Qed.

Lemma well_formed_shaped (v : option string) (a : string) :
  ill_formed v = false -> without_empty v = Some a -> a <> "" /\ date_shaped a.
Proof.
  destruct v as [b |]; simpl; [| discriminate].
  destruct (String.eqb_spec b ""); simpl; [discriminate |].
  intros H E. injection E as <-. split; [assumption |].
  apply negb_false_iff in H. apply test_matches in H. now apply dateRegex_matches.
Qed.

(** X20.  What the middleware lets through.  When neither date is given,
    or both are empty, the query goes on as it is, empty strings
    included.  Otherwise an empty date is removed, every date that goes on
    has the form of a date, and when two go on the first is not after the
    second as [Date]s compare. *)
Theorem validateDateRange_lets_through (query query' : Query) :
  validateDateRange query = Next query' ->
  (truthy (startDate query) = false /\ truthy (endDate query) = false
   /\ query' = query)
  \/ (startDate query' = without_empty (startDate query)
      /\ endDate query' = without_empty (endDate query)
      /\ (forall s, startDate query' = Some s -> s <> "" /\ date_shaped s)
      /\ (forall e, endDate query' = Some e -> e <> "" /\ date_shaped e)
      /\ (forall s e, startDate query' = Some s -> endDate query' = Some e ->
            Date_gt (Date_getTime s) (Date_getTime e) = false)).
Proof.
  unfold validateDateRange. cbv zeta.
  destruct (negb (truthy (startDate query)) && negb (truthy (endDate query))) eqn:Eboth.
  - intros H. injection H as <-. left.
    apply andb_true_iff in Eboth. destruct Eboth as [H1 H2].
    apply negb_true_iff in H1, H2. auto.
  - destruct (ill_formed (startDate query)) eqn:Es; [discriminate |].
    destruct (ill_formed (endDate query)) eqn:Ee; [discriminate |].
    destruct (out_of_order (startDate query) (endDate query)) eqn:Eo; [discriminate |].
    intros H. injection H as <-. right. simpl.
    split; [reflexivity |]. split; [reflexivity |].
    split; [intros s; now apply well_formed_shaped |].
    split; [intros e; now apply well_formed_shaped |].
    intros s e Hs He.
    destruct (startDate query) as [s' |]; [| discriminate].
    destruct (endDate query) as [e' |]; [| discriminate].
    simpl in Hs, He, Eo.
    destruct (String.eqb s' ""); [discriminate |].
    destruct (String.eqb e' ""); [discriminate |].
    injection Hs as <-. injection He as <-. exact Eo.
Qed.

Lemma validateDateRange_lets_through_witness :
  Date_gt (Date_getTime "2024-01-05") (Date_getTime "2024-02-01") = false.
Proof.
  pose proof (validateDateRange_lets_through
                {| startDate := Some "2024-01-05"; endDate := Some "2024-02-01" |}
                {| startDate := Some "2024-01-05"; endDate := Some "2024-02-01" |}
                ltac:(vm_compute; reflexivity)) as H.
  destruct H as [(H & _) | (_ & _ & _ & _ & H)]; [discriminate H |].
  apply H; reflexivity.
Defined.

Lemma shaped_well_formed (a : string) :
  date_shaped a -> ill_formed (Some a) = false.
Proof.
  intros H. simpl. apply dateRegex_matches, test_matches in H. rewrite H.
  apply andb_false_r.
Qed.

Lemma shaped_truthy (a : string) : date_shaped a -> truthy (Some a) = true.
Proof.
  intros (y1 & y2 & y3 & y4 & m1 & m2 & d1 & d2 & -> & _). reflexivity.
Qed.

(** X21.  A date that has the form but names no day is never turned away:
    with an impossible month or day on either side the comparison of the
    two [Date]s is false, so the range goes on whatever its order. *)
Theorem validateDateRange_impossible_day (s e : string) :
  date_shaped s -> date_shaped e ->
  Date_getTime s = None \/ Date_getTime e = None ->
  validateDateRange {| startDate := Some s; endDate := Some e |}
  = Next {| startDate := Some s; endDate := Some e |}.
Proof.
  intros Hs He Hnan. unfold validateDateRange. cbv zeta.
  cbn [startDate endDate].
  rewrite (shaped_well_formed s Hs), (shaped_well_formed e He).
  pose proof (shaped_truthy s Hs) as Ts. pose proof (shaped_truthy e He) as Te.
  rewrite Ts, Te. cbn [negb andb].
  assert (out_of_order (Some s) (Some e) = false) as ->.
  { unfold out_of_order. rewrite Ts, Te. cbn [andb].
    destruct Hnan as [-> | ->]; [reflexivity |].
    now destruct (Date_getTime s). }
  unfold without_empty. simpl in Ts, Te.
  apply negb_true_iff in Ts, Te. now rewrite Ts, Te.
Qed.

Lemma validateDateRange_impossible_day_witness :
  validateDateRange {| startDate := Some "2024-13-45"; endDate := Some "2020-01-01" |}
  = Next {| startDate := Some "2024-13-45"; endDate := Some "2020-01-01" |}.
Proof.
  apply (validateDateRange_impossible_day "2024-13-45" "2020-01-01").
  - apply dateRegex_matches, test_matches. vm_compute. reflexivity.
  - apply dateRegex_matches, test_matches. vm_compute. reflexivity.
  - left. vm_compute. reflexivity.
Defined.

End ValidationFacts.

(** ** The routes that read the workout logs *)

Section WorkoutFacts.

Import Workout.

Lemma filter_all {A : Type} (f : A -> bool) (l : list A) :
  (forall x, In x l -> f x = true) -> filter f l = l.
Proof.
  induction l as [| x xs IH]; simpl; intros H; [reflexivity |].
  rewrite (H x) by now left. f_equal. apply IH. intros y Hy. apply H. now right.
Qed.

Lemma filter_none {A : Type} (f : A -> bool) (l : list A) :
  (forall x, In x l -> f x = false) -> filter f l = [].
Proof.
  induction l as [| x xs IH]; simpl; intros H; [reflexivity |].
  rewrite (H x) by now left. apply IH. intros y Hy. apply H. now right.
Qed.

Lemma filter_flat_map_fst {A B : Type} (f : A -> bool) (chunk : A -> list (A * B))
    (l : list A) :
  (forall a p, In p (chunk a) -> fst p = a) ->
  filter (fun p => f (fst p)) (flat_map chunk l) = flat_map chunk (filter f l).
Proof.
  intros Hfst. induction l as [| a l IH]; simpl; [reflexivity |].
  rewrite filter_app, IH. destruct (f a) eqn:E; simpl.
  - f_equal. apply filter_all. intros p Hp. now rewrite (Hfst a p Hp).
  - rewrite filter_none; [reflexivity |]. intros p Hp. now rewrite (Hfst a p Hp).
Qed.

Lemma filter_key_unique {A : Type} (key : A -> Z) (f : A -> bool) (l : list A) (x : A) :
  NoDup (map key l) -> In x l -> f x = true ->
  filter (fun y => f y && (key x =? key y)) l = [x].
Proof.
  induction l as [| y l IH]; simpl; intros Hnd Hin Hf; [contradiction |].
  inversion Hnd as [| ? ? Hnotin Hnd']. subst.
  destruct Hin as [-> | Hin].
  - rewrite Hf, Z.eqb_refl. simpl. f_equal.
    apply filter_none. intros z Hz.
    destruct (key x =? key z) eqn:E; [| apply andb_false_r].
    apply Z.eqb_eq in E. exfalso. apply Hnotin. rewrite E. now apply in_map.
  - assert ((key x =? key y) = false) as ->.
    { apply Z.eqb_neq. intros E. apply Hnotin. rewrite <- E. now apply in_map. }
    rewrite andb_false_r. now apply IH.
Qed.

Lemma chunk_of_fst (db : Db.Database) (wl : Db.WorkoutLog)
    (p : Db.WorkoutLog * option Db.WorkoutExercise) :
  In p (chunk_of db wl) -> fst p = wl.
Proof.
  unfold chunk_of. destruct (exercises_of db (Db.wl_id wl)) as [| e es].
  - intros [<- | []]. reflexivity.
  - intros H. apply in_map_iff in H. destruct H as (we & <- & _). reflexivity.
Qed.

Lemma chunk_of_not_nil (db : Db.Database) (wl : Db.WorkoutLog) : chunk_of db wl <> [].
Proof.
  unfold chunk_of. destruct (exercises_of db (Db.wl_id wl)); discriminate.
Qed.

Lemma as_numeric_of_numeric (w : option Q) : Sql.as_numeric (Db.of_numeric w) = w.
Proof. now destruct w. Qed.

Lemma history_value (db : Db.Database) (userId : Z) :
  history db userId
  = Ok (grouped (fun wl => Db.VInt (Db.wl_id wl))
          (fun wl exercises =>
             {| id := Some (Db.wl_id wl); name := Some (Db.wl_name wl);
                date := Some (Db.wl_date wl); duration := Some (Db.wl_duration wl);
                calories := None; notes := Sql.as_text (Db.of_text (Db.wl_notes wl));
                exercises := exercises |})
          (fun we =>
             {| exercise_name :=
                  Sql.as_text (of_joined (fun e => Db.VText (Db.we_exercise_name e)) we);
                sets := Sql.as_int (of_joined (fun e => Db.VInt (Db.we_sets e)) we);
                reps := Sql.as_int (of_joined (fun e => Db.VInt (Db.we_reps e)) we);
                weight := Sql.as_numeric (of_joined (fun e => Db.of_numeric (Db.we_weight e)) we);
                completed_sets := None |})
          (flat_map (chunk_of db) (logs_of db userId))).
Proof.
  unfold history. cbn [Db.column Db.workout_logs_columns Db.workout_exercises_columns bind].
  simpl String.eqb. cbn iota. unfold bind. f_equal. f_equal.
  unfold logs_of, left_join.
  rewrite <- (filter_flat_map_fst
                (fun wl => Sql.eq_param (Db.of_int (Db.wl_user_id wl)) userId)
                (chunk_of db)); [reflexivity |].
  apply chunk_of_fst.
Qed.

Lemma as_text_of_text (v : option string) : Sql.as_text (Db.of_text v) = v.
Proof. now destruct v. Qed.

Section HistoryGroups.

Variables (db : Db.Database) (userId : Z).

Hypothesis primary_key : NoDup (map Db.wl_id (Db.workout_logs db)).

Lemma rows_of_log (wl : Db.WorkoutLog) :
  In wl (logs_of db userId) ->
  filter (same_key Sql.opt_eqb entry_key (Some (Db.wl_id wl))) (joined_rows db userId)
  = chunk_of db wl.
Proof.
  intros Hwl. unfold joined_rows, same_key, entry_key. simpl.
  rewrite (filter_flat_map_fst (fun w => Db.wl_id wl =? Db.wl_id w) (chunk_of db))
    by apply chunk_of_fst.
  unfold logs_of in *. apply filter_In in Hwl. destruct Hwl as [Hin Hu].
  assert (filter (fun w => Db.wl_id wl =? Db.wl_id w)
            (filter (fun w => Sql.eq_param (Db.of_int (Db.wl_user_id w)) userId)
                    (Db.workout_logs db)) = [wl]) as ->.
  { rewrite <- (filter_key_unique Db.wl_id
                  (fun w => Sql.eq_param (Db.of_int (Db.wl_user_id w)) userId)
                  (Db.workout_logs db) wl primary_key Hin Hu).
    clear. induction (Db.workout_logs db) as [| w l IH]; simpl; [reflexivity |].
    destruct (Sql.eq_param (Db.of_int (Db.wl_user_id w)) userId); simpl; [| exact IH].
    destruct (Db.wl_id wl =? Db.wl_id w); [now rewrite IH | exact IH]. }
  simpl. apply app_nil_r.
Qed.

Lemma entry_of_chunk (wl : Db.WorkoutLog) :
  entry_of_group (Some (Db.wl_id wl), chunk_of db wl) = [ history_entry db wl ].
Proof.
  unfold entry_of_group, chunk_of, history_entry, entry_row, entry_object.
  destruct (exercises_of db (Db.wl_id wl)) as [| e es]; simpl;
    rewrite as_text_of_text, ?as_numeric_of_numeric; [reflexivity |].
  do 3 f_equal. rewrite map_map. apply map_ext. intros we. simpl.
  now rewrite as_numeric_of_numeric.
Qed.

Lemma group_of_log (g : option Z * list (Db.WorkoutLog * option Db.WorkoutExercise)) :
  In g (group_by Sql.opt_eqb entry_key (joined_rows db userId)) ->
  exists wl,
    In wl (logs_of db userId)
    /\ g = (Some (Db.wl_id wl), chunk_of db wl).
Proof.
  intros Hg. destruct g as [k xs].
  destruct (group_by_groups_of Sql.opt_eqb entry_key opt_eqb_eq (joined_rows db userId))
    as (_ & Hcontent & _).
  destruct (group_by_well_grouped Sql.opt_eqb entry_key opt_eqb_eq (joined_rows db userId))
    as (_ & Hwell).
  rewrite Forall_forall in Hwell. destruct (Hwell _ Hg) as [Hne Hkeys]. simpl in *.
  pose proof (Hcontent k xs Hg) as Hxs.
  destruct xs as [| p ps]; [congruence |].
  assert (In p (joined_rows db userId)) as Hp.
  { assert (In p (p :: ps)) as H by now left. rewrite Hxs in H.
    apply filter_In in H. tauto. }
  unfold joined_rows in Hp. apply in_flat_map in Hp. destruct Hp as (wl & Hwl & Hp).
  apply chunk_of_fst in Hp.
  apply Forall_inv in Hkeys. unfold entry_key in Hkeys. simpl in Hkeys.
  rewrite Hp in Hkeys. subst k.
  exists wl. split; [exact Hwl |]. f_equal.
  rewrite Hxs. now apply rows_of_log.
Qed.

Lemma log_has_group (wl : Db.WorkoutLog) :
  In wl (logs_of db userId) ->
  In (Some (Db.wl_id wl), chunk_of db wl) (group_by Sql.opt_eqb entry_key (joined_rows db userId)).
Proof.
  intros Hwl.
  destruct (group_by_groups_of Sql.opt_eqb entry_key opt_eqb_eq (joined_rows db userId))
    as (_ & _ & Hcover).
  destruct (chunk_of db wl) as [| p ps] eqn:E; [now apply chunk_of_not_nil in E |].
  assert (In p (chunk_of db wl)) as Hp by (rewrite E; now left).
  assert (In p (joined_rows db userId)) as HpR by (unfold joined_rows; apply in_flat_map; eauto).
  apply Hcover in HpR. apply in_map_iff in HpR. destruct HpR as (g & Hk & Hg).
  destruct (group_of_log g Hg) as (wl' & Hwl' & ->). simpl in Hk.
  unfold entry_key in Hk. simpl in Hk. rewrite (chunk_of_fst db wl p Hp) in Hk.
  injection Hk as Hk.
  assert (wl' = wl) as ->.
  { unfold logs_of in *. apply filter_In in Hwl, Hwl'.
    apply (NoDup_map_unique Db.wl_id (Db.workout_logs db)); tauto. }
  now rewrite <- E.
Qed.

Lemma history_groups :
  Permutation (flat_map entry_of_group (group_by Sql.opt_eqb entry_key (joined_rows db userId)))
              (map (history_entry db) (logs_of db userId)).
Proof.
  assert (forall l,
            (forall g, In g l ->
                       In g (group_by Sql.opt_eqb entry_key (joined_rows db userId))) ->
            map id (flat_map entry_of_group l) = map fst l) as Hids.
  { induction l as [| g l IH]; simpl; intros Hl; [reflexivity |].
    rewrite map_app, IH by (intros; apply Hl; now right). f_equal.
    destruct (group_of_log g (Hl g (or_introl eq_refl))) as (wl & _ & ->).
    rewrite entry_of_chunk. reflexivity. }
  apply NoDup_Permutation.
  - apply (NoDup_map_inv id). rewrite Hids by auto.
    apply (group_by_groups_of Sql.opt_eqb entry_key opt_eqb_eq (joined_rows db userId)).
  - apply (NoDup_map_inv id). rewrite map_map. simpl.
    apply NoDup_map_from with (g := Db.wl_id);
      [unfold logs_of; now apply NoDup_map_filter |].
    intros a b _ _ H. now injection H.
  - intros r. rewrite in_flat_map, in_map_iff. split.
    + intros (g & Hg & Hr). destruct (group_of_log g Hg) as (wl & Hwl & ->).
      rewrite entry_of_chunk in Hr. destruct Hr as [<- | []]. eauto.
    + intros (wl & <- & Hwl). exists (Some (Db.wl_id wl), chunk_of db wl).
      split; [now apply log_has_group |]. rewrite entry_of_chunk. now left.
Qed.

End HistoryGroups.

(** X22.  GET /history answers with one entry per workout log of the user,
    the later dates first; an entry carries the columns of its log and one
    object per exercise of the log, and for a log without exercises a
    single object whose four values are null. *)
Theorem getHistory_lists_every_log (db : Db.Database) (userId : Z) :
  NoDup (map Db.wl_id (Db.workout_logs db)) ->
  exists rows,
    getHistory db userId = {| status := 200; body := Rows rows |}
    /\ StronglySorted not_earlier rows
    /\ Permutation rows (map (history_entry db) (logs_of db userId)).
Proof.
  intros Hkey. unfold getHistory. rewrite history_value.
  eexists. split; [reflexivity |]. unfold grouped. split.
  - apply (stable_sort_StronglySorted (fun a b => Sql.opt_le (date b) (date a))).
    + intros x y. destruct (opt_le_total (date x) (date y)); auto.
    + intros x y z Hxy Hyz. now apply (opt_le_trans (date z) (date y) (date x)).
  - eapply Permutation_trans; [apply Permutation_sym, stable_sort_perm |].
    now apply history_groups.
Qed.

Lemma getHistory_lists_every_log_witness :
  exists rows,
    getHistory (Accounts.logs AccountSamples.store) 8 = {| status := 200; body := Rows rows |}
    /\ StronglySorted not_earlier rows
    /\ Permutation rows
         (map (history_entry (Accounts.logs AccountSamples.store))
              (logs_of (Accounts.logs AccountSamples.store) 8)).
Proof.
  apply (getHistory_lists_every_log (Accounts.logs AccountSamples.store) 8).
  vm_compute. repeat constructor; simpl; intuition discriminate.
Defined.

(** X23.  GET /logs never answers with the logs.  Its statement selects
    [wl.calories] and [we.completed_sets], which the tables that
    [initDatabase] creates do not have, so the handler, given a client of
    the pool, answers 500 whatever the tables hold and whatever the query;
    a request is therefore answered with 400 by the middleware or with 500
    by the handler. *)
Theorem logs_route_never_succeeds (db : Db.Database) (userId : Z)
    (query : Validation.Query) :
  logs_statement Db.workout_logs_columns Db.workout_exercises_columns db userId query
  = Err (UndefinedColumn "calories")
  /\ getLogs db userId query
     = {| status := 500; body := Message "Error fetching workout logs" |}
  /\ (status (logs_route db userId query) = 400
      \/ logs_route db userId query
         = {| status := 500; body := Message "Error fetching workout logs" |}).
Proof.
  split; [reflexivity |]. split; [reflexivity |].
  unfold logs_route, Validation.validateDateRange. cbv zeta.
  destruct (_ && _); [now right |].
  destruct (Validation.ill_formed _); [now left |].
  destruct (Validation.ill_formed _); [now left |].
  destruct (Validation.out_of_order _ _); [now left | now right].
Qed.

End WorkoutFacts.

(** ** The password *)

Section PasswordFacts.

Import Accounts.

Local Open Scope string_scope.

(** X24.  PUT /password changes nothing unless it answers 200, and it
    answers 200 only when the user has a row, both passwords are given and
    the current one compares equal to the stored hash; then every row of
    the user carries the hash of the new password and nothing else in the
    store has changed.  Without a row of the user the answer is 500. *)
Theorem putPassword_changes_only_the_password
    (compare : string -> string -> bool) (hash : string -> string -> string)
    (s s' : Store) (salt : string) (userId : Z)
    (currentPassword newPassword : option string) (r : Reply) :
  putPassword compare hash s salt userId currentPassword newPassword = (r, s') ->
  (status r <> 200 -> s' = s)
  /\ (userCheck s userId = [] -> status r = 500)
  /\ (status r = 200 ->
      exists user current new,
        In user (users s) /\ u_id user = userId
        /\ currentPassword = Some current /\ newPassword = Some new
        /\ compare current (u_password user) = true
        /\ s' = set_users s
                  (map (fun u => if is_user userId u
                                 then with_password (hash new salt) u else u)
                       (users s))).
Proof.
  unfold putPassword. cbv zeta.
  destruct (userCheck s userId) as [| user rest] eqn:Eu.
  { intros H. injection H as <- <-. simpl. repeat split; auto; discriminate. }
  assert (In user (users s) /\ u_id user = userId) as [Hin Hid].
  { assert (In user (userCheck s userId)) as H by (rewrite Eu; now left).
    unfold userCheck in H. apply filter_In in H. destruct H as [H1 H2].
    split; [exact H1 |]. now apply Z.eqb_eq in H2. }
  destruct currentPassword as [current |];
    [| intros H; injection H as <- <-; simpl; repeat split; auto; discriminate].
  destruct (compare current (u_password user)) eqn:Ec; simpl;
    [| intros H; injection H as <- <-; simpl; repeat split; auto; discriminate].
  destruct newPassword as [new |];
    [| intros H; injection H as <- <-; simpl; repeat split; auto; discriminate].
  unfold update_password. cbv zeta.
  destruct (existsb _ _);
    [intros H; injection H as <- <-; simpl; repeat split; auto; discriminate |].
  intros H. injection H as <- <-. simpl.
  split; [intros H; now contradiction H |]. split; [discriminate |].
  intros _. exists user, current, new. repeat split; auto.
Qed.

Lemma putPassword_changes_only_the_password_witness :
  exists user current new,
    In user (users AccountSamples.store) /\ u_id user = 7
    /\ Some "ann" = Some current /\ Some "anna" = Some new
    /\ BcryptSamples.compare current (u_password user) = true
    /\ snd (putPassword BcryptSamples.compare BcryptSamples.hash
                        AccountSamples.store BcryptSamples.salt 7
                        (Some "ann") (Some "anna"))
       = set_users AccountSamples.store
           (map (fun u => if is_user 7 u
                          then with_password (BcryptSamples.hash new BcryptSamples.salt) u
                          else u)
                (users AccountSamples.store)).
Proof.
  pose proof (putPassword_changes_only_the_password
                BcryptSamples.compare BcryptSamples.hash
                AccountSamples.store _ BcryptSamples.salt 7 (Some "ann") (Some "anna") _
                (surjective_pairing _)) as H.
  destruct H as (_ & _ & H). apply H. vm_compute. reflexivity.
Defined.

End PasswordFacts.
